(** * CADSCRIBE: the versioned script pipeline of [backend/services/s3_service.py]
    and the output poller of [backend/routes/scripts.py]

    The development embeds the Python code shallowly: Python [str] values are
    Rocq strings over ASCII, the S3 bucket is a finite map from keys to
    objects, every boto3 call is a step of a small state-and-exception monad,
    and the functions of [S3Service] are written in that monad with their
    [try]/[except] structure kept.  Logging and the performance counters do
    not influence any result and are left out. *)

From Stdlib Require Import String Ascii ZArith List Lia Bool Arith.
From Stdlib Require Import DecimalString DecimalNat DecimalFacts.
From stdpp Require Import gmap strings list fin_maps sorting.

Open Scope list_scope.
Open Scope stdpp_scope.

(** ** Python string primitives (ASCII text) *)
Module PyStr.

Definition is_digit (c : ascii) : bool :=
  let n := nat_of_ascii c in (48 <=? n) && (n <=? 57).

Definition is_upper (c : ascii) : bool :=
  let n := nat_of_ascii c in (65 <=? n) && (n <=? 90).

Definition is_lower (c : ascii) : bool :=
  let n := nat_of_ascii c in (97 <=? n) && (n <=? 122).

(** [\w] of the [re] module: letters, digits and the underscore. *)
Definition is_word (c : ascii) : bool :=
  is_digit c || is_upper c || is_lower c || (nat_of_ascii c =? 95).

(** [str.isspace] on ASCII: tab, LF, VT, FF, CR, FS, GS, RS, US and space. *)
Definition is_space (c : ascii) : bool :=
  let n := nat_of_ascii c in
  ((9 <=? n) && (n <=? 13)) || ((28 <=? n) && (n <=? 32)).

Definition lower_char (c : ascii) : ascii :=
  if is_upper c then ascii_of_nat (nat_of_ascii c + 32) else c.

Definition upper_char (c : ascii) : ascii :=
  if is_lower c then ascii_of_nat (nat_of_ascii c - 32) else c.

Fixpoint map_chars (f : ascii -> ascii) (s : string) : string :=
  match s with
  | EmptyString => EmptyString
  | String c r => String (f c) (map_chars f r)
  end.

(** [s.lower()] and [s.upper()]. *)
Definition lower (s : string) : string := map_chars lower_char s.
Definition upper (s : string) : string := map_chars upper_char s.

(** [s.startswith(p)]. *)
Fixpoint startswith (p s : string) : bool :=
  match p, s with
  | EmptyString, _ => true
  | String a p', String b s' => if Ascii.eqb a b then startswith p' s' else false
  | String _ _, EmptyString => false
  end.

(** [p in s]. *)
Fixpoint contains (p s : string) : bool :=
  startswith p s ||
  match s with
  | EmptyString => false
  | String _ s' => contains p s'
  end.

Fixpoint rev_acc (s acc : string) : string :=
  match s with
  | EmptyString => acc
  | String c r => rev_acc r (String c acc)
  end.

Definition rev (s : string) : string := rev_acc s EmptyString.

(** [s.endswith(p)]. *)
Definition endswith (p s : string) : bool := startswith (rev p) (rev s).

Fixpoint lstrip (s : string) : string :=
  match s with
  | EmptyString => EmptyString
  | String c r => if is_space c then lstrip r else s
  end.

(** [s.strip()]. *)
Definition strip (s : string) : string := rev (lstrip (rev (lstrip s))).

(** [s.split(sep)] for a one-character separator: never empty. *)
Fixpoint split (sep : ascii) (s : string) : list string :=
  match s with
  | EmptyString => [EmptyString]
  | String c r =>
      if Ascii.eqb c sep then EmptyString :: split sep r
      else match split sep r with
           | [] => [String c EmptyString]
           | w :: ws => String c w :: ws
           end
  end.

(** [sep.join(l)]. *)
Fixpoint join (sep : string) (l : list string) : string :=
  match l with
  | [] => EmptyString
  | [w] => w
  | w :: ws => w +:+ sep +:+ join sep ws
  end.

(** [l[-1]] for a list that [split] returned. *)
Definition last_part (l : list string) : string := List.last l EmptyString.

(** [str(n)] for a non-negative [int]. *)
Definition str (n : nat) : string := NilZero.string_of_uint (Nat.to_uint n).

Definition digit_value (c : ascii) : nat := nat_of_ascii c - 48.

Fixpoint int_acc (s : string) (acc : nat) : nat :=
  match s with
  | EmptyString => acc
  | String c r => int_acc r (10 * acc + digit_value c)
  end.

(** [int(s)] for a string of decimal digits, as [(\d+)] captures. *)
Definition int (s : string) : nat := int_acc s 0.

(** The longest prefix of digits and what follows it. *)
Fixpoint span_digits (s : string) : string * string :=
  match s with
  | EmptyString => (EmptyString, EmptyString)
  | String c r =>
      if is_digit c then
        let '(d, t) := span_digits r in (String c d, t)
      else (EmptyString, s)
  end.

(** [s] without the leading [p], when [s] starts with [p]. *)
Fixpoint strip_prefix (p s : string) : option string :=
  match p, s with
  | EmptyString, _ => Some s
  | String a p', String b s' => if Ascii.eqb a b then strip_prefix p' s' else None
  | String _ _, EmptyString => None
  end.

End PyStr.

(** ** The object store behind the boto3 client *)
Module S3.

(** JSON values as [json.dumps] writes them and [json.loads] reads them back.
    Numbers are the integers; arrays hold file names. *)
Inductive json :=
| JNull
| JBool (b : bool)
| JInt (z : Z)
| JStr (s : string)
| JList (l : list string).

(** A Python [dict] with string keys whose values are JSON values. *)
Abbreviation pydict := (gmap string json).

(** The bytes of an object, by how they were produced: a text, or the JSON
    document that [json.dumps] wrote from a [dict].  A [Text] is read back by
    [decode] as it is and is not a JSON document for [json.loads]. *)
Inductive body :=
| Text (s : string)
| Json (d : pydict).

Definition str_Z (z : Z) : string :=
  match z with
  | Z0 => "0"
  | Zpos p => PyStr.str (Pos.to_nat p)
  | Zneg p => "-" +:+ PyStr.str (Pos.to_nat p)
  end.

Definition hex_digit (n : nat) : ascii :=
  if n <? 10 then ascii_of_nat (48 + n) else ascii_of_nat (87 + n).

(** How [json.dumps] writes one character of a string. *)
Definition json_escape_char (c : ascii) : string :=
  let n := nat_of_ascii c in
  if n =? 34 then "\" +:+ String c ""
  else if n =? 92 then "\\"
  else if n =? 10 then "\n"
  else if n =? 13 then "\r"
  else if n =? 9 then "\t"
  else if n =? 8 then "\b"
  else if n =? 12 then "\f"
  else if n <? 32 then "\u00" +:+ String (hex_digit (n / 16)) (String (hex_digit (n mod 16)) "")
  else String c "".

Fixpoint json_escape (s : string) : string :=
  match s with
  | EmptyString => EmptyString
  | String c r => json_escape_char c +:+ json_escape r
  end.

Definition json_quote (s : string) : string :=
  String "034"%char (json_escape s) +:+ String "034"%char "".

Definition NL : string := String "010"%char EmptyString.

(** A value inside a dictionary printed with [indent=2]. *)
Definition json_value_text (j : json) : string :=
  match j with
  | JNull => "null"
  | JBool true => "true"
  | JBool false => "false"
  | JInt z => str_Z z
  | JStr s => json_quote s
  | JList [] => "[]"
  | JList l =>
      "[" +:+ NL +:+ PyStr.join ("," +:+ NL) (map (fun x => "    " +:+ json_quote x) l)
          +:+ NL +:+ "  ]"
  end.

(** [json.dumps(d, indent=2)]; the entries come in the order of the map, not
    in the order in which the Python dictionary was filled. *)
Definition json_dumps (d : pydict) : string :=
  match map_to_list d with
  | [] => "{}"
  | entries =>
      "{" +:+ NL
        +:+ PyStr.join ("," +:+ NL)
              (map (fun kv => "  " +:+ json_quote kv.1 +:+ ": " +:+ json_value_text kv.2) entries)
        +:+ NL +:+ "}"
  end.

(** [response['Body'].read().decode('utf-8')]. *)
Definition decode (b : body) : string :=
  match b with
  | Text s => s
  | Json d => json_dumps d
  end.

Record s3_object := mk_object {
  Body : body;
  ContentType : string;
  Metadata : gmap string string
}.

(** [botocore.exceptions.ClientError] with the error code and message of the
    response and the name of the operation that was called, and every other
    [Exception] with its text. *)
Inductive exn :=
| ClientError (code operation message : string)
| Exception (msg : string).

Inductive outcome (A : Type) :=
| Return (a : A)
| Raise (e : exn).
Arguments Return {A} a.
Arguments Raise {A} e.

(** What the process acts on: the bucket, the schedule of store faults, and
    the calls made to the bookkeeping database.  Each call of the S3 client
    takes the head of [outages]; [true] makes that call raise a [ClientError].
    An empty schedule is a store that answers every call. *)
Record world := mk_world {
  objects : gmap string s3_object;
  outages : list bool;
  db_updates : list (string * pydict)
}.

(** Computations that read and write the world and may raise. *)
Definition Py (A : Type) : Type := world -> outcome A * world.

Definition ret {A} (a : A) : Py A := fun b => (Return a, b).

Definition raise {A} (e : exn) : Py A := fun b => (Raise e, b).

Definition bind {A B} (c : Py A) (k : A -> Py B) : Py B :=
  fun b => match c b with
           | (Return a, b') => k a b'
           | (Raise e, b') => (Raise e, b')
           end.

(** [try: c  except ClientError as e: on_client e  except Exception as e: on_other e]. *)
Definition try_except {A} (c : Py A) (on_client on_other : exn -> Py A) : Py A :=
  fun b => match c b with
           | (Return a, b') => (Return a, b')
           | (Raise (ClientError code operation message), b') =>
               on_client (ClientError code operation message) b'
           | (Raise (Exception msg), b') => on_other (Exception msg) b'
           end.

(** [try: c  except ClientError: on_client], other exceptions pass through. *)
Definition try_client {A} (c : Py A) (on_client : exn -> Py A) : Py A :=
  try_except c on_client raise.

(** [try: c  except Exception as e: handler], which also catches [ClientError]. *)
Definition try_any {A} (c : Py A) (handler : exn -> Py A) : Py A :=
  try_except c handler handler.

Definition key_le (x y : string * s3_object) : Prop := String.le x.1 y.1.

#[global] Instance key_le_dec : RelDecision key_le.
Proof. intros x y. unfold key_le. apply _. Defined.

(** The keys that start with [prefix], with their objects, in key order
    (the order of the bytes of the keys, in which the store lists them). *)
Definition list_prefix (prefix : string) (m : gmap string s3_object)
  : list (string * s3_object) :=
  merge_sort key_le
    (filter (fun kv => Is_true (PyStr.startswith prefix kv.1)) (map_to_list m)).

(** The largest number of keys in one response of [list_objects_v2]. *)
Definition page_size : nat := 1000.

(** The first page of the listing of [prefix]. *)
Definition first_page (prefix : string) (m : gmap string s3_object)
  : list (string * s3_object) :=
  take page_size (list_prefix prefix m).

(** One call of the client, named by its operation: faulty when the schedule
    says so.  The fault stands for any [ClientError] of the store; it is
    given the code and message of S3's [AccessDenied]. *)
Definition client_call {A} (operation : string)
    (op : gmap string s3_object -> outcome A * gmap string s3_object) : Py A :=
  fun w => match outages w with
           | true :: rest =>
               (Raise (ClientError "AccessDenied" operation "Access Denied"),
                mk_world (objects w) rest (db_updates w))
           | false :: rest =>
               let '(r, m) := op (objects w) in (r, mk_world m rest (db_updates w))
           | [] =>
               let '(r, m) := op (objects w) in (r, mk_world m [] (db_updates w))
           end.

(** [s3_client.list_objects_v2(Bucket=..., Prefix=prefix)]: the ['Contents'] of
    the response; the key is missing from the response exactly when the list
    is empty.  One response holds at most [page_size] keys, the first ones in
    key order; the code passes no [MaxKeys] and asks for no further page, so
    the keys after the first page are never seen. *)
Definition list_objects_v2 (prefix : string) : Py (list (string * s3_object)) :=
  client_call "ListObjectsV2" (fun m => (Return (first_page prefix m), m)).

(** [s3_client.get_object(Bucket=..., Key=key)]. *)
Definition get_object (key : string) : Py s3_object :=
  client_call "GetObject"
    (fun m => match m !! key with
              | Some o => (Return o, m)
              | None =>
                  (Raise (ClientError "NoSuchKey" "GetObject"
                            "The specified key does not exist."), m)
              end).

(** [s3_client.put_object(Bucket=..., Key=key, Body=..., ...)]. *)
Definition put_object (key : string) (o : s3_object) : Py unit :=
  client_call "PutObject" (fun m => (Return tt, <[key := o]> m)).

(** [s3_client.delete_object(Bucket=..., Key=key)]: deleting a missing key is
    not an error. *)
Definition delete_object (key : string) : Py unit :=
  client_call "DeleteObject" (fun m => (Return tt, delete key m)).

(** [s3_client.delete_objects(Bucket=..., Delete={'Objects': keys})]. *)
Definition delete_objects (keys : list string) : Py unit :=
  client_call "DeleteObjects" (fun m => (Return tt, foldr delete m keys)).

(** [db_service.update_project(project, fields)], recorded as a call. *)
Definition update_project (project : string) (fields : pydict) : Py unit :=
  fun w => (Return tt, mk_world (objects w) (outages w) (db_updates w ++ [(project, fields)])).

(** [str(e)] of a caught exception; for a [ClientError] the sentence that
    botocore builds from the response. *)
Definition exn_str (e : exn) : string :=
  match e with
  | ClientError code operation message =>
      "An error occurred (" +:+ code +:+ ") when calling the " +:+ operation
        +:+ " operation: " +:+ message
  | Exception msg => msg
  end.

End S3.

Notation "'let*' x ':=' c 'in' k" := (S3.bind c (fun x => k))
  (at level 10, x name, c at level 100, k at level 200, only parsing).
Notation "'run' c 'then' k" := (S3.bind c (fun _ => k))
  (at level 10, c at level 100, k at level 200, only parsing).

(** ** [S3Service]: allocation, submission and the output listing *)
Module S3Service.
Import S3.

(** The configuration [__init__] leaves in [self]: whether the boto3 client
    could be created, and the bucket name. *)
Record service := mk_service {
  s3_client : bool;
  aws_bucket_name : string
}.

(** [not self.s3_client or not self.aws_bucket_name]. *)
Definition not_configured (self : service) : bool :=
  negb (s3_client self) || String.eqb (aws_bucket_name self) "".

(** One reading of [datetime.now(timezone.utc)]: whole seconds since the
    epoch, its [isoformat()] and its [strftime('%Y%m%d_%H%M%S')]. *)
Record instant := mk_instant {
  epoch : Z;
  isoformat : string;
  compact : string
}.

Definition LF : string := String "010"%char EmptyString.

(** The key layout shared with the worker. *)
Definition input_prefix (project_name : string) : string :=
  "input/" +:+ project_name +:+ "/".

Definition script_key (project_name : string) (version : nat) : string :=
  "input/" +:+ project_name +:+ "/" +:+ project_name +:+ "_v" +:+ PyStr.str version +:+ ".py".

Definition processed_key (project_name : string) (version : nat) : string :=
  "processed/" +:+ project_name +:+ "/" +:+ project_name +:+ "_v" +:+ PyStr.str version +:+ ".py.done".

Definition output_prefix (project_name : string) (version : nat) : string :=
  "output/" +:+ project_name +:+ "/v" +:+ PyStr.str version +:+ "/".

Definition metadata_key (project_name : string) (version : nat) : string :=
  "output/" +:+ project_name +:+ "/v" +:+ PyStr.str version +:+ "/metadata.json".

Definition error_key (project_name : string) (version : nat) : string :=
  "errors/" +:+ project_name +:+ "/" +:+ project_name +:+ "_v" +:+ PyStr.str version +:+ "_error.json".

(** [$]: the end of the string, or just before a final newline. *)
Definition at_end (s : string) : bool :=
  String.eqb s "" || String.eqb s LF.

(** The pattern [{re.escape(project_name)}_v(\d+)\.py$] matched at the start
    of [s]; the captured digits as an [int]. *)
Definition version_pattern_here (project_name s : string) : option nat :=
  match PyStr.strip_prefix (project_name +:+ "_v") s with
  | Some rest =>
      let '(digits, tail) := PyStr.span_digits rest in
      match PyStr.strip_prefix ".py" tail with
      | Some e =>
          if negb (String.eqb digits "") && at_end e
          then Some (PyStr.int digits) else None
      | None => None
      end
  | None => None
  end.

(** [version_pattern.search(key)]: the leftmost position where it matches. *)
Fixpoint version_pattern_search (project_name key : string) : option nat :=
  match version_pattern_here project_name key with
  | Some n => Some n
  | None =>
      match key with
      | EmptyString => None
      | String _ rest => version_pattern_search project_name rest
      end
  end.

(** The [versions] list that the loop over [response['Contents']] builds. *)
Definition listed_versions (project_name : string)
    (contents : list (string * s3_object)) : list nat :=
  omap (fun kv => version_pattern_search project_name kv.1) contents.

Definition get_next_version (self : service) (project_name : string) : Py nat :=
  if not_configured self then ret 1
  else
    try_any
      (let* contents := list_objects_v2 (input_prefix project_name) in
       match contents with
       | [] => ret 1
       | _ =>
           match listed_versions project_name contents with
           | [] => ret 1
           | versions => ret (max_list versions + 1)
           end
       end)
      (fun _ => ret 1).

(** The dictionary [upload_script] returns. *)
Record upload_result := mk_upload {
  up_success : bool;
  up_error : option string;
  up_s3_path : option string;
  up_filename : option string;
  up_version : option nat;
  up_metadata : gmap string string;
  up_upload_time : option string
}.

Definition upload_failure (error : string) : upload_result :=
  mk_upload false (Some error) None None None ∅ None.

Definition upload_metadata (project_name : string) (version : nat)
    (current_time : string) (user_id : option string) : gmap string string :=
  let metadata :=
    <["service" := "cadscribe-ai"]>
      (<["generated_at" := current_time]>
        (<["version" := PyStr.str version]>
          (<["project_id" := project_name]> ∅))) in
  match user_id with
  | Some u => if String.eqb u "" then metadata else <["user_id" := u]> metadata
  | None => metadata
  end.

Definition upload_script (self : service) (now : instant) (code project_name : string)
    (user_id : option string) : Py upload_result :=
  if not_configured self then ret (upload_failure "S3 not configured")
  else
    try_any
      (let* version := get_next_version self project_name in
       let filename := script_key project_name version in
       let current_time := isoformat now in
       let metadata := upload_metadata project_name version current_time user_id in
       run put_object filename (mk_object (Text code) "text/x-python" metadata) then
       let s3_path := "s3://" +:+ aws_bucket_name self +:+ "/" +:+ filename in
       ret (mk_upload true None (Some s3_path) (Some filename) (Some version)
              metadata (Some current_time)))
      (fun e => ret (upload_failure (exn_str e))).

Definition get_script_content (self : service) (project_name : string) (version : nat)
  : Py (option string) :=
  if not_configured self then ret None
  else
    try_any
      (let* response := get_object (script_key project_name version) in
       ret (Some (decode (Body response))))
      (fun _ => ret None).

(** An entry of the list [check_output_files] returns (the store's size and
    modification stamp are copied through unchanged and not kept here). *)
Record output_file := mk_output_file {
  filename : string;
  key : string;
  format : string;
  file_version : option nat
}.

Definition supported_extensions : list string :=
  [".FCStd"; ".STL"; ".STEP"; ".IGES"; ".OBJ"; ".GLTF"].

(** The pattern [/v(\d+)/] matched at the start of [s]. *)
Definition folder_pattern_here (s : string) : option nat :=
  match PyStr.strip_prefix "/v" s with
  | Some rest =>
      let '(digits, tail) := PyStr.span_digits rest in
      if negb (String.eqb digits "") && PyStr.startswith "/" tail
      then Some (PyStr.int digits) else None
  | None => None
  end.

Fixpoint folder_pattern_search (key : string) : option nat :=
  match folder_pattern_here key with
  | Some n => Some n
  | None =>
      match key with
      | EmptyString => None
      | String _ rest => folder_pattern_search rest
      end
  end.

(** [any(filename.upper().endswith(ext.upper()) for ext in supported_extensions)]. *)
Definition is_supported (filename : string) : bool :=
  existsb (fun ext => PyStr.endswith (PyStr.upper ext) (PyStr.upper filename))
          supported_extensions.

(** The body of the loop over [response['Contents']]. *)
Definition output_entry (key : string) : option output_file :=
  let filename := PyStr.last_part (PyStr.split "/"%char key) in
  if String.eqb filename "metadata.json" then None
  else
    let file_version := folder_pattern_search key in
    if is_supported filename then
      let extension := "." +:+ PyStr.upper (PyStr.last_part (PyStr.split "."%char filename)) in
      Some (mk_output_file filename key extension file_version)
    else None.

(** Where [x] goes in a list sorted by decreasing key: before the first
    entry that is not larger, so that equal entries keep their order, as the
    stable [list.sort(reverse=True)] does. *)
Fixpoint insert_desc {K A} (lt : K -> K -> bool) (k : K) (x : A) (l : list (K * A))
  : list (K * A) :=
  match l with
  | [] => [(k, x)]
  | (u, y) :: rest =>
      if lt k u then (u, y) :: insert_desc lt k x rest else (k, x) :: l
  end.

Definition sort_desc {K A} (lt : K -> K -> bool) (keyed : list (K * A)) : list A :=
  (foldr (fun kx acc => insert_desc lt kx.1 kx.2 acc) [] keyed).*2.

(** [output_files.sort(key=lambda x: x.get('version', 0), reverse=True)]: with
    two or more entries the keys get compared, and comparing [None] raises
    [TypeError]. *)
Definition sort_by_version (l : list output_file) : Py (list output_file) :=
  match l with
  | [] | [_] => ret l
  | _ =>
      match mapM (fun x => v ← file_version x; Some (v, x)) l with
      | Some keyed => ret (sort_desc Nat.ltb keyed)
      | None => raise (Exception "'<' not supported between instances of 'NoneType' and 'int'")
      end
  end.

(** [if version:] for an optional [int]. *)
Definition version_given (version : option nat) : option nat :=
  match version with
  | Some 0 => None
  | other => other
  end.

Definition check_output_files (self : service) (project_name : string)
    (version : option nat) : Py (list output_file) :=
  if not_configured self then ret []
  else
    try_any
      (let prefix :=
         match version_given version with
         | Some v => output_prefix project_name v
         | None => "output/" +:+ project_name +:+ "/"
         end in
       let* contents := list_objects_v2 prefix in
       match contents with
       | [] => ret []
       | _ =>
           let output_files := omap (fun kv => output_entry kv.1) contents in
           match version_given version with
           | Some _ => ret output_files
           | None => sort_by_version output_files
           end
       end)
      (fun _ => ret []).


(** ** [S3Service]: markers, metadata and logs *)

Definition json_of_option_string (o : option string) : json :=
  match o with
  | Some s => JStr s
  | None => JNull
  end.

(** [x or default] for an optional string. *)
Definition or_default (o : option string) (default : string) : string :=
  match o with
  | Some s => if String.eqb s "" then default else s
  | None => default
  end.

(** The hex SHA-256 digest of a text, kept symbolic. *)
Definition generate_script_hash (code : string) : string := "sha256:" +:+ code.

Definition create_version_metadata (self : service) (now : instant)
    (project_name : string) (version : nat) (output_files : list string)
    (processing_time : option Z) (worker_id log_file : option string) : Py bool :=
  if not_configured self then ret false
  else
    try_any
      (let* script_content := get_script_content self project_name version in
       let script_hash :=
         match script_content with
         | Some c => if String.eqb c "" then JNull else JStr (generate_script_hash c)
         | None => JNull
         end in
       let metadata : pydict :=
         <["metadata_version" := JStr "1.0"]>
         (<["log_file" := json_of_option_string log_file]>
         (<["worker_id" := JStr (or_default worker_id "unknown")]>
         (<["script_hash" := script_hash]>
         (<["output_files" := JList output_files]>
         (<["processing_time" := match processing_time with Some t => JInt t | None => JNull end]>
         (<["processed_at" := JStr (isoformat now)]>
         (<["project_name" := JStr project_name]>
         (<["input_version" := JInt (Z.of_nat version)]> ∅)))))))) in
       run put_object (metadata_key project_name version)
             (mk_object (Json metadata) "application/json" ∅) then
       ret true)
      (fun _ => ret false).

(** [str(processing_time) if processing_time else "unknown"], for a time in
    whole seconds: the tag of 90 reads [90] where Python, given the float
    90.0, writes [90.0]. *)
Definition processing_time_tag (processing_time : option Z) : string :=
  match processing_time with
  | Some (Z.pos p) => PyStr.str (Pos.to_nat p)
  | Some (Z.neg p) => "-" +:+ PyStr.str (Pos.to_nat p)
  | _ => "unknown"
  end.

Definition mark_script_processed (self : service) (now : instant)
    (project_name : string) (version : nat) (output_files : list string)
    (processing_time : option Z) (worker_id log_file : option string) : Py bool :=
  if not_configured self then ret false
  else
    try_any
      (run (match output_files with
            | [] => ret false
            | _ => create_version_metadata self now project_name version output_files
                     processing_time worker_id log_file
            end) then
       let metadata : gmap string string :=
         <["worker_id" := or_default worker_id "unknown"]>
         (<["processing_time" := processing_time_tag processing_time]>
         (<["output_files_count" := PyStr.str (length output_files)]>
         (<["service" := "cadscribe-freecad"]>
         (<["processed_at" := isoformat now]>
         (<["version" := PyStr.str version]>
         (<["project_id" := project_name]> ∅)))))) in
       run put_object (processed_key project_name version)
             (mk_object (Text "") "" metadata) then
       ret true)
      (fun _ => ret false).

(** An entry of the list [get_project_logs] returns. *)
Record log_file_info := mk_log_file {
  log_filename : string;
  log_key : string;
  timestamp : string
}.

(** Exactly [n] digits at the start of [s], and what follows them. *)
Fixpoint take_digits (n : nat) (s : string) : option (string * string) :=
  match n with
  | 0 => Some (EmptyString, s)
  | S n' =>
      match s with
      | String c r =>
          if PyStr.is_digit c then
            match take_digits n' r with
            | Some (d, t) => Some (String c d, t)
            | None => None
            end
          else None
      | EmptyString => None
      end
  end.

(** The pattern [{re.escape(project_name)}_info_(\d{8}_\d{6})\.log$] matched
    at the start of [s]. *)
Definition log_pattern_here (project_name s : string) : option string :=
  match PyStr.strip_prefix (project_name +:+ "_info_") s with
  | Some rest =>
      match take_digits 8 rest with
      | Some (day, String "_"%char rest1) =>
          match take_digits 6 rest1 with
          | Some (time, rest2) =>
              match PyStr.strip_prefix ".log" rest2 with
              | Some e => if at_end e then Some (day +:+ "_" +:+ time) else None
              | None => None
              end
          | None => None
          end
      | _ => None
      end
  | None => None
  end.

Fixpoint log_pattern_search (project_name s : string) : option string :=
  match log_pattern_here project_name s with
  | Some t => Some t
  | None =>
      match s with
      | EmptyString => None
      | String _ rest => log_pattern_search project_name rest
      end
  end.

Definition log_entry (project_name : string) (key : string) : option (string * log_file_info) :=
  let filename := PyStr.last_part (PyStr.split "/"%char key) in
  match log_pattern_search project_name filename with
  | Some timestamp_str => Some (timestamp_str, mk_log_file filename key timestamp_str)
  | None => None
  end.

Definition get_project_logs (self : service) (project_name : string) (limit : nat)
  : Py (list log_file_info) :=
  if not_configured self then ret []
  else
    try_any
      (let* contents := list_objects_v2 ("logs/" +:+ project_name +:+ "/") in
       match contents with
       | [] => ret []
       | _ =>
           let log_files := omap (fun kv => log_entry project_name kv.1) contents in
           ret (take limit (sort_desc String.ltb log_files))
       end)
      (fun _ => ret []).

Definition get_log_content (self : service) (project_name log_filename : string)
  : Py (option string) :=
  if not_configured self then ret None
  else
    try_any
      (let* response := get_object ("logs/" +:+ project_name +:+ "/" +:+ log_filename) in
       ret (Some (decode (Body response))))
      (fun _ => ret None).

(** ** ErrorAnalyzer *)

(** The dictionary [_parse_log_content] fills. *)
Record error_info := mk_error_info {
  error_type : string;
  error_details : string;
  stack_trace : string;
  missing_modules : list string;
  syntax_errors : list string;
  runtime_errors : list string
}.

Definition unknown_error : error_info := mk_error_info "unknown" "" "" [] [] [].

Definition set_error_type (t : string) (e : error_info) : error_info :=
  mk_error_info t (error_details e) (stack_trace e) (missing_modules e)
    (syntax_errors e) (runtime_errors e).

Definition set_error_details (d : string) (e : error_info) : error_info :=
  mk_error_info (error_type e) d (stack_trace e) (missing_modules e)
    (syntax_errors e) (runtime_errors e).

Definition set_stack_trace (t : string) (e : error_info) : error_info :=
  mk_error_info (error_type e) (error_details e) t (missing_modules e)
    (syntax_errors e) (runtime_errors e).

Definition append_missing_module (m : string) (e : error_info) : error_info :=
  mk_error_info (error_type e) (error_details e) (stack_trace e)
    (missing_modules e ++ [m]) (syntax_errors e) (runtime_errors e).

Definition append_syntax_error (m : string) (e : error_info) : error_info :=
  mk_error_info (error_type e) (error_details e) (stack_trace e)
    (missing_modules e) (syntax_errors e ++ [m]) (runtime_errors e).

Definition append_runtime_error (m : string) (e : error_info) : error_info :=
  mk_error_info (error_type e) (error_details e) (stack_trace e)
    (missing_modules e) (syntax_errors e) (runtime_errors e ++ [m]).

(** The inner loop of the traceback branch: the lines from the current one
    on, at most ten, up to the first blank one. *)
Fixpoint stack_lines (n : nat) (lines : list string) : list string :=
  match n, lines with
  | S n', l :: rest =>
      if String.eqb (PyStr.strip l) "" then [] else l :: stack_lines n' rest
  | _, _ => []
  end.

(** The body of the loop over the lines: [line] is [lines[i]] and [following]
    is [lines[i+1:]]. *)
Definition classify_line (line : string) (following : list string)
    (info : error_info) : error_info :=
  let line_lower := PyStr.lower line in
  if PyStr.contains "importerror" line_lower || PyStr.contains "modulenotfounderror" line_lower then
    let info := set_error_details (PyStr.strip line) (set_error_type "import_error" info) in
    if PyStr.contains "cadquery" line_lower then append_missing_module "cadquery" info
    else if PyStr.contains "cq" line_lower then append_missing_module "cadquery" info
    else if PyStr.contains "importgui" line_lower then append_missing_module "importgui" info
    else info
  else if PyStr.contains "importgui" line_lower || PyStr.contains "gui" line_lower then
    append_missing_module "importgui"
      (set_error_details (PyStr.strip line) (set_error_type "gui_error" info))
  else if PyStr.contains "syntaxerror" line_lower then
    append_syntax_error (PyStr.strip line) (set_error_type "syntax_error" info)
  else if PyStr.contains "attributeerror" line_lower then
    append_runtime_error (PyStr.strip line) (set_error_type "attribute_error" info)
  else if PyStr.contains "error:" line_lower || PyStr.contains "exception:" line_lower then
    append_runtime_error (PyStr.strip line) info
  else if PyStr.contains "freecad" line_lower
          && (PyStr.contains "error" line_lower || PyStr.contains "exception" line_lower) then
    append_runtime_error (PyStr.strip line) (set_error_type "freecad_error" info)
  else if PyStr.contains "traceback" line_lower then
    set_stack_trace (PyStr.join LF (stack_lines 10 (line :: following))) info
  else info.

(** [for i, line in enumerate(lines): ...]. *)
Fixpoint parse_lines (lines : list string) (info : error_info) : error_info :=
  match lines with
  | [] => info
  | line :: following => parse_lines following (classify_line line following info)
  end.

Definition _parse_log_content (log_content : string) : error_info :=
  parse_lines (PyStr.split "010"%char log_content) unknown_error.

(** The loop over [recent_logs]: the first log whose name mentions the
    version and whose content can be read ends the loop. *)
Fixpoint scan_recent_logs (self : service) (project_name : string) (version : nat)
    (recent_logs : list log_file_info) (info : error_info) : Py error_info :=
  match recent_logs with
  | [] => ret info
  | entry :: rest =>
      let name := log_filename entry in
      if PyStr.contains ("v" +:+ PyStr.str version) name
         || PyStr.contains ("_" +:+ PyStr.str version +:+ "_") name then
        let* log_content := get_log_content self project_name name in
        match log_content with
        | Some c =>
            if String.eqb c "" then scan_recent_logs self project_name version rest info
            else ret (_parse_log_content c)
        | None => scan_recent_logs self project_name version rest info
        end
      else scan_recent_logs self project_name version rest info
  end.

Definition readable (log_content : option string) : option string :=
  match log_content with
  | Some c => if String.eqb c "" then None else Some c
  | None => None
  end.

Definition _analyze_error_logs (self : service) (project_name : string) (version : nat)
    (specific_log_file : option string) : Py error_info :=
  try_any
    (let* found :=
       match specific_log_file with
       | Some f =>
           if String.eqb f "" then ret None
           else let* log_content := get_log_content self project_name f in
                ret (readable log_content)
       | None => ret None
       end in
     match found with
     | Some c => ret (_parse_log_content c)
     | None =>
         let* recent_logs := get_project_logs self project_name 5 in
         scan_recent_logs self project_name version recent_logs unknown_error
     end)
    (fun e => ret (mk_error_info "log_analysis_failed" (exn_str e) "" [] [] [])).

(** ** AutoFixEngine *)

(** A dimension: one of the [int] defaults, or [float(literal)]. *)
Inductive number :=
| PyInt (n : nat)
| PyFloat (literal : string).

Fixpoint rstrip_zeros (rev_frac : string) : string :=
  match rev_frac with
  | String "0"%char r => rstrip_zeros r
  | _ => rev_frac
  end.

(** [repr(float(literal))] for a literal [digits] or [digits.digits] with at
    most fifteen significant digits and a value that is zero or at least
    [0.0001]: there Python prints the decimal itself, without leading zeros
    and with a fraction that has no trailing zeros but at least one digit.
    Beyond that range Python rounds or switches to exponent notation, which
    this function does not follow. *)
Definition float_repr (literal : string) : string :=
  let '(whole, rest) := PyStr.span_digits literal in
  let frac := match rest with String "."%char f => f | _ => EmptyString end in
  let frac' := PyStr.rev (rstrip_zeros (PyStr.rev frac)) in
  PyStr.str (PyStr.int whole) +:+ "." +:+ (if String.eqb frac' "" then "0" else frac').

(** What an f-string prints for [{w}]. *)
Definition format_number (x : number) : string :=
  match x with
  | PyInt n => PyStr.str n
  | PyFloat literal => float_repr literal
  end.

Definition starts_with_word (s : string) : bool :=
  match s with
  | String c _ => PyStr.is_word c
  | EmptyString => false
  end.

(** The pattern [\b\d+\.?\d*\b] matched at the start of [s], which begins a
    run of digits at a word boundary: the match and what follows it.  The
    greedy match takes the fraction when a boundary follows it; failing that
    it keeps the dot when a word character follows the dot; failing that it
    is the first run of digits alone, which needs a boundary after it. *)
Definition number_here (s : string) : option (string * string) :=
  let '(run1, after1) := PyStr.span_digits s in
  if String.eqb run1 "" then None
  else
    match after1 with
    | String "."%char frac =>
        let '(run2, after2) := PyStr.span_digits frac in
        if negb (String.eqb run2 "") && negb (starts_with_word after2)
        then Some (run1 +:+ "." +:+ run2, after2)
        else if starts_with_word frac then Some (run1 +:+ ".", frac)
        else Some (run1, after1)
    | _ => if starts_with_word after1 then None else Some (run1, after1)
    end.

(** [re.findall(r'\b\d+\.?\d*\b', code)], scanning left to right; [prev_word]
    tells whether the character before [s] is a word character, and [fuel]
    bounds the number of positions tried. *)
Fixpoint findall_numbers (fuel : nat) (prev_word : bool) (s : string) : list string :=
  match fuel with
  | 0 => []
  | S fuel' =>
      match s with
      | EmptyString => []
      | String c r =>
          if PyStr.is_digit c && negb prev_word then
            match number_here s with
            | Some (m, rest) =>
                m :: findall_numbers fuel' (negb (PyStr.endswith "." m)) rest
            | None => findall_numbers fuel' (PyStr.is_word c) r
            end
          else findall_numbers fuel' (PyStr.is_word c) r
      end
  end.

Definition _extract_dimensions_from_code (code : string) : list number :=
  match findall_numbers (String.length code) false code with
  | n0 :: n1 :: n2 :: _ => [PyFloat n0; PyFloat n1; PyFloat n2]
  | _ => [PyInt 10; PyInt 10; PyInt 10]
  end.

Definition Q : string := String "034"%char EmptyString.

Definition _generate_freecad_box (dimensions : list number) : string :=
  let '(w, h, d) :=
    match dimensions with
    | w :: h :: d :: _ => (w, h, d)
    | _ => (PyInt 10, PyInt 10, PyInt 10)
    end in
  PyStr.join LF
    ["import FreeCAD, Part, Mesh";
     "import os";
     "";
     "doc = FreeCAD.newDocument(" +:+ Q +:+ "MyDoc" +:+ Q +:+ ")";
     "cube = doc.addObject(" +:+ Q +:+ "Part::Box" +:+ Q +:+ ", " +:+ Q +:+ "Cube" +:+ Q +:+ ")";
     "cube.Length = " +:+ format_number w;
     "cube.Width = " +:+ format_number h;
     "cube.Height = " +:+ format_number d;
     "doc.recompute()";
     "";
     "# Multi-format export (HEADLESS)";
     "output_dir = os.environ.get(" +:+ Q +:+ "FREECAD_OUTPUT" +:+ Q +:+ ", " +:+ Q +:+ "/tmp" +:+ Q +:+ ")";
     "base_name = " +:+ Q +:+ "MyHeadlessModel" +:+ Q;
     "";
     "try:";
     "    # Save FreeCAD document";
     "    fcstd_path = os.path.join(output_dir, f" +:+ Q +:+ "{base_name}.fcstd" +:+ Q +:+ ")";
     "    doc.saveAs(fcstd_path)";
     "    ";
     "    # Export STL mesh";
     "    stl_path = os.path.join(output_dir, f" +:+ Q +:+ "{base_name}.stl" +:+ Q +:+ ")";
     "    Mesh.export([cube], stl_path)";
     "    ";
     "    # Export OBJ mesh";
     "    obj_path = os.path.join(output_dir, f" +:+ Q +:+ "{base_name}.obj" +:+ Q +:+ ")";
     "    Mesh.export([cube], obj_path)";
     "    ";
     "    # Export STEP";
     "    step_path = os.path.join(output_dir, f" +:+ Q +:+ "{base_name}.step" +:+ Q +:+ ")";
     "    Part.export([cube], step_path)";
     "    ";
     "    # Export IGES";
     "    iges_path = os.path.join(output_dir, f" +:+ Q +:+ "{base_name}.iges" +:+ Q +:+ ")";
     "    Part.export([cube], iges_path)";
     "    ";
     "except Exception as e:";
     "    print(f" +:+ Q +:+ "Export error: {e}" +:+ Q +:+ ")"].

Definition _generate_freecad_cylinder (dimensions : list number) : string :=
  let '(r, h) :=
    match dimensions with
    | r :: h :: _ => (r, h)
    | _ => (PyInt 5, PyInt 10)
    end in
  PyStr.join LF
    ["import FreeCAD, Part, Mesh";
     "import os";
     "";
     "doc = FreeCAD.newDocument(" +:+ Q +:+ "MyDoc" +:+ Q +:+ ")";
     "cylinder = doc.addObject(" +:+ Q +:+ "Part::Cylinder" +:+ Q +:+ ", " +:+ Q +:+ "Cylinder" +:+ Q +:+ ")";
     "cylinder.Radius = " +:+ format_number r;
     "cylinder.Height = " +:+ format_number h;
     "doc.recompute()";
     "";
     "# Multi-format export (HEADLESS)";
     "output_dir = os.environ.get(" +:+ Q +:+ "FREECAD_OUTPUT" +:+ Q +:+ ", " +:+ Q +:+ "/tmp" +:+ Q +:+ ")";
     "base_name = " +:+ Q +:+ "MyHeadlessModel" +:+ Q;
     "";
     "try:";
     "    # Save FreeCAD document";
     "    fcstd_path = os.path.join(output_dir, f" +:+ Q +:+ "{base_name}.fcstd" +:+ Q +:+ ")";
     "    doc.saveAs(fcstd_path)";
     "    ";
     "    # Export STL mesh";
     "    stl_path = os.path.join(output_dir, f" +:+ Q +:+ "{base_name}.stl" +:+ Q +:+ ")";
     "    Mesh.export([cylinder], stl_path)";
     "    ";
     "    # Export OBJ mesh";
     "    obj_path = os.path.join(output_dir, f" +:+ Q +:+ "{base_name}.obj" +:+ Q +:+ ")";
     "    Mesh.export([cylinder], obj_path)";
     "    ";
     "    # Export STEP";
     "    step_path = os.path.join(output_dir, f" +:+ Q +:+ "{base_name}.step" +:+ Q +:+ ")";
     "    Part.export([cylinder], step_path)";
     "    ";
     "    # Export IGES";
     "    iges_path = os.path.join(output_dir, f" +:+ Q +:+ "{base_name}.iges" +:+ Q +:+ ")";
     "    Part.export([cylinder], iges_path)";
     "    ";
     "except Exception as e:";
     "    print(f" +:+ Q +:+ "Export error: {e}" +:+ Q +:+ ")"].

Definition _generate_freecad_sphere (dimensions : list number) : string :=
  let r :=
    match dimensions with
    | r :: _ => r
    | [] => PyInt 5
    end in
  PyStr.join LF
    ["import FreeCAD, Part, Mesh";
     "import os";
     "";
     "doc = FreeCAD.newDocument(" +:+ Q +:+ "MyDoc" +:+ Q +:+ ")";
     "sphere = doc.addObject(" +:+ Q +:+ "Part::Sphere" +:+ Q +:+ ", " +:+ Q +:+ "Sphere" +:+ Q +:+ ")";
     "sphere.Radius = " +:+ format_number r;
     "doc.recompute()";
     "";
     "# Multi-format export (HEADLESS)";
     "output_dir = os.environ.get(" +:+ Q +:+ "FREECAD_OUTPUT" +:+ Q +:+ ", " +:+ Q +:+ "/tmp" +:+ Q +:+ ")";
     "base_name = " +:+ Q +:+ "MyHeadlessModel" +:+ Q;
     "";
     "try:";
     "    # Save FreeCAD document";
     "    fcstd_path = os.path.join(output_dir, f" +:+ Q +:+ "{base_name}.fcstd" +:+ Q +:+ ")";
     "    doc.saveAs(fcstd_path)";
     "    ";
     "    # Export STL mesh";
     "    stl_path = os.path.join(output_dir, f" +:+ Q +:+ "{base_name}.stl" +:+ Q +:+ ")";
     "    Mesh.export([sphere], stl_path)";
     "    ";
     "    # Export OBJ mesh";
     "    obj_path = os.path.join(output_dir, f" +:+ Q +:+ "{base_name}.obj" +:+ Q +:+ ")";
     "    Mesh.export([sphere], obj_path)";
     "    ";
     "    # Export STEP";
     "    step_path = os.path.join(output_dir, f" +:+ Q +:+ "{base_name}.step" +:+ Q +:+ ")";
     "    Part.export([sphere], step_path)";
     "    ";
     "    # Export IGES";
     "    iges_path = os.path.join(output_dir, f" +:+ Q +:+ "{base_name}.iges" +:+ Q +:+ ")";
     "    Part.export([sphere], iges_path)";
     "    ";
     "except Exception as e:";
     "    print(f" +:+ Q +:+ "Export error: {e}" +:+ Q +:+ ")"].

Definition _generate_freecad_replacement (original_code error_message : string) : string :=
  if PyStr.contains "cadquery" (PyStr.lower error_message)
     || PyStr.contains "cq" (PyStr.lower error_message) then
    let dimensions := _extract_dimensions_from_code original_code in
    if PyStr.contains ".box(" original_code || PyStr.contains "box" (PyStr.lower original_code) then
      _generate_freecad_box dimensions
    else if PyStr.contains ".cylinder(" original_code
            || PyStr.contains "cylinder" (PyStr.lower original_code) then
      _generate_freecad_cylinder dimensions
    else if PyStr.contains ".sphere(" original_code
            || PyStr.contains "sphere" (PyStr.lower original_code) then
      _generate_freecad_sphere dimensions
    else _generate_freecad_box [PyInt 10; PyInt 10; PyInt 10]
  else _generate_freecad_box [PyInt 10; PyInt 10; PyInt 10].

(** The text-generation collaborator behind [ai_service.generate_code_fix]:
    its answer to the prompt that [_create_fix_prompt] builds from the
    original code, the diagnosis and the error message; [None] when it has
    no answer or fails. *)
Definition fix_generator : Type := string -> error_info -> option string -> option string.

Definition _generate_ai_fixed_script (ai_service : fix_generator) (original_code : string)
    (error_info : error_info) (error_message : option string) : string :=
  match ai_service original_code error_info error_message with
  | Some fixed_code =>
      if negb (String.eqb fixed_code "") && PyStr.contains "import FreeCAD" fixed_code
      then fixed_code
      else _generate_freecad_replacement original_code (or_default error_message "AI fix failed")
  | None =>
      _generate_freecad_replacement original_code (or_default error_message "AI fix failed")
  end.


(** ** RecoveryCoordinator *)

(** [json.loads(response['Body'].read().decode('utf-8'))]. *)
Definition json_loads (o : s3_object) : Py pydict :=
  match Body o with
  | Json d => ret d
  | Text _ => raise (Exception "Expecting value: line 1 column 1 (char 0)")
  end.

(** A JSON value used as a number: [bool] is an [int] in Python; the other
    values make a comparison or an addition raise [TypeError]. *)
Definition as_int (j : json) : option Z :=
  match j with
  | JInt z => Some z
  | JBool true => Some 1%Z
  | JBool false => Some 0%Z
  | _ => None
  end.

(** boto3 accepts only [str] values in [Metadata]; anything else raises
    [ParamValidationError] before the request is sent. *)
Definition metadata_value (j : json) : Py string :=
  match j with
  | JStr v => ret v
  | _ => raise (Exception "Parameter validation failed: invalid type for parameter Metadata")
  end.

Definition failure (error : string) : pydict :=
  <["error" := JStr error]> (<["success" := JBool false]> ∅).

Definition mark_script_failed (self : service) (now : instant) (project_name : string)
    (version : nat) (error_message : string) (retry_count : Z) : Py bool :=
  try_any
    (if negb (s3_client self) then ret false
     else
       let error_data : pydict :=
         <["next_retry_after" := if (retry_count <? 3)%Z then JStr (isoformat now) else JNull]>
         (<["max_retries" := JInt 3]>
         (<["failed_at" := JStr (isoformat now)]>
         (<["retry_count" := JInt retry_count]>
         (<["error_message" := JStr error_message]>
         (<["status" := JStr "FAILED"]>
         (<["version" := JInt (Z.of_nat version)]>
         (<["project_name" := JStr project_name]> ∅))))))) in
       run put_object (error_key project_name version)
             (mk_object (Json error_data) "application/json" ∅) then
       ret true)
    (fun _ => ret false).

Definition _clear_version_outputs (self : service) (project_name : string) (version : nat)
  : Py bool :=
  try_any
    (if negb (s3_client self) then ret false
     else
       let* contents := list_objects_v2 (output_prefix project_name version) in
       run (match contents.*1 with
            | [] => ret tt
            | objects_to_delete => delete_objects objects_to_delete
            end) then
       ret true)
    (fun _ => ret false).

(** [try: delete_object(key)  except ClientError: pass]. *)
Definition delete_quietly (key : string) : Py unit :=
  try_client (delete_object key) (fun _ => ret tt).

Definition replace_failed_script (self : service) (now : instant) (project_name : string)
    (version : nat) (new_code : string) (user_id : option string) : Py pydict :=
  try_any
    (if negb (s3_client self) then ret (failure "S3 not configured")
     else
       let error_key := error_key project_name version in
       let* error_data :=
         try_client
           (let* error_response := get_object error_key in
            let* d := json_loads error_response in
            ret (Some d))
           (fun _ => ret None) in
       let script_key := script_key project_name version in
       let* original_error :=
         match error_data with
         | Some d =>
             if bool_decide (d = ∅) then ret "Manual replacement"
             else metadata_value (default (JStr "Unknown") (d !! "error_message"))
         | None => ret "Manual replacement"
         end in
       run put_object script_key
             (mk_object (Text new_code) "text/plain"
                (<["original_error" := original_error]>
                 (<["replaced_at" := isoformat now]>
                 (<["user_id" := or_default user_id "system"]> ∅)))) then
       run delete_quietly (processed_key project_name version) then
       run (match error_data with
            | Some d => if bool_decide (d = ∅) then ret tt else delete_quietly error_key
            | None => ret tt
            end) then
       run _clear_version_outputs self project_name version then
       ret (<["message" := JStr "Script replaced successfully. AWS worker will reprocess it."]>
            (<["replaced_at" := JStr (isoformat now)]>
            (<["script_key" := JStr script_key]>
            (<["version" := JInt (Z.of_nat version)]>
            (<["project_name" := JStr project_name]>
            (<["success" := JBool true]> ∅)))))))
    (fun e => ret (failure (exn_str e))).

(** What the first [try] block of [retry_failed_script] leaves: an early
    [return], or the record and its retry count. *)
Inductive retry_check :=
| Rejected (answer : pydict)
| Retryable (error_data : pydict) (retry_count : Z).

Definition retry_failed_script (self : service) (now : instant) (project_name : string)
    (version : nat) : Py pydict :=
  try_any
    (if negb (s3_client self) then ret (failure "S3 not configured")
     else
       let error_key := error_key project_name version in
       let* checked :=
         try_client
           (let* error_response := get_object error_key in
            let* error_data := json_loads error_response in
            match as_int (default (JInt 0) (error_data !! "retry_count")) with
            | Some retry_count =>
                if (3 <=? retry_count)%Z then
                  ret (Rejected (<["retry_count" := JInt retry_count]>
                                   (failure "Maximum retry attempts reached")))
                else ret (Retryable error_data retry_count)
            | None =>
                raise (Exception "'>=' not supported between instances of these types")
            end)
           (fun _ => ret (Rejected (failure "No error record found"))) in
       match checked with
       | Rejected answer => ret answer
       | Retryable error_data retry_count =>
           run delete_quietly (processed_key project_name version) then
           let error_data :=
             <["retry_attempted_at" := JStr (isoformat now)]>
               (<["retry_count" := JInt (retry_count + 1)]> error_data) in
           run put_object error_key (mk_object (Json error_data) "application/json" ∅) then
           ret (<["message" := JStr "Retry initiated. AWS worker will reprocess the script."]>
                (<["retry_count" := JInt (retry_count + 1)]>
                (<["version" := JInt (Z.of_nat version)]>
                (<["project_name" := JStr project_name]>
                (<["success" := JBool true]> ∅)))))
       end)
    (fun e => ret (failure (exn_str e))).

Definition fix_log_key (now : instant) (project_name : string) (version : nat) : string :=
  "logs/" +:+ project_name +:+ "/" +:+ project_name +:+ "_autofix_v" +:+ PyStr.str version
    +:+ "_" +:+ compact now +:+ ".json".

Definition auto_fix_failed_script (self : service) (ai_service : fix_generator)
    (now : instant) (project_name : string) (version : nat)
    (error_message log_file : option string) : Py bool :=
  try_any
    (if negb (s3_client self) then ret false
     else
       let script_key := script_key project_name version in
       let* fetched :=
         try_client
           (let* response := get_object script_key in
            ret (Some (decode (Body response))))
           (fun _ => ret None) in
       match fetched with
       | None => ret false
       | Some original_code =>
           let* detailed_error_info := _analyze_error_logs self project_name version log_file in
           let corrected_code :=
             _generate_ai_fixed_script ai_service original_code detailed_error_info
               error_message in
           let* original_error := metadata_value (json_of_option_string error_message) in
           run put_object script_key
                 (mk_object (Text corrected_code) "text/plain"
                    (<["fix_type" := "cadquery_to_freecad"]>
                     (<["fixed_at" := isoformat now]>
                     (<["original_error" := original_error]>
                     (<["auto_fixed" := "true"]> ∅))))) then
           run delete_quietly (processed_key project_name version) then
           run _clear_version_outputs self project_name version then
           let fix_log : pydict :=
             <["status" := JStr "script_replaced"]>
             (<["fix_type" := JStr "cadquery_to_freecad"]>
             (<["fixed_at" := JStr (isoformat now)]>
             (<["original_error" := json_of_option_string error_message]>
             (<["action" := JStr "auto_fix"]>
             (<["version" := JInt (Z.of_nat version)]>
             (<["project_name" := JStr project_name]> ∅)))))) in
           run put_object (fix_log_key now project_name version)
                 (mk_object (Json fix_log) "application/json" ∅) then
           ret true
       end)
    (fun _ => ret false).

End S3Service.

(** ** ProcessingMonitor: [poll_for_output_files] of [routes/scripts.py] *)
Module Monitor.
Import S3 S3Service.

Definition max_attempts : nat := 20.

(** What happens around the task while it runs: [sleeping k] is what the
    worker and the store do to the bucket and to the fault schedule during
    the sleep that starts with [attempt = k], and [clock k] is the time read
    after [k] sleeps. *)
Record surroundings := mk_surroundings {
  sleeping : nat -> world -> world;
  clock : nat -> instant
}.

(** [await asyncio.sleep(30)]: the surroundings act; the calls this process
    made to the bookkeeping database stay as they are. *)
Definition sleep (env : surroundings) (attempt : nat) : Py unit :=
  fun w => let w' := sleeping env attempt w in
           (Return tt, mk_world (objects w') (outages w') (db_updates w)).

Definition completed_update (now : instant) (version : nat) (count : nat)
    (processing_time : Z) : pydict :=
  <["metadata.processing_time" := JInt processing_time]>
  (<["metadata.output_files_count" := JInt (Z.of_nat count)]>
  (<["metadata.latest_version" := JInt (Z.of_nat version)]>
  (<["metadata.completion_time" := JStr (isoformat now)]>
  (<["metadata.output_files_ready" := JBool true]>
  (<["metadata.processing_status" := JStr "completed"]> ∅))))).

Definition timeout_update (now : instant) (version : nat) : pydict :=
  <["metadata.timeout_version" := JInt (Z.of_nat version)]>
  (<["metadata.timeout_time" := JStr (isoformat now)]>
  (<["metadata.output_files_ready" := JBool false]>
  (<["metadata.processing_status" := JStr "timeout"]> ∅))).

(** The branch [if output_files:] of the loop body, up to its [break].
    [total_seconds()] is a float; the clock here counts whole seconds and the
    difference is kept as an integer, so the number recorded reads [90] where
    Python records [90.0]. *)
Definition record_completion (self : service) (env : surroundings) (start_time : instant)
    (project_name : string) (version attempt : nat) (output_files : list output_file)
  : Py unit :=
  let now := clock env attempt in
  let processing_time := (epoch now - epoch start_time)%Z in
  let output_filenames := map filename output_files in
  let expected_log_file := project_name +:+ "_info_" +:+ compact now +:+ ".log" in
  run mark_script_processed self now project_name version output_filenames
        (Some processing_time) (Some "aws-freecad-worker") (Some expected_log_file) then
  try_any
    (update_project project_name
       (completed_update now version (length output_filenames) processing_time))
    (fun _ => ret tt).

(** The [while attempt < max_attempts] loop; the result is the final value of
    [attempt].  Every iteration increments [attempt], so [fuel] iterations
    are enough when [fuel + attempt >= max_attempts]. *)
Fixpoint poll_loop (self : service) (env : surroundings) (start_time : instant)
    (project_name : string) (version : nat) (fuel attempt : nat) : Py nat :=
  match fuel with
  | 0 => ret attempt
  | S fuel' =>
      if attempt <? max_attempts then
        let continue := poll_loop self env start_time project_name version fuel' in
        let* step :=
          try_any
            (run sleep env attempt then
             let attempt := attempt + 1 in
             let* output_files := check_output_files self project_name (Some version) in
             match output_files with
             | [] => ret (attempt, false)
             | _ =>
                 run record_completion self env start_time project_name version attempt
                       output_files then
                 ret (attempt, true)
             end)
            (fun _ => ret (attempt + 1, false)) in
        if step.2 then ret step.1 else continue step.1
      else ret attempt
  end.

(** The task itself; it returns the final [attempt] (Python returns [None]),
    so that the number of cycles it ran can be stated. *)
Definition poll_for_output_files (self : service) (env : surroundings)
    (project_name : string) (version : nat) (user_id : string) : Py nat :=
  let start_time := clock env 0 in
  let* attempt := poll_loop self env start_time project_name version max_attempts 0 in
  if max_attempts <=? attempt then
    let now := clock env attempt in
    run mark_script_processed self now project_name version []
          (Some (epoch now - epoch start_time)%Z) (Some "timeout") None then
    run try_any (update_project project_name (timeout_update now version))
          (fun _ => ret tt) then
    ret attempt
  else ret attempt.

(** The statuses written to the bookkeeping database, in order. *)
Definition recorded_statuses (w : world) : list json :=
  omap (fun call => call.2 !! "metadata.processing_status") (db_updates w).

(** The list a call returned, empty if it raised. *)
Definition returned {A} (o : outcome (list A)) : list A :=
  match o with
  | Return l => l
  | Raise _ => []
  end.

(** One cycle of the loop up to its test [if output_files:]: the sleep that
    starts with [attempt = k] and the check after it. *)
Definition look (self : service) (env : surroundings) (project_name : string)
    (version k : nat) (w : world) : list output_file * world :=
  let r := check_output_files self project_name (Some version) (sleep env k w).2 in
  (returned r.1, r.2).

(** The world after [k] cycles that all found nothing. *)
Fixpoint after_idle (self : service) (env : surroundings) (project_name : string)
    (version k : nat) (w : world) : world :=
  match k with
  | 0 => w
  | S k' => (look self env project_name version k'
               (after_idle self env project_name version k' w)).2
  end.

(** What the cycle that starts with [attempt = k] finds, when the cycles
    before it found nothing. *)
Definition seen (self : service) (env : surroundings) (project_name : string)
    (version k : nat) (w : world) : list output_file :=
  (look self env project_name version k
     (after_idle self env project_name version k w)).1.

(** The world a completing cycle leaves. *)
Definition completion (self : service) (env : surroundings) (start_time : instant)
    (project_name : string) (version attempt : nat) (files : list output_file)
    (w : world) : world :=
  (record_completion self env start_time project_name version attempt files w).2.

(** The check of that cycle meets a store fault. *)
Definition store_fails (self : service) (env : surroundings) (project_name : string)
    (version k : nat) (w : world) : Prop :=
  head (outages (sleep env k (after_idle self env project_name version k w)).2) = Some true.

End Monitor.

(** ** Vocabulary of the statements *)
Module Spec.
Import S3 S3Service.

Fixpoint all_digits (s : string) : bool :=
  match s with
  | EmptyString => true
  | String c r => PyStr.is_digit c && all_digits r
  end.

Definition starts_with_digit (s : string) : bool :=
  match s with
  | String c _ => PyStr.is_digit c
  | EmptyString => false
  end.

(** Version [n] exists for the job: some stored key of its script namespace
    matches the version pattern with suffix [n]. *)
Definition has_version (project_name : string) (w : world) (n : nat) : Prop :=
  exists k o, objects w !! k = Some o
              /\ PyStr.startswith (input_prefix project_name) k = true
              /\ version_pattern_search project_name k = Some n.

(** Sequential submissions for one job: each entry is the time, the source
    text and the submitter of one call of [upload_script]. *)
Fixpoint submit_all (self : service) (project_name : string)
    (batch : list (instant * string * option string)) : Py (list upload_result) :=
  match batch with
  | [] => ret []
  | (now, code, user_id) :: rest =>
      let* r := upload_script self now code project_name user_id in
      let* rs := submit_all self project_name rest in
      ret (r :: rs)
  end.

(** The answer of a recovery operation reports success. *)
Definition succeeded (o : outcome pydict) : bool :=
  match o with
  | Return r =>
      match r !! "success" with
      | Some (JBool true) => true
      | _ => false
      end
  | Raise _ => false
  end.

(** No stored key lies under the output folder of the version. *)
Definition outputs_cleared (project_name : string) (version : nat) (w : world) : Prop :=
  forall k o, objects w !! k = Some o ->
              PyStr.startswith (output_prefix project_name version) k = false.

(** The processed marker of the version is absent. *)
Definition marker_absent (project_name : string) (version : nat) (w : world) : Prop :=
  objects w !! processed_key project_name version = None.

(** A computation that leaves the calls to the bookkeeping database as they
    are. *)
Definition keeps_db {A} (c : Py A) : Prop :=
  forall w, db_updates (c w).2 = db_updates w.

(** A computation that never raises. *)
Definition returns {A} (c : Py A) : Prop :=
  forall w, exists a, (c w).1 = Return a.

(** Under the output folder of the version there is at most its
    [metadata.json]. *)
Definition only_metadata (project_name : string) (version : nat) (w : world) : Prop :=
  forall k o, objects w !! k = Some o ->
              PyStr.startswith (output_prefix project_name version) k = true ->
              k = metadata_key project_name version.

(** A text of white space only. *)
Fixpoint blank (s : string) : bool :=
  match s with
  | EmptyString => true
  | String c r => PyStr.is_space c && blank r
  end.

(** The fields of a diagnosis other than the stack trace. *)
Definition core (e : error_info) :=
  (error_type e, error_details e, missing_modules e, syntax_errors e, runtime_errors e).

(** The line carries one of the two import-error markers. *)
Definition import_marked (line : string) : bool :=
  PyStr.contains "importerror" (PyStr.lower line)
  || PyStr.contains "modulenotfounderror" (PyStr.lower line).

(** The line mentions the GUI toolkit. *)
Definition gui_marked (line : string) : bool :=
  PyStr.contains "importgui" (PyStr.lower line) || PyStr.contains "gui" (PyStr.lower line).

(** The emitted script has this line. *)
Definition has_line (line script : string) : bool :=
  existsb (String.eqb line) (PyStr.split "010"%char script).

(** The collaborator gives nothing usable for these inputs: no answer, an
    empty one, or one without the import marker. *)
Definition falls_back (ai_service : fix_generator) (original_code : string)
    (info : error_info) (error_message : option string) : bool :=
  match ai_service original_code info error_message with
  | Some fixed_code =>
      negb (negb (String.eqb fixed_code "") && PyStr.contains "import FreeCAD" fixed_code)
  | None => true
  end.

(** The same, as a test on the listing. *)
Definition only_metadata_b (project_name : string) (version : nat) (w : world) : bool :=
  forallb (fun kv : string * s3_object =>
             String.eqb kv.1 (metadata_key project_name version))
          (list_prefix (output_prefix project_name version) (objects w)).

(** After [j] submissions the script namespace of the job holds [j] keys, the
    versions [1..j]. *)
Definition filled (project_name : string) (j : nat) (w : world) : Prop :=
  outages w = []
  /\ length (list_prefix (input_prefix project_name) (objects w)) = j
  /\ forall k, has_version project_name w k <-> 1 <= k <= j.

(** The keys under [prefix] fit one response of the store. *)
Definition one_page (prefix : string) (w : world) : Prop :=
  length (list_prefix prefix (objects w)) <= page_size.

(** The error type that a line assigns, [unknown] when it assigns none. *)
Definition assigned_type (line : string) : string :=
  error_type (classify_line line [] unknown_error).

(** The error details that a line assigns, empty when it assigns none. *)
Definition assigned_details (line : string) : string :=
  error_details (classify_line line [] unknown_error).

(** The state in which the worker takes a version for a fresh one. *)
Definition cleared (project_name : string) (version : nat) (w : world) : Prop :=
  marker_absent project_name version w /\ outputs_cleared project_name version w.

End Spec.

(** ** Concrete worlds used as examples *)
Module Samples.
Import S3 S3Service Monitor.

Definition svc : service := mk_service true "cadscribe-bucket".

Definition t0 : instant := mk_instant 1700000000 "2023-11-14T22:13:20+00:00" "20231114_221320".
Definition t1 : instant := mk_instant 1700000600 "2023-11-14T22:23:20+00:00" "20231114_222320".

Definition cq_source : string := "r = cq.Workplane('XY').cylinder(5, 20)".

Definition script : s3_object := mk_object (Text cq_source) "text/x-python" ∅.
Definition artifact : s3_object := mk_object (Text "solid demo") "" ∅.
Definition marker : s3_object := mk_object (Text "") "" ∅.

(** The record [mark_script_failed] writes for version 1 of job demo. *)
Definition error_data (retry_count : Z) : pydict :=
  <["next_retry_after" := JNull]>
  (<["max_retries" := JInt 3]>
  (<["failed_at" := JStr (isoformat t0)]>
  (<["retry_count" := JInt retry_count]>
  (<["error_message" := JStr "No module named cadquery"]>
  (<["status" := JStr "FAILED"]>
  (<["version" := JInt 1]>
  (<["project_name" := JStr "demo"]> ∅))))))).

Definition error_record (retry_count : Z) : s3_object :=
  mk_object (Json (error_data retry_count)) "application/json" ∅.

(** Version 1 of job demo after a failed run: script, marker, one artifact,
    a metadata document and the error record. *)
Definition failed_bucket (retry_count : Z) : gmap string s3_object :=
  <["errors/demo/demo_v1_error.json" := error_record retry_count]>
  (<["output/demo/v1/metadata.json" := mk_object (Json ∅) "application/json" ∅]>
  (<["output/demo/v1/model.stl" := artifact]>
  (<["processed/demo/demo_v1.py.done" := marker]>
  (<["input/demo/demo_v1.py" := script]> ∅)))).

Definition failed_world (retry_count : Z) : world :=
  mk_world (failed_bucket retry_count) [] [].

(** A job with versions 1 and 2 stored, and a store whose next call fails
    and whose call after that succeeds. *)
Definition flaky_world : world :=
  mk_world (<["input/demo/demo_v2.py" := script]> (<["input/demo/demo_v1.py" := script]> ∅))
           [true; false] [].

Definition empty_world : world := mk_world ∅ [] [].

(** A bucket that holds the given versions of a job and nothing else. *)
Definition scripts_bucket (project_name : string) (versions : list nat)
  : gmap string s3_object :=
  foldr (fun n m => <[script_key project_name n := script]> m) ∅ versions.

(** Job demo with the versions 1 to 1900 stored. *)
Definition crowded_bucket : gmap string s3_object := scripts_bucket "demo" (seq 1 1900).

Definition crowded_world : world := mk_world crowded_bucket [] [].

(** Version 1 of job demo after a failed run that left another 1001 parts
    in its output folder. *)
Definition many_parts_bucket : gmap string s3_object :=
  foldr (fun n m => <["output/demo/v1/part" +:+ PyStr.str n +:+ ".stl" := artifact]> m)
        (failed_bucket 0) (seq 1 1001).

Definition many_parts_world : world := mk_world many_parts_bucket [] [].

(** A collaborator that never answers. *)
Definition no_ai : fix_generator := fun _ _ _ => None.

(** Version 1 of job demo just submitted. *)
Definition submitted_world : world :=
  mk_world (<["input/demo/demo_v1.py" := script]> ∅) [] [].

(** The same with a store whose next twenty calls all fail. *)
Definition faulty_world : world :=
  mk_world (<["input/demo/demo_v1.py" := script]> ∅) (replicate 20 true) [].

(** The same with a [metadata.json] in the output folder and nothing else. *)
Definition metadata_only_world : world :=
  mk_world (<["output/demo/v1/metadata.json" := mk_object (Json ∅) "application/json" ∅]>
            (<["input/demo/demo_v1.py" := script]> ∅)) [] [].

Definition tick (k : nat) : instant :=
  mk_instant (1700000000 + 30 * Z.of_nat k) "2023-11-14T22:13:20+00:00" "20231114_221320".

(** Surroundings in which nothing happens. *)
Definition still : surroundings := mk_surroundings (fun _ w => w) tick.

(** Surroundings in which the worker delivers its artifact during the
    twentieth sleep. *)
Definition late_worker : surroundings :=
  mk_surroundings
    (fun k w => if k =? 19
                then mk_world (<["output/demo/v1/model.stl" := artifact]> (objects w))
                       (outages w) (db_updates w)
                else w)
    tick.

Definition gui_import_log : string :=
  "Traceback (most recent call last):" +:+ LF
  +:+ "ModuleNotFoundError: No module named 'ImportGui'" +:+ LF
  +:+ "worker finished".

Definition gui_log : string :=
  "starting" +:+ LF +:+ "Cannot load Gui module in console mode".

Definition two_errors_log_head : string := "ImportError: No module named cadquery".
Definition two_errors_log_tail : string := "SyntaxError: invalid syntax".

(** A source with a third numeric literal after the cylinder call. *)
Definition cq_source_moved : string :=
  "r = cq.Workplane('XY').cylinder(5, 20).translate((0, 0, 1))".

End Samples.

(** ** [S3Service]: the listings of scripts and failures, and the metadata reader *)
Module S3Listing.
Import S3 S3Service.

(** [s3_client.head_object(Bucket=..., Key=key)]: a missing key is reported
    with the status code as the error code. *)
Definition head_object (key : string) : Py s3_object :=
  client_call "HeadObject"
    (fun m => match m !! key with
              | Some o => (Return o, m)
              | None => (Raise (ClientError "404" "HeadObject" "Not Found"), m)
              end).

(** An entry of the list [list_project_scripts] returns (size and
    modification stamp of the store left out, as for the output files). *)
Record script_info := mk_script_info {
  script_version : nat;
  script_path : string;
  script_metadata : gmap string string
}.

(** The loop over [response['Contents']] of [list_project_scripts]; the bare
    [except:] around [head_object] turns every failure into empty metadata. *)
Fixpoint collect_scripts (project_name : string) (contents : list (string * s3_object))
  : Py (list script_info) :=
  match contents with
  | [] => ret []
  | kv :: rest =>
      match version_pattern_search project_name kv.1 with
      | Some version =>
          let* metadata :=
            try_any (let* head_response := head_object kv.1 in
                     ret (Metadata head_response))
                    (fun _ => ret ∅) in
          let* others := collect_scripts project_name rest in
          ret (mk_script_info version kv.1 metadata :: others)
      | None => collect_scripts project_name rest
      end
  end.

Definition list_project_scripts (self : service) (project_name : string)
  : Py (list script_info) :=
  if not_configured self then ret []
  else
    try_any
      (let* contents := list_objects_v2 (input_prefix project_name) in
       match contents with
       | [] => ret []
       | _ =>
           let* scripts := collect_scripts project_name contents in
           ret (sort_desc Nat.ltb (map (fun s => (script_version s, s)) scripts))
       end)
      (fun _ => ret []).

Definition get_version_metadata (self : service) (project_name : string) (version : nat)
  : Py (option pydict) :=
  if not_configured self then ret None
  else
    try_any
      (let* response := get_object (metadata_key project_name version) in
       let* metadata := json_loads response in
       ret (Some metadata))
      (fun _ => ret None).

(** [d.get(k)]: [None] for a missing key. *)
Definition dict_get (d : pydict) (k : string) : json := default JNull (d !! k).

(** The dictionary appended for one error file. *)
Definition failed_entry (key : string) (error_data : pydict) (can_retry : bool) : pydict :=
  <["error_file" := JStr key]>
  (<["can_retry" := JBool can_retry]>
  (<["failed_at" := dict_get error_data "failed_at"]>
  (<["retry_count" := default (JInt 0) (error_data !! "retry_count")]>
  (<["error_message" := dict_get error_data "error_message"]>
  (<["version" := dict_get error_data "version"]>
  (<["project_name" := dict_get error_data "project_name"]> ∅)))))).

(** The body of the inner [try] of [get_failed_scripts]: reading one error
    file; [retry_count < 3] raises [TypeError] for a value that is no number. *)
Definition read_failed (key : string) : Py pydict :=
  let* error_response := get_object key in
  let* error_data := json_loads error_response in
  match as_int (default (JInt 0) (error_data !! "retry_count")) with
  | Some retry_count => ret (failed_entry key error_data (retry_count <? 3)%Z)
  | None => raise (Exception "'<' not supported between instances of these types")
  end.

(** The loop over [response['Contents']] of [get_failed_scripts]; an error
    file that cannot be read is skipped. *)
Fixpoint collect_failed (contents : list (string * s3_object)) : Py (list pydict) :=
  match contents with
  | [] => ret []
  | kv :: rest =>
      if PyStr.endswith "_error.json" kv.1 then
        let* entry := try_any (let* e := read_failed kv.1 in ret (Some e))
                              (fun _ => ret None) in
        let* others := collect_failed rest in
        ret (match entry with
             | Some e => e :: others
             | None => others
             end)
      else collect_failed rest
  end.

Definition errors_prefix (project_name : option string) : string :=
  match project_name with
  | Some p => if String.eqb p "" then "errors/" else "errors/" +:+ p +:+ "/"
  | None => "errors/"
  end.

Definition get_failed_scripts (self : service) (project_name : option string)
  : Py (list pydict) :=
  try_any
    (if negb (s3_client self) then ret []
     else
       let* contents := list_objects_v2 (errors_prefix project_name) in
       collect_failed contents)
    (fun _ => ret []).

End S3Listing.

(** ** Vocabulary of the further statements *)
Module Further.
Import S3 S3Service S3Listing Monitor.

(** Retries made one after the other, at the given times; the answers in
    order. *)
Fixpoint retry_all (self : service) (times : list instant) (project_name : string)
    (version : nat) : Py (list pydict) :=
  match times with
  | [] => ret []
  | now :: rest =>
      let* answer := retry_failed_script self now project_name version in
      let* answers := retry_all self rest project_name version in
      ret (answer :: answers)
  end.

(** The answer of a recovery operation, as a dictionary, reports success. *)
Definition answer_ok (r : pydict) : bool :=
  match r !! "success" with
  | Some (JBool true) => true
  | _ => false
  end.

(** The [retry_count] of the error record stored for the version. *)
Definition stored_retry_count (project_name : string) (version : nat) (w : world)
  : option json :=
  match objects w !! error_key project_name version with
  | Some o => match Body o with
              | Json d => d !! "retry_count"
              | Text _ => None
              end
  | None => None
  end.

(** No later entry is larger than the one before it. *)
Fixpoint descending {K} (lt : K -> K -> bool) (l : list K) : Prop :=
  match l with
  | a :: (b :: _) as rest => lt a b = false /\ descending lt rest
  | _ => True
  end.

(** None of the words that the line classifier reacts to. *)
Definition unremarkable (line : string) : bool :=
  negb (PyStr.contains "error" (PyStr.lower line))
  && negb (PyStr.contains "exception" (PyStr.lower line))
  && negb (PyStr.contains "gui" (PyStr.lower line))
  && negb (PyStr.contains "traceback" (PyStr.lower line)).

(** The key belongs to the version: its script, marker, error record, or an
    object of its output folder. *)
Definition of_version (project_name : string) (version : nat) (k : string) : Prop :=
  k = script_key project_name version
  \/ k = processed_key project_name version
  \/ k = error_key project_name version
  \/ PyStr.startswith (output_prefix project_name version) k = true.


(** What one stored object contributes to the list of failures. *)
Definition listed_failure (kv : string * s3_object) : option pydict :=
  if PyStr.endswith "_error.json" kv.1 then
    match Body kv.2 with
    | Json d =>
        match as_int (default (JInt 0) (d !! "retry_count")) with
        | Some c => Some (failed_entry kv.1 d (c <? 3)%Z)
        | None => None
        end
    | Text _ => None
    end
  else None.

(** The hash that the metadata of a version records for its script. *)
Definition recorded_hash (project_name : string) (version : nat) (m : gmap string s3_object) : json :=
  match m !! script_key project_name version with
  | Some o => if String.eqb (decode (Body o)) "" then JNull
              else JStr (generate_script_hash (decode (Body o)))
  | None => JNull
  end.

End Further.

(** ** Further concrete worlds *)
Module MoreSamples.
Import S3 S3Service Monitor Samples.

(** Job demo with two versions submitted and one artifact for each. *)
Definition two_versions_world : world :=
  mk_world (<["output/demo/v2/model.stl" := artifact]>
           (<["output/demo/v1/model.stl" := artifact]>
           (<["input/demo/demo_v2.py" := script]>
           (<["input/demo/demo_v1.py" := script]> ∅)))) [] [].

(** Surroundings in which the worker delivers its artifact during the third
    sleep. *)
Definition early_worker : surroundings :=
  mk_surroundings
    (fun k w => if k =? 2
                then mk_world (<["output/demo/v1/model.stl" := artifact]> (objects w))
                       (outages w) (db_updates w)
                else w)
    tick.

Definition quiet_log : string :=
  "worker started" +:+ LF +:+ "document recomputed" +:+ LF +:+ "worker finished".

End MoreSamples.

(** * Properties *)

Module PyStrFacts.
Import PyStr S3 S3Service Spec.

Lemma append_cons c s t : String c s +:+ t = String c (s +:+ t).
Proof. reflexivity. Qed.

Lemma append_nil_l s : "" +:+ s = s.
Proof. reflexivity. Qed.

Lemma append_nil_r s : s +:+ "" = s.
Proof. induction s as [|c s IH]; [reflexivity|]. rewrite append_cons. by f_equal. Qed.

Lemma append_assoc a b c : (a +:+ b) +:+ c = a +:+ (b +:+ c).
Proof. induction a as [|x a IH]; [reflexivity|]. rewrite !append_cons. by f_equal. Qed.

Lemma startswith_app p s : startswith p (p +:+ s) = true.
Proof.
  induction p as [|c p IH]; [reflexivity|].
  rewrite append_cons. simpl. by rewrite Ascii.eqb_refl.
Qed.

Lemma strip_prefix_app p s : strip_prefix p (p +:+ s) = Some s.
Proof.
  induction p as [|c p IH]; [reflexivity|].
  rewrite append_cons. simpl. by rewrite Ascii.eqb_refl.
Qed.

Lemma strip_prefix_Some p s r : strip_prefix p s = Some r -> s = p +:+ r.
Proof.
  revert s. induction p as [|c p IH]; intros s H.
  - simpl in H. by inversion H.
  - destruct s as [|b s]; [discriminate|]. simpl in H.
    destruct (Ascii.eqb_spec c b) as [->|]; [|discriminate].
    rewrite append_cons. f_equal. by apply IH.
Qed.

Lemma startswith_true p s : startswith p s = true -> exists r, s = p +:+ r.
Proof.
  revert s. induction p as [|c p IH]; intros s H.
  - by exists s.
  - destruct s as [|b s]; [discriminate|]. simpl in H.
    destruct (Ascii.eqb_spec c b) as [->|]; [|discriminate].
    destruct (IH _ H) as [r ->]. by exists r.
Qed.

Lemma span_digits_app ds t :
  all_digits ds = true -> starts_with_digit t = false ->
  span_digits (ds +:+ t) = (ds, t).
Proof.
  intros Hd Ht. induction ds as [|c ds IH].
  - rewrite append_nil_l. destruct t as [|c t]; [reflexivity|].
    simpl in *. by rewrite Ht.
  - simpl in Hd. apply andb_true_iff in Hd as [Hc Hd].
    rewrite append_cons. simpl. rewrite Hc, (IH Hd). reflexivity.
Qed.

Lemma span_digits_spec s ds t :
  span_digits s = (ds, t) ->
  s = ds +:+ t /\ all_digits ds = true /\ starts_with_digit t = false.
Proof.
  revert ds t. induction s as [|c s IH]; intros ds t H.
  - simpl in H. by inversion H.
  - simpl in H. destruct (is_digit c) eqn:Hc.
    + destruct (span_digits s) as [d' t'] eqn:E. inversion H; subst.
      destruct (IH _ _ eq_refl) as (-> & Hd & Ht).
      rewrite append_cons. simpl. by rewrite Hc, Hd.
    + inversion H; subst. simpl. by rewrite Hc.
Qed.

Lemma rev_acc_app a b acc : rev_acc (a +:+ b) acc = rev_acc b (rev_acc a acc).
Proof.
  revert acc. induction a as [|c a IH]; intros acc; [reflexivity|].
  rewrite append_cons. simpl. apply IH.
Qed.

Lemma rev_acc_acc s acc : rev_acc s acc = rev s +:+ acc.
Proof.
  revert acc. unfold rev. induction s as [|c s IH]; intros acc; [reflexivity|].
  simpl. rewrite (IH (String c "")), IH, append_assoc. reflexivity.
Qed.

Lemma rev_app a b : rev (a +:+ b) = rev b +:+ rev a.
Proof. unfold rev at 1. rewrite rev_acc_app, rev_acc_acc. reflexivity. Qed.

Lemma rev_cons c s : rev (String c s) = rev s +:+ String c "".
Proof. unfold rev at 1. simpl. apply rev_acc_acc. Qed.

Lemma rev_involutive s : rev (rev s) = s.
Proof.
  induction s as [|c s IH]; [reflexivity|].
  rewrite rev_cons, rev_app, IH. reflexivity.
Qed.

Lemma rev_inj a b : rev a = rev b -> a = b.
Proof. intros H. by rewrite <- (rev_involutive a), H, rev_involutive. Qed.

Lemma all_digits_app a b : all_digits (a +:+ b) = all_digits a && all_digits b.
Proof.
  induction a as [|c a IH]; [reflexivity|].
  rewrite append_cons. simpl. rewrite IH. by rewrite andb_assoc.
Qed.

Lemma all_digits_rev s : all_digits (rev s) = all_digits s.
Proof.
  induction s as [|c s IH]; [reflexivity|].
  rewrite rev_cons, all_digits_app, IH. simpl. rewrite andb_true_r. apply andb_comm.
Qed.

(** Decimal printing and reading. *)
Lemma int_acc_uint d acc :
  int_acc (NilEmpty.string_of_uint d) acc = Nat.of_uint_acc d acc.
Proof.
  revert acc. induction d; intros acc; simpl; [reflexivity|..];
    rewrite IHd; f_equal; unfold digit_value;
    rewrite Nat.tail_mul_spec; simpl; lia.
Qed.

Lemma all_digits_uint d : all_digits (NilEmpty.string_of_uint d) = true.
Proof. induction d; simpl; auto. Qed.

Lemma to_uint_nonnil n : Nat.to_uint n <> Decimal.Nil.
Proof.
  rewrite <- (DecimalNat.Unsigned.of_to n) at 1.
  rewrite DecimalNat.Unsigned.to_of. unfold Decimal.unorm.
  destruct (Decimal.nzhead (Nat.to_uint n)); discriminate.
Qed.

Lemma str_unfold n : str n = NilEmpty.string_of_uint (Nat.to_uint n).
Proof.
  unfold str, NilZero.string_of_uint.
  pose proof (to_uint_nonnil n). destruct (Nat.to_uint n); congruence.
Qed.

Lemma int_str n : int (str n) = n.
Proof.
  unfold int. rewrite str_unfold, int_acc_uint.
  apply DecimalNat.Unsigned.of_to.
Qed.

Lemma all_digits_str n : all_digits (str n) = true.
Proof. rewrite str_unfold. apply all_digits_uint. Qed.

Lemma str_nonempty n : str n <> "".
Proof.
  rewrite str_unfold. pose proof (to_uint_nonnil n).
  destruct (Nat.to_uint n); simpl; congruence.
Qed.


Lemma at_end_cases e : at_end e = true -> e = "" \/ e = LF.
Proof.
  unfold at_end. intros H. apply orb_true_iff in H as [H|H];
    apply String.eqb_eq in H; auto.
Qed.

Lemma version_here_exact p n :
  version_pattern_here p (p +:+ "_v" +:+ str n +:+ ".py") = Some n.
Proof.
  unfold version_pattern_here.
  rewrite <- append_assoc, strip_prefix_app.
  rewrite span_digits_app by (auto using all_digits_str).
  simpl. destruct (String.eqb_spec (str n) "") as [E|_].
  - by apply str_nonempty in E.
  - simpl. by rewrite int_str.
Qed.

Lemma version_here_spec p s m :
  version_pattern_here p s = Some m ->
  exists ds e, s = (p +:+ "_v") +:+ ds +:+ ".py" +:+ e
               /\ all_digits ds = true /\ (e = "" \/ e = LF) /\ m = int ds.
Proof.
  unfold version_pattern_here. intros H.
  destruct (strip_prefix (p +:+ "_v") s) as [rest|] eqn:E1; [|discriminate].
  apply strip_prefix_Some in E1.
  destruct (span_digits rest) as [ds tail] eqn:E2.
  apply span_digits_spec in E2 as (-> & Hd & _).
  destruct (strip_prefix ".py" tail) as [e|] eqn:E3; [|discriminate].
  apply strip_prefix_Some in E3.
  destruct (negb (ds =? "")%string && at_end e) eqn:E4; [|discriminate].
  apply andb_true_iff in E4 as [_ He]. apply at_end_cases in He.
  inversion H; subst. by exists ds, e.
Qed.

Lemma version_here_unique p pre n m :
  version_pattern_here p (pre +:+ p +:+ "_v" +:+ str n +:+ ".py") = Some m -> m = n.
Proof.
  intros H. apply version_here_spec in H as (ds & e & Hs & Hd & He & ->).
  apply (f_equal rev) in Hs.
  rewrite !rev_app, !append_assoc in Hs.
  assert (Hspan : forall x y, all_digits x = true ->
            span_digits (rev x +:+ rev "_v" +:+ y) = (rev x, rev "_v" +:+ y)).
  { intros x y Hx. apply span_digits_app; [by rewrite all_digits_rev|reflexivity]. }
  destruct He as [-> | ->].
  - change (rev "") with "" in Hs. rewrite append_nil_l in Hs.
    apply (inj (String.append _)) in Hs.
    apply (f_equal span_digits) in Hs.
    rewrite !Hspan in Hs by (auto using all_digits_str).
    injection Hs as Hs _. apply rev_inj in Hs. by rewrite <- Hs, int_str.
  - exfalso. discriminate Hs.
Qed.

Lemma version_search_suffix p pre n :
  version_pattern_search p (pre +:+ p +:+ "_v" +:+ str n +:+ ".py") = Some n.
Proof.
  induction pre as [|c pre IH].
  - rewrite append_nil_l.
    destruct (p +:+ "_v" +:+ str n +:+ ".py") eqn:E; simpl;
      rewrite <- E, version_here_exact; reflexivity.
  - rewrite append_cons. simpl. rewrite <- append_cons.
    destruct (version_pattern_here p _) as [m|] eqn:E.
    + f_equal. by apply version_here_unique in E.
    + apply IH.
Qed.

Lemma version_search_script_key p n :
  version_pattern_search p (script_key p n) = Some n.
Proof.
  unfold script_key.
  replace ("input/" +:+ p +:+ "/" +:+ p +:+ "_v" +:+ str n +:+ ".py")
    with (("input/" +:+ p +:+ "/") +:+ p +:+ "_v" +:+ str n +:+ ".py")
    by (by rewrite !append_assoc).
  apply version_search_suffix.
Qed.

Lemma script_key_in_namespace p n :
  startswith (input_prefix p) (script_key p n) = true.
Proof.
  unfold script_key, input_prefix.
  replace ("input/" +:+ p +:+ "/" +:+ p +:+ "_v" +:+ str n +:+ ".py")
    with (("input/" +:+ p +:+ "/") +:+ p +:+ "_v" +:+ str n +:+ ".py")
    by (by rewrite !append_assoc).
  apply startswith_app.
Qed.

End PyStrFacts.


(** ** The store *)
Module StoreFacts.
Import S3 S3Service Spec PyStrFacts.

Lemma elem_of_list_prefix prefix (m : gmap string s3_object) k o :
  (k, o) ∈ list_prefix prefix m <-> m !! k = Some o /\ PyStr.startswith prefix k = true.
Proof.
  unfold list_prefix. rewrite merge_sort_Permutation, list_elem_of_filter.
  rewrite elem_of_map_to_list. simpl. rewrite Is_true_true. tauto.
Qed.

Lemma list_prefix_nil prefix (m : gmap string s3_object) :
  list_prefix prefix m = [] <->
  (forall k o, m !! k = Some o -> PyStr.startswith prefix k = false).
Proof.
  split.
  - intros E k o Hk. destruct (PyStr.startswith prefix k) eqn:Hp; [|done].
    assert (H : (k, o) ∈ list_prefix prefix m) by (by apply elem_of_list_prefix).
    rewrite E in H. by apply not_elem_of_nil in H.
  - intros H. apply elem_of_nil_inv. intros [k o] Hin.
    apply elem_of_list_prefix in Hin as [Hk Hp].
    rewrite (H _ _ Hk) in Hp. discriminate.
Qed.

Lemma first_page_full prefix (m : gmap string s3_object) :
  length (list_prefix prefix m) <= page_size -> first_page prefix m = list_prefix prefix m.
Proof. intros H. unfold first_page. by apply take_ge. Qed.

Lemma elem_of_first_page prefix (m : gmap string s3_object) k o :
  (k, o) ∈ first_page prefix m -> m !! k = Some o /\ PyStr.startswith prefix k = true.
Proof.
  intros H. apply elem_of_list_prefix. unfold first_page in H.
  by apply (subseteq_take page_size).
Qed.

Lemma first_page_nil prefix (m : gmap string s3_object) :
  list_prefix prefix m = [] -> first_page prefix m = [].
Proof. unfold first_page. by intros ->. Qed.

(** Storing a key that was absent adds one key to the listing of a prefix it
    starts with. *)
Lemma length_list_prefix_insert prefix (m : gmap string s3_object) k o :
  m !! k = None -> PyStr.startswith prefix k = true ->
  length (list_prefix prefix (<[k := o]> m)) = S (length (list_prefix prefix m)).
Proof.
  intros Hk Hp. unfold list_prefix. rewrite !merge_sort_Permutation.
  rewrite (map_to_list_insert m k o Hk). rewrite filter_cons_True; [done|].
  simpl. by rewrite Hp.
Qed.

Lemma elem_of_listed_versions p (m : gmap string s3_object) db n :
  n ∈ listed_versions p (list_prefix (input_prefix p) m)
  <-> has_version p (mk_world m [] db) n.
Proof.
  unfold listed_versions, has_version. rewrite list_elem_of_omap. simpl. split.
  - intros [[k o] [Hin Hs]]. apply elem_of_list_prefix in Hin as [Hk Hp]. eauto.
  - intros (k & o & Hk & Hp & Hs). exists (k, o). split; [|done].
    by apply elem_of_list_prefix.
Qed.

(** On a store that answers, [get_next_version] is one above the largest
    listed version, or 1 when none is listed. *)
Lemma get_next_version_healthy self p m db :
  not_configured self = false ->
  get_next_version self p (mk_world m [] db)
  = (Return (match listed_versions p (first_page (input_prefix p) m) with
             | [] => 1
             | vs => max_list vs + 1
             end), mk_world m [] db).
Proof.
  intros Hc. unfold get_next_version. rewrite Hc.
  unfold try_any, try_except, bind, list_objects_v2, client_call. simpl.
  destruct (first_page (input_prefix p) m) as [|kv l] eqn:E; [reflexivity|].
  destruct (listed_versions p (kv :: l)); reflexivity.
Qed.

Lemma upload_script_healthy self now code p user m db :
  not_configured self = false ->
  exists r n,
    get_next_version self p (mk_world m [] db) = (Return n, mk_world m [] db)
    /\ upload_script self now code p user (mk_world m [] db)
       = (Return r, mk_world (<[script_key p n :=
                                 mk_object (Text code) "text/x-python"
                                   (upload_metadata p n (isoformat now) user)]> m) [] db)
    /\ up_success r = true /\ up_version r = Some n.
Proof.
  intros Hc. pose proof (get_next_version_healthy self p m db Hc) as Hn.
  unfold upload_script. rewrite Hc.
  unfold try_any, try_except, bind at 1. rewrite Hn.
  eexists _, _. split; [reflexivity|]. simpl. split; [reflexivity|]. done.
Qed.

End StoreFacts.

(** ** VersionAllocator *)
Module Allocation.
Import S3 S3Service Spec Samples PyStrFacts StoreFacts.

Lemma next_version_spec self p m db :
  not_configured self = false ->
  length (list_prefix (input_prefix p) m) <= page_size ->
  exists n, get_next_version self p (mk_world m [] db) = (Return n, mk_world m [] db)
    /\ ((forall k, ~ has_version p (mk_world m [] db) k) -> n = 1)
    /\ (forall k, has_version p (mk_world m [] db) k ->
          k < n /\ has_version p (mk_world m [] db) (n - 1)).
Proof.
  intros Hc Hpage. rewrite (get_next_version_healthy _ _ _ _ Hc).
  rewrite (first_page_full _ _ Hpage).
  eexists. split; [reflexivity|].
  destruct (listed_versions p (list_prefix (input_prefix p) m)) as [|v vs] eqn:E.
  - split; [done|]. intros k Hk. apply elem_of_listed_versions in Hk.
    rewrite E in Hk. by apply not_elem_of_nil in Hk.
  - split.
    + intros Hno. exfalso. apply (Hno v). apply elem_of_listed_versions.
      rewrite E. apply list_elem_of_here.
    + intros k Hk. apply elem_of_listed_versions in Hk. rewrite E in Hk.
      apply max_list_elem_of_le in Hk. split; [unfold id in *; lia|].
      replace (max_list (v :: vs) + 1 - 1) with (max_list (v :: vs)) by lia.
      apply elem_of_listed_versions. rewrite E. by apply max_list_elem_of.
Qed.

Lemma upload_script_step self now code p user j w :
  not_configured self = false -> filled p j w -> j < page_size ->
  exists r w', upload_script self now code p user w = (Return r, w')
    /\ up_version r = Some (S j) /\ filled p (S j) w'.
Proof.
  intros Hc (Ho & Hlen & Hv) Hj. destruct w as [m o db]. simpl in Ho, Hlen. subst o.
  destruct (upload_script_healthy self now code p user m db Hc)
    as (r & n & Hn & Hu & _ & Hrv).
  destruct (next_version_spec self p m db Hc) as (n' & Hn' & Hnone & Hsome); [lia|].
  rewrite Hn in Hn'. injection Hn' as <-.
  assert (n = S j) as ->.
  { destruct j as [|j].
    - apply Hnone. intros k Hk. apply Hv in Hk. lia.
    - destruct (Hsome (S j)) as [Hlt Hprev]; [apply Hv; lia|].
      apply Hv in Hprev. lia. }
  assert (Hfresh : m !! script_key p (S j) = None).
  { destruct (m !! script_key p (S j)) as [ob|] eqn:E; [|done].
    assert (has_version p (mk_world m [] db) (S j)) as Hk.
    { exists (script_key p (S j)), ob. split; [done|].
      split; [apply script_key_in_namespace|apply version_search_script_key]. }
    apply Hv in Hk. lia. }
  eexists _, _. split; [exact Hu|]. split; [done|]. split; [done|]. split.
  { simpl. rewrite length_list_prefix_insert; [by rewrite Hlen|done|].
    apply script_key_in_namespace. }
  intros k. split.
  - intros (key & ob & Hk & Hp & Hs). simpl in Hk.
    destruct (decide (key = script_key p (S j))) as [->|Hne].
    + rewrite version_search_script_key in Hs. injection Hs as <-. lia.
    + rewrite lookup_insert_ne in Hk by done.
      assert (has_version p (mk_world m [] db) k) as Hk' by (by exists key, ob).
      apply Hv in Hk'. lia.
  - intros Hk. destruct (decide (k = S j)) as [->|Hne].
    + eexists (script_key p (S j)), _. simpl. rewrite lookup_insert_eq.
      split; [done|]. split; [apply script_key_in_namespace|].
      apply version_search_script_key.
    + destruct (proj2 (Hv k)) as (key & ob & Hk' & Hp & Hs); [lia|].
      exists key, ob. simpl. split; [|done].
      rewrite lookup_insert_ne; [done|]. intros <-.
      rewrite version_search_script_key in Hs. congruence.
Qed.

Lemma submit_all_versions self p batch j w :
  not_configured self = false -> filled p j w -> j + length batch <= page_size ->
  exists rs w', submit_all self p batch w = (Return rs, w')
    /\ map up_version rs = map Some (seq (S j) (length batch)).
Proof.
  intros Hc. revert j w.
  induction batch as [|[[now code] user] batch IH]; intros j w Hf Hlen.
  - by exists [], w.
  - simpl in Hlen.
    destruct (upload_script_step self now code p user j w Hc Hf) as (r & w1 & Hu & Hr & Hf1);
      [lia|].
    destruct (IH _ _ Hf1) as (rs & w2 & Hs & Hrs); [lia|].
    exists (r :: rs), w2. simpl. unfold bind. rewrite Hu, Hs. split; [done|].
    simpl. by rewrite Hr, Hrs.
Qed.

(** While the script namespace of a job fits one page of the listing, the
    allocator is as described: 1 without a matching key, else one above the
    largest matching suffix; and a job with no key in its namespace gets the
    versions [1, 2, ..., N] for [N] submissions, [N] up to the page size. *)
Lemma versions_within_a_page self p w :
  not_configured self = false -> outages w = [] -> one_page (input_prefix p) w ->
  (exists n, get_next_version self p w = (Return n, w)
     /\ ((forall k, ~ has_version p w k) -> n = 1)
     /\ (forall k, has_version p w k -> k < n /\ has_version p w (n - 1)))
  /\ (forall batch, list_prefix (input_prefix p) (objects w) = [] ->
        length batch <= page_size ->
        exists rs w', submit_all self p batch w = (Return rs, w')
          /\ map up_version rs = map Some (seq 1 (length batch))).
Proof.
  intros Hc Ho Hpage. destruct w as [m o db]. simpl in Ho. subst o. split.
  - by apply next_version_spec.
  - intros batch Hfresh Hlen. apply submit_all_versions; [done| |lia].
    split; [done|]. simpl in *. split; [by rewrite Hfresh|].
    intros k. split; [|lia]. intros (key & ob & Hk & Hp & _). exfalso.
    assert (Hin : (key, ob) ∈ list_prefix (input_prefix p) m)
      by (by apply elem_of_list_prefix).
    rewrite Hfresh in Hin. by apply not_elem_of_nil in Hin.
Qed.

Lemma scripts_fold_lookup p (l : list nat) k o :
  scripts_bucket p l !! k = Some o ->
  exists n, n ∈ l /\ k = script_key p n.
Proof.
  induction l as [|n l IH]; cbn [scripts_bucket foldr]; [by rewrite lookup_empty|].
  fold (scripts_bucket p l).
  destruct (decide (k = script_key p n)) as [->|Hne].
  - intros _. exists n. split; [apply list_elem_of_here|done].
  - rewrite lookup_insert_ne by done. intros H. destruct (IH H) as (n' & Hin & ->).
    exists n'. split; [by apply list_elem_of_further|done].
Qed.

Lemma scripts_fold_elem p (l : list nat) n :
  n ∈ l ->
  scripts_bucket p l !! script_key p n
  = Some Samples.script.
Proof.
  induction l as [|n' l IH]; intros Hin; [by apply not_elem_of_nil in Hin|].
  cbn [scripts_bucket foldr]. fold (scripts_bucket p l).
  destruct (decide (script_key p n = script_key p n')) as [->|Hne].
  - apply lookup_insert_eq.
  - rewrite lookup_insert_ne by done. apply IH.
    apply elem_of_cons in Hin as [->|Hin]; [congruence|done].
Qed.

(** C8, where the code departs from it. [get_next_version] reads one page of
    the listing of the script namespace, the first 1000 keys in key order,
    and takes the largest version among those.  With exactly the versions 1
    to 1900 of a job stored, the first page ends at [demo_v1899.py]: the
    allocator answers 1900, a version that exists, and not 1901, and the
    submission that follows is stored as version 1900, over the script that
    was there. *)
Theorem next_version_repeats_beyond_a_page :
  (forall k, has_version "demo" crowded_world k <-> 1 <= k <= 1900)
  /\ (get_next_version svc "demo" crowded_world).1 = Return 1900
  /\ (exists r, (upload_script svc t1 "print(1901)" "demo" None crowded_world).1 = Return r
                /\ up_success r = true /\ up_version r = Some 1900)
  /\ objects crowded_world !! script_key "demo" 1900 = Some Samples.script
  /\ objects (upload_script svc t1 "print(1901)" "demo" None crowded_world).2
       !! script_key "demo" 1900
     = Some (mk_object (Text "print(1901)") "text/x-python"
               (upload_metadata "demo" 1900 (isoformat t1) None)).
Proof.
  split; [|split; [|split; [|split]]].
  - intros k. split.
    + intros (key & o & Hk & _ & Hs).
      change (scripts_bucket "demo" (seq 1 1900) !! key = Some o) in Hk.
      apply scripts_fold_lookup in Hk as (n & Hin & ->).
      rewrite version_search_script_key in Hs. injection Hs as <-.
      apply elem_of_seq in Hin. lia.
    + intros Hk. exists (script_key "demo" k), Samples.script.
      split; [|split; [apply script_key_in_namespace|apply version_search_script_key]].
      change (scripts_bucket "demo" (seq 1 1900) !! script_key "demo" k = Some Samples.script).
      apply scripts_fold_elem, elem_of_seq. lia.
  - vm_compute. reflexivity.
  - eexists. split; [vm_compute; reflexivity|]. split; reflexivity.
  - change (scripts_bucket "demo" (seq 1 1900) !! script_key "demo" 1900
            = Some Samples.script).
    apply scripts_fold_elem, elem_of_seq. lia.
  - vm_compute. reflexivity.
Qed.

(** C10. When the listing call meets a store fault, [get_next_version]
    swallows the error and returns 1; if the write that follows succeeds,
    the submission is stored as version 1, over whatever script was there. *)
Theorem next_version_swallows_store_error self p w rest :
  not_configured self = false -> outages w = true :: rest ->
  get_next_version self p w = (Return 1, mk_world (objects w) rest (db_updates w))
  /\ (forall now code user rest', rest = false :: rest' ->
        exists r,
          upload_script self now code p user w
          = (Return r,
             mk_world (<[script_key p 1 :=
                          mk_object (Text code) "text/x-python"
                            (upload_metadata p 1 (isoformat now) user)]> (objects w))
                      rest' (db_updates w))
          /\ up_success r = true /\ up_version r = Some 1).
Proof.
  intros Hc Ho. destruct w as [m o db]. simpl in Ho. subst o.
  assert (Hn : get_next_version self p (mk_world m (true :: rest) db)
               = (Return 1, mk_world m rest db)).
  { unfold get_next_version. rewrite Hc. reflexivity. }
  split; [exact Hn|].
  intros now code user rest' ->. unfold upload_script. rewrite Hc.
  unfold try_any, try_except, bind at 1. rewrite Hn.
  eexists. split; [reflexivity|]. done.
Qed.

End Allocation.

(** ** RecoveryCoordinator *)
Module Recovery.
Import S3 S3Service Further Spec PyStrFacts StoreFacts.

Local Open Scope Z_scope.

Lemma processed_neq_error p v : processed_key p v <> error_key p v.
Proof. unfold processed_key, error_key. discriminate. Qed.

Lemma script_neq_processed p v : script_key p v <> processed_key p v.
Proof. unfold processed_key, script_key. discriminate. Qed.

Lemma fix_log_neq_processed now p v : fix_log_key now p v <> processed_key p v.
Proof. unfold processed_key, fix_log_key. discriminate. Qed.

Lemma output_not_processed p v k :
  PyStr.startswith (output_prefix p v) k = true -> k <> processed_key p v.
Proof. intros H ->. discriminate H. Qed.

Lemma output_not_error p v k :
  PyStr.startswith (output_prefix p v) k = true -> k <> error_key p v.
Proof. intros H ->. discriminate H. Qed.

Lemma fix_log_not_output now p v :
  PyStr.startswith (output_prefix p v) (fix_log_key now p v) = false.
Proof. reflexivity. Qed.

Ltac run_py :=
  unfold try_any, try_client, try_except, bind, ret, raise,
    get_object, put_object, delete_object, delete_objects, list_objects_v2,
    delete_quietly, client_call, json_loads, metadata_value; simpl.

(** C2. On a store that answers, with a stored error record: when its
    [retry_count] is 3, [retry_failed_script] answers that the maximum number
    of retries is reached and leaves the world as it was; when it is below 3,
    the call succeeds, deletes the processed marker and writes the record back
    with [retry_count] incremented and [retry_attempted_at] stamped, touching
    no other key. *)
Theorem retry_respects_budget self now p v w d ct md :
  s3_client self = true -> outages w = [] ->
  objects w !! error_key p v = Some (mk_object (Json d) ct md) ->
  (d !! "retry_count" = Some (JInt 3) ->
     retry_failed_script self now p v w
     = (Return (<["retry_count" := JInt 3]> (failure "Maximum retry attempts reached")), w))
  /\ (forall n, d !! "retry_count" = Some (JInt n) -> n < 3 ->
      exists r w',
        retry_failed_script self now p v w = (Return r, w')
        /\ r !! "success" = Some (JBool true)
        /\ r !! "retry_count" = Some (JInt (n + 1))
        /\ objects w' !! processed_key p v = None
        /\ objects w' !! error_key p v
           = Some (mk_object (Json (<["retry_attempted_at" := JStr (isoformat now)]>
                                     (<["retry_count" := JInt (n + 1)]> d)))
                             "application/json" ∅)
        /\ (forall k, k <> processed_key p v -> k <> error_key p v ->
              objects w' !! k = objects w !! k)).
Proof.
  intros Hc Hw Hrec. destruct w as [m o db]. simpl in *. subst o.
  split.
  - intros H3. unfold retry_failed_script. rewrite Hc. run_py.
    rewrite Hrec. simpl. rewrite H3. reflexivity.
  - intros n Hn Hlt. unfold retry_failed_script. rewrite Hc. run_py.
    rewrite Hrec. simpl. rewrite Hn. simpl.
    destruct (3 <=? n) eqn:E; [apply Z.leb_le in E; lia|].
    simpl. eexists _, _. split; [reflexivity|]. simpl.
    pose proof (processed_neq_error p v).
    repeat split.
    + rewrite lookup_insert_ne by done. apply lookup_delete_eq.
    + apply lookup_insert_eq.
    + intros k Hk1 Hk2. rewrite lookup_insert_ne by done. by rewrite lookup_delete_ne.
Qed.

(** What a successful retry leaves. *)
Lemma retry_success_shape self now p v m db :
  succeeded (retry_failed_script self now p v (mk_world m [] db)).1 = true ->
  exists o, (retry_failed_script self now p v (mk_world m [] db)).2
            = mk_world (<[error_key p v := o]> (delete (processed_key p v) m)) [] db.
Proof.
  unfold retry_failed_script. destruct (s3_client self); [|discriminate]. run_py.
  destruct (m !! error_key p v) as [[[s|d] ct md]|] eqn:E; simpl; try discriminate.
  destruct (as_int (default (JInt 0) (d !! "retry_count"))) as [n|]; simpl; [|discriminate].
  destruct (3 <=? n); simpl; [discriminate|]. eauto.
Qed.


Lemma clear_version_outputs_healthy self p v m db :
  s3_client self = true ->
  _clear_version_outputs self p v (mk_world m [] db)
  = (Return true,
     mk_world (foldr delete m ((first_page (output_prefix p v) m).*1)) [] db).
Proof.
  intros Hc. unfold _clear_version_outputs. rewrite Hc. run_py.
  destruct ((first_page (output_prefix p v) m).*1); reflexivity.
Qed.

(** Two buckets that agree on the keys under a prefix list the same number
    of keys there. *)
Lemma length_list_prefix_agree prefix (m m' : gmap string s3_object) :
  (forall k, PyStr.startswith prefix k = true -> m' !! k = m !! k) ->
  length (list_prefix prefix m') = length (list_prefix prefix m).
Proof.
  intros H. apply Permutation_length. apply NoDup_Permutation.
  - unfold list_prefix. rewrite merge_sort_Permutation.
    apply NoDup_filter, NoDup_map_to_list.
  - unfold list_prefix. rewrite merge_sort_Permutation.
    apply NoDup_filter, NoDup_map_to_list.
  - intros [k o]. rewrite !elem_of_list_prefix. split; intros [Hk Hp]; split; try done.
    + by rewrite <- (H k Hp).
    + by rewrite (H k Hp).
Qed.

Lemma cleared_after_clear p v (m : gmap string s3_object) db :
  (length (list_prefix (output_prefix p v) m) <= page_size)%nat ->
  outputs_cleared p v
    (mk_world (foldr delete m ((first_page (output_prefix p v) m).*1)) [] db).
Proof.
  intros Hpage k o Hk. simpl in Hk. rewrite (first_page_full _ _ Hpage) in Hk.
  apply lookup_foldr_delete_Some in Hk as [Hnot Hk].
  destruct (PyStr.startswith (output_prefix p v) k) eqn:Hp; [|done].
  exfalso. apply Hnot. apply list_elem_of_fmap. exists (k, o). split; [done|].
  by apply elem_of_list_prefix.
Qed.

Lemma marker_absent_after_clear p v (m : gmap string s3_object) keys db :
  m !! processed_key p v = None ->
  marker_absent p v (mk_world (foldr delete m keys) [] db).
Proof.
  intros H. unfold marker_absent. simpl.
  destruct (foldr delete m keys !! processed_key p v) eqn:E; [|done].
  apply lookup_foldr_delete_Some in E as [_ E]. congruence.
Qed.

Lemma cleared_shape p v (m' : gmap string s3_object) db :
  m' !! processed_key p v = None ->
  (length (list_prefix (output_prefix p v) m') <= page_size)%nat ->
  cleared p v (mk_world (foldr delete m' ((first_page (output_prefix p v) m').*1)) [] db).
Proof.
  intros H Hpage. split; [by apply marker_absent_after_clear|by apply cleared_after_clear].
Qed.

(** A bucket without keys under the output folder lists none there. *)
Lemma cleared_lists_nothing p v w :
  outputs_cleared p v w -> list_prefix (output_prefix p v) (objects w) = [].
Proof. intros H. apply list_prefix_nil. exact H. Qed.

Lemma cleared_one_page p v w : outputs_cleared p v w -> one_page (output_prefix p v) w.
Proof. intros H. unfold one_page. rewrite (cleared_lists_nothing p v w H). simpl. lia. Qed.

(** What a successful replacement leaves: the output folder of some bucket
    without the marker, emptied of its first page; that bucket has the
    objects of the one before under the output folder. *)
Lemma replace_success_shape self now p v code user m db :
  succeeded (replace_failed_script self now p v code user (mk_world m [] db)).1 = true ->
  exists m', m' !! processed_key p v = None
    /\ (forall k, PyStr.startswith (output_prefix p v) k = true -> m' !! k = m !! k)
    /\ (replace_failed_script self now p v code user (mk_world m [] db)).2
       = mk_world (foldr delete m' ((first_page (output_prefix p v) m').*1)) [] db.
Proof.
  unfold replace_failed_script. destruct (s3_client self) eqn:Hc; [|discriminate].
  pose proof (clear_version_outputs_healthy self p v) as Hclear.
  pose proof (processed_neq_error p v) as Hpe.
  assert (Hos : forall k, PyStr.startswith (output_prefix p v) k = true -> script_key p v <> k)
    by (intros k Hk <-; discriminate Hk).
  assert (Hop : forall k, PyStr.startswith (output_prefix p v) k = true -> processed_key p v <> k)
    by (intros k Hk <-; discriminate Hk).
  assert (Hoe : forall k, PyStr.startswith (output_prefix p v) k = true -> error_key p v <> k)
    by (intros k Hk <-; discriminate Hk).
  run_py.
  destruct (m !! error_key p v) as [[[s|d] ct md]|] eqn:E; simpl; try discriminate.
  - destruct (bool_decide (d = ∅)) eqn:Hd; simpl.
    + rewrite Hclear by done. simpl. intros _. eexists. split; [|split; [|reflexivity]].
      * apply lookup_delete_eq.
      * intros k Hk. rewrite lookup_delete_ne by auto. by rewrite lookup_insert_ne by auto.
    + destruct (default (JStr "Unknown") (d !! "error_message")); simpl; try discriminate.
      rewrite Hclear by done. simpl. intros _. eexists. split; [|split; [|reflexivity]].
      * rewrite lookup_delete_ne by done. apply lookup_delete_eq.
      * intros k Hk. rewrite !lookup_delete_ne by auto. by rewrite lookup_insert_ne by auto.
  - rewrite Hclear by done. simpl. intros _. eexists. split; [|split; [|reflexivity]].
    + apply lookup_delete_eq.
    + intros k Hk. rewrite lookup_delete_ne by auto. by rewrite lookup_insert_ne by auto.
Qed.

Lemma lookup_cleared_other prefix (m : gmap string s3_object) k :
  PyStr.startswith prefix k = false ->
  foldr delete m ((first_page prefix m).*1) !! k = m !! k.
Proof.
  intros Hk. apply option_eq. intros o. rewrite lookup_foldr_delete_Some. split.
  - tauto.
  - intros Hm. split; [|done]. intros Hin. apply list_elem_of_fmap in Hin as [[k' o'] [-> Hin]].
    apply elem_of_first_page in Hin as [_ Hp]. simpl in Hk. congruence.
Qed.

Lemma script_not_output p v : PyStr.startswith (output_prefix p v) (script_key p v) = false.
Proof. reflexivity. Qed.

Lemma script_neq_error p v : script_key p v <> error_key p v.
Proof. unfold script_key, error_key. discriminate. Qed.

Lemma replace_healthy self now p v code user (m : gmap string s3_object) db :
  s3_client self = true ->
  exists a m',
    replace_failed_script self now p v code user (mk_world m [] db)
    = (Return a, mk_world m' [] db)
    /\ (answer_ok a = true ->
          (exists md, m' !! script_key p v = Some (mk_object (Text code) "text/plain" md))
          /\ ((forall ct md, m !! error_key p v <> Some (mk_object (Json ∅) ct md)) ->
              m' !! error_key p v = None)
          /\ (forall k, ~ of_version p v k -> m' !! k = m !! k))
    /\ (answer_ok a = false -> m' = m).
Proof.
  intros Hc. unfold replace_failed_script. rewrite Hc.
  pose proof (clear_version_outputs_healthy self p v) as Hclear.
  pose proof (processed_neq_error p v) as Hpe.
  pose proof (script_neq_processed p v) as Hsp.
  pose proof (script_neq_error p v) as Hse.
  assert (Hframe : forall (m' : gmap string s3_object) k,
             (forall k', ~ of_version p v k' -> m' !! k' = m !! k') ->
             ~ of_version p v k ->
             foldr delete m' ((first_page (output_prefix p v) m').*1) !! k = m !! k).
  { intros m' k Hm' Hk. rewrite lookup_cleared_other; [by apply Hm'|].
    destruct (PyStr.startswith (output_prefix p v) k) eqn:Hs; [|done].
    exfalso. apply Hk. unfold of_version. auto. }
  assert (Hscript : forall (m' : gmap string s3_object) o,
             m' !! script_key p v = Some o ->
             foldr delete m' ((first_page (output_prefix p v) m').*1) !! script_key p v
             = Some o).
  { intros m' o Hm'. rewrite lookup_cleared_other; [done|apply script_not_output]. }
  assert (Herr : forall (m' : gmap string s3_object),
             m' !! error_key p v = None ->
             foldr delete m' ((first_page (output_prefix p v) m').*1) !! error_key p v
             = None).
  { intros m' Hm'. rewrite lookup_cleared_other; [done|reflexivity]. }
  run_py.
  destruct (m !! error_key p v) as [[[s|d] ct md]|] eqn:E; simpl.
  - eexists _, _. split; [reflexivity|]. split; [discriminate|done].
  - destruct (bool_decide (d = ∅)) eqn:Hd; simpl.
    + rewrite Hclear by done. simpl. eexists _, _. split; [reflexivity|].
      split; [|discriminate]. intros _. split; [|split].
      * eexists. apply Hscript. rewrite lookup_delete_ne by done. apply lookup_insert_eq.
      * intros Hno. apply bool_decide_eq_true in Hd. subst d. by destruct (Hno ct md).
      * intros k Hk. apply Hframe; [|done]. intros k' Hk'.
        rewrite lookup_delete_ne, lookup_insert_ne; [done|..];
          intros <-; apply Hk'; unfold of_version; auto.
    + destruct (default (JStr "Unknown") (d !! "error_message")); simpl;
        try (eexists _, _; split; [reflexivity|]; split; [discriminate|done]).
      rewrite Hclear by done. simpl. eexists _, _. split; [reflexivity|].
      split; [|discriminate]. intros _. split; [|split].
      * eexists. apply Hscript. rewrite !lookup_delete_ne by done. apply lookup_insert_eq.
      * intros _. apply Herr. apply lookup_delete_eq.
      * intros k Hk. apply Hframe; [|done]. intros k' Hk'.
        rewrite !lookup_delete_ne, lookup_insert_ne; [done|..];
          intros <-; apply Hk'; unfold of_version; auto.
  - rewrite Hclear by done. simpl. eexists _, _. split; [reflexivity|].
    split; [|discriminate]. intros _. split; [|split].
    + eexists. apply Hscript. rewrite lookup_delete_ne by done. apply lookup_insert_eq.
    + intros _. apply Herr. rewrite lookup_delete_ne by done.
      rewrite lookup_insert_ne by done. exact E.
    + intros k Hk. apply Hframe; [|done]. intros k' Hk'.
      rewrite lookup_delete_ne, lookup_insert_ne; [done|..];
        intros <-; apply Hk'; unfold of_version; auto.
Qed.

Lemma get_log_content_healthy self p f m db :
  exists c, get_log_content self p f (mk_world m [] db) = (Return c, mk_world m [] db).
Proof.
  unfold get_log_content. destruct (not_configured self); [by eexists|]. run_py.
  destruct (m !! _); simpl; by eexists.
Qed.

Lemma get_project_logs_healthy self p limit m db :
  exists l, get_project_logs self p limit (mk_world m [] db) = (Return l, mk_world m [] db).
Proof.
  unfold get_project_logs. destruct (not_configured self); [by eexists|]. run_py.
  destruct (first_page _ m); simpl; by eexists.
Qed.

Lemma scan_recent_logs_healthy self p v logs info m db :
  exists i, scan_recent_logs self p v logs info (mk_world m [] db)
            = (Return i, mk_world m [] db).
Proof.
  induction logs as [|entry logs IH]; simpl; [by eexists|].
  destruct (_ || _); [|exact IH].
  unfold bind. destruct (get_log_content_healthy self p (log_filename entry) m db) as [c ->].
  destruct c as [c|]; [|exact IH].
  destruct (String.eqb c ""); [exact IH|by eexists].
Qed.

Lemma analyze_error_logs_healthy self p v log m db :
  exists i, _analyze_error_logs self p v log (mk_world m [] db)
            = (Return i, mk_world m [] db).
Proof.
  unfold _analyze_error_logs, try_any, try_except.
  assert (Hrecent : exists i,
            bind (get_project_logs self p 5)
                 (fun recent_logs => scan_recent_logs self p v recent_logs unknown_error)
                 (mk_world m [] db) = (Return i, mk_world m [] db)).
  { unfold bind. destruct (get_project_logs_healthy self p 5 m db) as [l ->].
    apply scan_recent_logs_healthy. }
  destruct log as [f|]; simpl.
  - destruct (String.eqb f ""); unfold bind at 1; simpl.
    + destruct Hrecent as [i ->]. by eexists.
    + unfold bind at 1. destruct (get_log_content_healthy self p f m db) as [c ->]. simpl.
      destruct (readable c); simpl.
      * by eexists.
      * destruct Hrecent as [i ->]. by eexists.
  - unfold bind at 1. simpl. destruct Hrecent as [i ->]. by eexists.
Qed.

Lemma join_cons_cons sep a b r :
  PyStr.join sep (a :: b :: r) = a +:+ sep +:+ PyStr.join sep (b :: r).
Proof. reflexivity. Qed.

Lemma startswith_app_r p s r :
  PyStr.startswith p s = true -> PyStr.startswith p (s +:+ r) = true.
Proof.
  intros H. apply startswith_true in H as [t ->].
  rewrite append_assoc. apply startswith_app.
Qed.

Lemma contains_startswith p s : PyStr.startswith p s = true -> PyStr.contains p s = true.
Proof. intros H. destruct s; simpl in *; by rewrite H. Qed.

Lemma replacement_starts_with_import code msg :
  PyStr.startswith "import FreeCAD" (_generate_freecad_replacement code msg) = true.
Proof.
  assert (Hbox : forall dims,
             PyStr.startswith "import FreeCAD" (_generate_freecad_box dims) = true).
  { intros dims. unfold _generate_freecad_box.
    destruct (match dims with
              | w :: h :: d :: _ => (w, h, d)
              | _ => (PyInt 10, PyInt 10, PyInt 10)
              end) as [[w h] d].
    rewrite join_cons_cons. by apply startswith_app_r. }
  assert (Hcyl : forall dims,
             PyStr.startswith "import FreeCAD" (_generate_freecad_cylinder dims) = true).
  { intros dims. unfold _generate_freecad_cylinder.
    destruct (match dims with
              | r :: h :: _ => (r, h)
              | _ => (PyInt 5, PyInt 10)
              end) as [r h].
    rewrite join_cons_cons. by apply startswith_app_r. }
  assert (Hsph : forall dims,
             PyStr.startswith "import FreeCAD" (_generate_freecad_sphere dims) = true).
  { intros dims. unfold _generate_freecad_sphere.
    rewrite join_cons_cons. by apply startswith_app_r. }
  unfold _generate_freecad_replacement.
  repeat match goal with
         | |- context [if ?b then _ else _] => destruct b
         end; auto.
Qed.

(** The script is the generator's answer, when that is usable, and the
    rule-based replacement otherwise. *)
Lemma generated_script_cases ai code info msg :
  (exists fixed, ai code info msg = Some fixed
                 /\ PyStr.contains "import FreeCAD" fixed = true
                 /\ _generate_ai_fixed_script ai code info msg = fixed)
  \/ _generate_ai_fixed_script ai code info msg
     = _generate_freecad_replacement code (or_default msg "AI fix failed").
Proof.
  unfold _generate_ai_fixed_script.
  destruct (ai code info msg) as [fixed|]; [|by right].
  destruct (negb (String.eqb fixed "") && PyStr.contains "import FreeCAD" fixed) eqn:E;
    [|by right].
  left. exists fixed. by apply andb_true_iff in E as [_ E].
Qed.

(** What a successful automatic fix leaves: the output folder of some
    bucket without the marker, emptied of its first page, plus the audit
    record under logs. *)
Lemma auto_fix_success_shape self ai now p v msg log m db w' :
  auto_fix_failed_script self ai now p v msg log (mk_world m [] db) = (Return true, w') ->
  exists m' o, m' !! processed_key p v = None
    /\ (forall k, PyStr.startswith (output_prefix p v) k = true -> m' !! k = m !! k)
    /\ w' = mk_world (<[fix_log_key now p v := o]>
                       (foldr delete m' ((first_page (output_prefix p v) m').*1))) [] db.
Proof.
  unfold auto_fix_failed_script. destruct (s3_client self) eqn:Hc; [|discriminate].
  pose proof (clear_version_outputs_healthy self p v) as Hclear.
  assert (Hos : forall k, PyStr.startswith (output_prefix p v) k = true -> script_key p v <> k)
    by (intros k Hk <-; discriminate Hk).
  assert (Hop : forall k, PyStr.startswith (output_prefix p v) k = true -> processed_key p v <> k)
    by (intros k Hk <-; discriminate Hk).
  unfold try_any, try_except. unfold bind at 1. unfold try_client, try_except.
  unfold bind at 1. unfold get_object, client_call. simpl.
  destruct (m !! script_key p v) as [ob|] eqn:E; simpl; [|discriminate].
  unfold bind at 1.
  destruct (analyze_error_logs_healthy self p v log m db) as [info ->].
  destruct msg as [msg|]; run_py; [|discriminate].
  rewrite Hclear by done. simpl. intros [= <-]. eexists _, _. split; [|split; [|reflexivity]].
  - apply lookup_delete_eq.
  - intros k Hk. rewrite lookup_delete_ne by auto. by rewrite lookup_insert_ne by auto.
Qed.

(** A failed automatic fix, on a store that answers, changes nothing. *)
Lemma auto_fix_failure_unchanged self ai now p v msg log m db :
  exists b w', auto_fix_failed_script self ai now p v msg log (mk_world m [] db)
               = (Return b, w')
    /\ (b = false -> w' = mk_world m [] db).
Proof.
  unfold auto_fix_failed_script. destruct (s3_client self) eqn:Hc; [|by eexists _, _].
  pose proof (clear_version_outputs_healthy self p v) as Hclear.
  unfold try_any, try_except. unfold bind at 1. unfold try_client, try_except.
  unfold bind at 1. unfold get_object, client_call. simpl.
  destruct (m !! script_key p v) as [ob|] eqn:E; simpl; [|by eexists _, _].
  unfold bind at 1.
  destruct (analyze_error_logs_healthy self p v log m db) as [info ->].
  destruct msg as [msg|]; run_py; [|by eexists _, _].
  rewrite Hclear by done. simpl. eexists _, _. split; [reflexivity|]. discriminate.
Qed.

Lemma check_output_files_cleared self p v w :
  (0 < v)%nat -> outages w = [] -> outputs_cleared p v w ->
  check_output_files self p (Some v) w = (Return [], w).
Proof.
  intros Hv Ho Hcl. destruct w as [m o db]. simpl in Ho. subst o.
  unfold check_output_files. destruct (not_configured self); [reflexivity|].
  destruct v as [|v]; [lia|]. run_py.
  assert (first_page (output_prefix p (S v)) m = []) as ->; [|reflexivity].
  apply first_page_nil, list_prefix_nil. exact Hcl.
Qed.

Lemma replace_clears self now p v code user w :
  outages w = [] -> one_page (output_prefix p v) w ->
  succeeded (replace_failed_script self now p v code user w).1 = true ->
  cleared p v (replace_failed_script self now p v code user w).2
  /\ outages (replace_failed_script self now p v code user w).2 = [].
Proof.
  intros Ho Hpage Hs. destruct w as [m o db]. simpl in Ho. subst o.
  destruct (replace_success_shape _ _ _ _ _ _ _ _ Hs) as (m' & Hm' & Hsame & ->).
  split; [|done]. apply cleared_shape; [done|].
  unfold one_page in Hpage. simpl in Hpage.
  by rewrite (length_list_prefix_agree _ m m' Hsame).
Qed.

Lemma auto_fix_clears self ai now p v msg log w :
  outages w = [] -> one_page (output_prefix p v) w ->
  (auto_fix_failed_script self ai now p v msg log w).1 = Return true ->
  cleared p v (auto_fix_failed_script self ai now p v msg log w).2
  /\ outages (auto_fix_failed_script self ai now p v msg log w).2 = [].
Proof.
  intros Ho Hpage Hs. destruct w as [m o db]. simpl in Ho. subst o.
  destruct (auto_fix_failed_script _ _ _ _ _ _ _ _) as [r w'] eqn:Hrun.
  simpl in Hs. subst r. simpl.
  destruct (auto_fix_success_shape _ _ _ _ _ _ _ _ _ _ Hrun) as (m' & ob & Hm' & Hsame & ->).
  assert (Hpage' : (length (list_prefix (output_prefix p v) m') <= page_size)%nat).
  { unfold one_page in Hpage. simpl in Hpage.
    by rewrite (length_list_prefix_agree _ m m' Hsame). }
  destruct (cleared_shape p v m' db Hm' Hpage') as [Hmark Hout].
  split; [|done]. split.
  - unfold marker_absent in *. simpl in *.
    rewrite lookup_insert_ne by apply fix_log_neq_processed. exact Hmark.
  - intros k o Hk. simpl in Hk.
    destruct (decide (k = fix_log_key now p v)) as [->|Hne].
    + apply fix_log_not_output.
    + rewrite lookup_insert_ne in Hk by done. by apply (Hout k o).
Qed.

Lemma auto_fix_healthy self ai now p v msg log (m : gmap string s3_object) db :
  s3_client self = true ->
  exists b m',
    auto_fix_failed_script self ai now p v (Some msg) log (mk_world m [] db)
    = (Return b, mk_world m' [] db)
    /\ (b = false <-> m !! script_key p v = None)
    /\ (b = false -> m' = m)
    /\ (b = true ->
          (exists fixed md,
             m' !! script_key p v = Some (mk_object (Text fixed) "text/plain" md)
             /\ PyStr.contains "import FreeCAD" fixed = true
             /\ md !! "original_error" = Some msg)
          /\ is_Some (m' !! fix_log_key now p v)
          /\ m' !! error_key p v = m !! error_key p v
          /\ (forall k, ~ of_version p v k -> k <> fix_log_key now p v -> m' !! k = m !! k)).
Proof.
  intros Hc. unfold auto_fix_failed_script. rewrite Hc.
  pose proof (clear_version_outputs_healthy self p v) as Hclear.
  pose proof (script_neq_processed p v) as Hsp.
  pose proof (processed_neq_error p v) as Hpe.
  pose proof (script_neq_error p v) as Hse.
  assert (Hsl : script_key p v <> fix_log_key now p v)
    by (unfold script_key, fix_log_key; discriminate).
  assert (Hel : error_key p v <> fix_log_key now p v)
    by (unfold error_key, fix_log_key; discriminate).
  unfold try_any, try_except. unfold bind at 1. unfold try_client, try_except.
  unfold bind at 1. unfold get_object, client_call. simpl.
  destruct (m !! script_key p v) as [ob|] eqn:E; simpl.
  2:{ eexists _, _. split; [reflexivity|]. split; [done|]. split; [done|]. discriminate. }
  unfold bind at 1.
  destruct (analyze_error_logs_healthy self p v log m db) as [info ->].
  run_py. rewrite Hclear by done. simpl.
  eexists _, _. split; [reflexivity|]. split; [split; discriminate|].
  split; [discriminate|]. intros _. simpl. split; [|split; [|split]].
  - eexists _, _. split; [|split].
    + rewrite lookup_insert_ne by done.
      rewrite lookup_cleared_other by apply script_not_output.
      rewrite lookup_delete_ne by done. apply lookup_insert_eq.
    + match goal with
      | |- context [_generate_ai_fixed_script ?a ?c ?i ?e] =>
          destruct (generated_script_cases a c i e) as [(fixed & _ & Hin & ->)| ->]
      end; [exact Hin|apply contains_startswith, replacement_starts_with_import].
    + by repeat (rewrite lookup_insert_ne by done; try rewrite lookup_insert_eq).
  - rewrite lookup_insert_eq. by eexists.
  - rewrite lookup_insert_ne by done.
    rewrite lookup_cleared_other by reflexivity.
    rewrite lookup_delete_ne by done. by rewrite lookup_insert_ne.
  - intros k Hk Hkl. rewrite lookup_insert_ne by done.
    rewrite lookup_cleared_other.
    + rewrite lookup_delete_ne, lookup_insert_ne; [done|..];
        intros <-; apply Hk; unfold of_version; auto.
    + destruct (PyStr.startswith (output_prefix p v) k) eqn:Hs; [|done].
      exfalso. apply Hk. unfold of_version. auto.
Qed.


(** On a store that answers, running a replacement on a cleared version
    leaves it cleared, whatever the replacement answers. *)
Lemma replace_keeps_cleared self now p v code user w :
  outages w = [] -> cleared p v w ->
  cleared p v (replace_failed_script self now p v code user w).2.
Proof.
  intros Ho Hcl. destruct (s3_client self) eqn:Hc.
  - destruct (succeeded (replace_failed_script self now p v code user w).1) eqn:Hs.
    + apply replace_clears; [done| |done]. apply cleared_one_page, Hcl.
    + destruct w as [m o db]. simpl in Ho. subst o.
      destruct (replace_healthy self now p v code user m db Hc) as (a & m' & Hrun & _ & Hno).
      rewrite Hrun in *. simpl in Hs. rewrite Hno; [done|].
      unfold answer_ok. destruct (a !! "success") as [[|[]| | |]|]; done.
  - unfold replace_failed_script. rewrite Hc. exact Hcl.
Qed.

Lemma auto_fix_keeps_cleared self ai now p v msg log w :
  outages w = [] -> cleared p v w ->
  cleared p v (auto_fix_failed_script self ai now p v msg log w).2.
Proof.
  intros Ho Hcl.
  pose proof (auto_fix_clears self ai now p v msg log w Ho (cleared_one_page p v w (proj2 Hcl)))
    as Hyes.
  destruct w as [m o db]. simpl in Ho. subst o.
  destruct (auto_fix_failure_unchanged self ai now p v msg log m db) as (b & w' & Hrun & Hno).
  rewrite Hrun in *. destruct b.
  - by apply Hyes.
  - simpl. by rewrite Hno.
Qed.

(** On a store that answers, a retry never brings the marker back. *)
Lemma retry_keeps_marker_absent self now p v w :
  outages w = [] -> marker_absent p v w ->
  marker_absent p v (retry_failed_script self now p v w).2.
Proof.
  intros Ho Hm. destruct w as [m o db]. simpl in Ho. subst o.
  unfold marker_absent in *. simpl in Hm.
  pose proof (processed_neq_error p v) as Hpe.
  unfold retry_failed_script. destruct (s3_client self); [|exact Hm]. run_py.
  destruct (m !! error_key p v) as [[[s|d] ct md]|] eqn:E; simpl; try exact Hm.
  destruct (as_int (default (JInt 0) (d !! "retry_count"))) as [n|]; simpl; [|exact Hm].
  destruct (3 <=? n); simpl; [exact Hm|].
  rewrite lookup_insert_ne by done. apply lookup_delete_eq.
Qed.

(** C1, as the code has it. On a store that answers: once
    [replace_failed_script] or [auto_fix_failed_script] returns successfully
    for a version whose output folder fits one page of the listing, the
    processed marker of the version is absent and no key is left under its
    output folder; running the same operation again leaves that same empty
    state, whatever the second run answers.  A successful
    [retry_failed_script] leaves the marker absent, also when it is run
    again, and leaves every object under the output folder as it was. *)
Theorem recovery_clears_marker_and_outputs self ai now p v w :
  outages w = [] ->
  (forall code user,
     let r := replace_failed_script self now p v code user w in
     one_page (output_prefix p v) w ->
     succeeded r.1 = true ->
     cleared p v r.2
     /\ forall now' code' user',
          cleared p v (replace_failed_script self now' p v code' user' r.2).2)
  /\ (forall msg log,
     let r := auto_fix_failed_script self ai now p v msg log w in
     one_page (output_prefix p v) w ->
     r.1 = Return true ->
     cleared p v r.2
     /\ forall now' msg' log',
          cleared p v (auto_fix_failed_script self ai now' p v msg' log' r.2).2)
  /\ (let r := retry_failed_script self now p v w in
      succeeded r.1 = true ->
      marker_absent p v r.2
      /\ (forall k, PyStr.startswith (output_prefix p v) k = true ->
                    objects r.2 !! k = objects w !! k)
      /\ forall now', marker_absent p v (retry_failed_script self now' p v r.2).2).
Proof.
  intros Ho. split; [|split].
  - intros code user r Hpage Hs. subst r.
    destruct (replace_clears _ _ _ _ _ _ _ Ho Hpage Hs) as [Hcl Ho'].
    split; [done|].
    intros now' code' user'. by apply replace_keeps_cleared.
  - intros msg log r Hpage Hs. subst r.
    destruct (auto_fix_clears _ _ _ _ _ _ _ _ Ho Hpage Hs) as [Hcl Ho'].
    split; [done|].
    intros now' msg' log'. by apply auto_fix_keeps_cleared.
  - intros r Hs. subst r. destruct w as [m o db]. simpl in Ho. subst o.
    destruct (retry_success_shape _ _ _ _ _ _ Hs) as [ob Hw].
    pose proof (processed_neq_error p v).
    assert (Hmark : marker_absent p v (retry_failed_script self now p v (mk_world m [] db)).2).
    { rewrite Hw. unfold marker_absent. simpl.
      rewrite lookup_insert_ne by done. apply lookup_delete_eq. }
    split; [exact Hmark|]. split.
    + intros k Hk. rewrite Hw. simpl.
      rewrite lookup_insert_ne by (symmetry; by apply output_not_error).
      rewrite lookup_delete_ne by (symmetry; by apply output_not_processed). done.
    + intros now'. apply retry_keeps_marker_absent; [|exact Hmark]. by rewrite Hw.
Qed.

End Recovery.

(** ** ProcessingMonitor *)
Module MonitorFacts.
Import S3 S3Service Monitor Spec PyStrFacts StoreFacts.

(** *** Calls that never raise and never touch the bookkeeping calls *)

Lemma keeps_db_ret {A} (a : A) : keeps_db (ret a).
Proof. done. Qed.

Lemma keeps_db_raise {A} e : keeps_db (@raise A e).
Proof. done. Qed.

Lemma keeps_db_bind {A B} (c : Py A) (k : A -> Py B) :
  keeps_db c -> (forall a, keeps_db (k a)) -> keeps_db (bind c k).
Proof.
  intros Hc Hk w. unfold bind. specialize (Hc w).
  destruct (c w) as [[a|e] w']; simpl in *; [|done].
  by rewrite Hk.
Qed.

Lemma keeps_db_try_except {A} (c : Py A) h1 h2 :
  keeps_db c -> (forall x, keeps_db (h1 x)) -> (forall x, keeps_db (h2 x)) ->
  keeps_db (try_except c h1 h2).
Proof.
  intros Hc H1 H2 w. unfold try_except. specialize (Hc w).
  destruct (c w) as [[a|[code op text|msg]] w']; simpl in *; [done|..].
  - by rewrite H1.
  - by rewrite H2.
Qed.

Lemma keeps_db_try_any {A} (c : Py A) h :
  keeps_db c -> (forall x, keeps_db (h x)) -> keeps_db (try_any c h).
Proof. intros. apply keeps_db_try_except; auto. Qed.

Lemma keeps_db_client_call {A} name
    (op : gmap string s3_object -> outcome A * gmap string s3_object) :
  keeps_db (client_call name op).
Proof.
  intros w. unfold client_call.
  destruct (outages w) as [|[] rest]; simpl; [|done|]; by destruct (op (objects w)).
Qed.

Create HintDb keeps.
#[local] Hint Resolve keeps_db_ret keeps_db_raise keeps_db_client_call : keeps.
#[local] Hint Extern 2 (keeps_db (bind _ _)) => apply keeps_db_bind; [|intros] : keeps.
#[local] Hint Extern 2 (keeps_db (try_any _ _)) => apply keeps_db_try_any; [|intros] : keeps.
#[local] Hint Extern 1 (keeps_db (match ?x with _ => _ end)) => destruct x : keeps.
#[local] Hint Extern 1 (keeps_db (if ?x then _ else _)) => destruct x : keeps.

Lemma keeps_db_sort_by_version l : keeps_db (sort_by_version l).
Proof. unfold sort_by_version. destruct l as [|? [|? ?]]; auto with keeps. Qed.

Lemma keeps_db_check_output_files self p v : keeps_db (check_output_files self p v).
Proof.
  unfold check_output_files, list_objects_v2.
  pose proof keeps_db_sort_by_version. auto 10 with keeps.
Qed.

Lemma keeps_db_get_script_content self p v : keeps_db (get_script_content self p v).
Proof. unfold get_script_content, get_object. auto 10 with keeps. Qed.

Lemma keeps_db_create_version_metadata self now p v files t wid log :
  keeps_db (create_version_metadata self now p v files t wid log).
Proof.
  unfold create_version_metadata, put_object.
  pose proof keeps_db_get_script_content. auto 10 with keeps.
Qed.

Lemma keeps_db_mark_script_processed self now p v files t wid log :
  keeps_db (mark_script_processed self now p v files t wid log).
Proof.
  unfold mark_script_processed, put_object.
  pose proof keeps_db_create_version_metadata. auto 10 with keeps.
Qed.

Lemma returns_try_any {A} (c : Py A) h :
  (forall x, returns (h x)) -> returns (try_any c h).
Proof.
  intros Hh w. unfold try_any, try_except.
  destruct (c w) as [[a|[code|msg]] w']; simpl; [by eexists|apply Hh..].
Qed.

Lemma returns_ret {A} (a : A) : returns (ret a).
Proof. intros w. by eexists. Qed.

Lemma check_output_files_returns self p v : returns (check_output_files self p v).
Proof.
  unfold check_output_files. destruct (not_configured self); [apply returns_ret|].
  apply returns_try_any. intros. apply returns_ret.
Qed.

Lemma mark_script_processed_returns self now p v files t wid log :
  returns (mark_script_processed self now p v files t wid log).
Proof.
  unfold mark_script_processed. destruct (not_configured self); [apply returns_ret|].
  apply returns_try_any. intros. apply returns_ret.
Qed.

(** *** One cycle *)

Lemma look_db self env p v k w : db_updates (look self env p v k w).2 = db_updates w.
Proof. unfold look. simpl. by rewrite keeps_db_check_output_files. Qed.

Lemma after_idle_db self env p v k w :
  db_updates (after_idle self env p v k w) = db_updates w.
Proof. induction k as [|k IH]; [done|]. cbn [after_idle]. by rewrite look_db. Qed.

Lemma look_seen self env p v k w :
  look self env p v k (after_idle self env p v k w)
  = (seen self env p v k w, after_idle self env p v (S k) w).
Proof.
  unfold seen. cbn [after_idle].
  by destruct (look self env p v k (after_idle self env p v k w)).
Qed.

Lemma record_completion_returns self env st p v a files w :
  (record_completion self env st p v a files w).1 = Return tt.
Proof.
  unfold record_completion, bind.
  destruct (mark_script_processed_returns self (clock env a) p v (map filename files)
              (Some (epoch (clock env a) - epoch st)%Z) (Some "aws-freecad-worker")
              (Some (p +:+ "_info_" +:+ compact (clock env a) +:+ ".log")) w) as [b Hb].
  destruct (mark_script_processed _ _ _ _ _ _ _ _ w) as [r w1]. simpl in Hb. subst r.
  reflexivity.
Qed.

Lemma completion_statuses self env st p v a files w :
  recorded_statuses (completion self env st p v a files w)
  = recorded_statuses w ++ [JStr "completed"].
Proof.
  unfold completion, record_completion, bind.
  pose proof (keeps_db_mark_script_processed self (clock env a) p v (map filename files)
              (Some (epoch (clock env a) - epoch st)%Z) (Some "aws-freecad-worker")
              (Some (p +:+ "_info_" +:+ compact (clock env a) +:+ ".log")) w) as Hdb.
  destruct (mark_script_processed_returns self (clock env a) p v (map filename files)
              (Some (epoch (clock env a) - epoch st)%Z) (Some "aws-freecad-worker")
              (Some (p +:+ "_info_" +:+ compact (clock env a) +:+ ".log")) w) as [b Hb].
  destruct (mark_script_processed _ _ _ _ _ _ _ _ w) as [r w1]. simpl in Hb, Hdb. subst r.
  unfold recorded_statuses. simpl. rewrite Hdb, omap_app. reflexivity.
Qed.

Lemma poll_loop_step self env st p v fuel a w :
  a < max_attempts ->
  poll_loop self env st p v (S fuel) a w
  = match look self env p v a w with
    | ([], w1) => poll_loop self env st p v fuel (a + 1) w1
    | (files, w1) => (Return (a + 1), completion self env st p v (a + 1) files w1)
    end.
Proof.
  intros Ha. cbn [poll_loop]. apply Nat.ltb_lt in Ha. rewrite Ha.
  unfold look, completion, try_any, try_except, bind, sleep. cbn [fst snd].
  set (w' := mk_world _ _ _).
  destruct (check_output_files_returns self p (Some v) w') as [l Hl].
  destruct (check_output_files self p (Some v) w') as [r w1].
  cbn [fst snd] in *. subst r. cbn [returned].
  destruct l as [|f l]; [reflexivity|].
  pose proof (record_completion_returns self env st p v (a + 1) (f :: l) w1) as Hr.
  destruct (record_completion self env st p v (a + 1) (f :: l) w1) as [r w2].
  cbn [fst snd] in *. subst r. reflexivity.
Qed.

(** *** The loop *)

Section Run.
Variables (self : service) (env : surroundings) (p : string) (v : nat) (w0 : world).
Variable st : instant.

Lemma poll_loop_idle n a :
  a + n = max_attempts ->
  (forall j, a <= j < max_attempts -> seen self env p v j w0 = []) ->
  poll_loop self env st p v n a (after_idle self env p v a w0)
  = (Return max_attempts, after_idle self env p v max_attempts w0).
Proof.
  revert a. induction n as [|n IH]; intros a Han Hidle.
  - cbn [poll_loop]. replace a with max_attempts by lia. reflexivity.
  - rewrite poll_loop_step by lia. rewrite look_seen, Hidle by lia.
    replace (a + 1) with (S a) by lia. apply IH; [lia|]. intros j Hj. apply Hidle. lia.
Qed.

Lemma poll_loop_found n a k :
  a + n = max_attempts -> a <= k < max_attempts ->
  (forall j, a <= j < k -> seen self env p v j w0 = []) ->
  seen self env p v k w0 <> [] ->
  poll_loop self env st p v n a (after_idle self env p v a w0)
  = (Return (k + 1),
     completion self env st p v (k + 1) (seen self env p v k w0)
       (after_idle self env p v (S k) w0)).
Proof.
  revert a. induction n as [|n IH]; intros a Han Hk Hidle Hfound; [lia|].
  rewrite poll_loop_step by lia. rewrite look_seen.
  destruct (decide (a = k)) as [->|Hne].
  - destruct (seen self env p v k w0); [done|reflexivity].
  - rewrite Hidle by lia. replace (a + 1) with (S a) by lia.
    apply IH; [lia..| |done]. intros j Hj. apply Hidle. lia.
Qed.

End Run.

(** The part of the task after the loop, when [attempt] has reached
    [max_attempts]. *)
Lemma timeout_statuses self now p v t (a : nat) w :
  (bind (mark_script_processed self now p v [] t (Some "timeout") None)
     (fun _ => bind (try_any (update_project p (timeout_update now v)) (fun _ => ret tt))
                 (fun _ => ret a)) w).1 = Return a
  /\ recorded_statuses
       (bind (mark_script_processed self now p v [] t (Some "timeout") None)
          (fun _ => bind (try_any (update_project p (timeout_update now v)) (fun _ => ret tt))
                      (fun _ => ret a)) w).2
     = recorded_statuses w ++ [JStr "timeout"].
Proof.
  unfold bind at 1 3.
  pose proof (keeps_db_mark_script_processed self now p v [] t (Some "timeout") None w) as Hdb.
  destruct (mark_script_processed_returns self now p v [] t (Some "timeout") None w) as [b Hb].
  destruct (mark_script_processed _ _ _ _ _ _ _ _ w) as [r w1].
  cbn [fst snd] in Hb, Hdb. subst r.
  unfold recorded_statuses. cbn. rewrite Hdb, omap_app. done.
Qed.

Lemma poll_after_loop self env p v u w0 a w :
  poll_loop self env (clock env 0) p v max_attempts 0 w0 = (Return a, w) ->
  poll_for_output_files self env p v u w0
  = if max_attempts <=? a then
      bind (mark_script_processed self (clock env a) p v []
              (Some (epoch (clock env a) - epoch (clock env 0))%Z) (Some "timeout") None)
        (fun _ => bind (try_any (update_project p (timeout_update (clock env a) v))
                          (fun _ => ret tt))
                    (fun _ => ret a)) w
    else (Return a, w).
Proof.
  intros H. unfold poll_for_output_files. unfold bind at 1. rewrite H.
  destruct (max_attempts <=? a); reflexivity.
Qed.

(** Twenty cycles that find nothing: the task times out after the twentieth
    and records nothing else. *)
Lemma poll_times_out self env p v u w0 :
  (forall j, j < 20 -> seen self env p v j w0 = []) ->
  (poll_for_output_files self env p v u w0).1 = Return 20
  /\ recorded_statuses (poll_for_output_files self env p v u w0).2
     = recorded_statuses w0 ++ [JStr "timeout"].
Proof.
  intros Hidle.
  pose proof (poll_loop_idle self env p v w0 (clock env 0) max_attempts 0 eq_refl) as Hloop.
  change (after_idle self env p v 0 w0) with w0 in Hloop.
  assert (Hall : forall j, 0 <= j < max_attempts -> seen self env p v j w0 = [])
    by (intros j Hj; apply Hidle; unfold max_attempts in Hj; lia).
  rewrite (poll_after_loop _ _ _ _ _ _ _ _ (Hloop Hall)).
  change (max_attempts <=? max_attempts) with true. cbv iota.
  destruct (timeout_statuses self (clock env max_attempts) p v
              (Some (epoch (clock env max_attempts) - epoch (clock env 0))%Z) max_attempts
              (after_idle self env p v max_attempts w0)) as [Hr Hs].
  split; [exact Hr|]. rewrite Hs. unfold recorded_statuses. by rewrite after_idle_db.
Qed.

(** Artifacts first found in a cycle before the twentieth: the task completes
    there and records no timeout. *)
Lemma poll_completes_early self env p v u w0 k :
  k < 19 ->
  (forall j, j < k -> seen self env p v j w0 = []) ->
  seen self env p v k w0 <> [] ->
  (poll_for_output_files self env p v u w0).1 = Return (k + 1)
  /\ recorded_statuses (poll_for_output_files self env p v u w0).2
     = recorded_statuses w0 ++ [JStr "completed"].
Proof.
  intros Hk Hidle Hfound.
  pose proof (poll_loop_found self env p v w0 (clock env 0) max_attempts 0 k eq_refl) as Hloop.
  change (after_idle self env p v 0 w0) with w0 in Hloop.
  assert (Hin : 0 <= k < max_attempts) by (unfold max_attempts; lia).
  assert (Hbefore : forall j, 0 <= j < k -> seen self env p v j w0 = [])
    by (intros j Hj; apply Hidle; lia).
  rewrite (poll_after_loop _ _ _ _ _ _ _ _ (Hloop Hin Hbefore Hfound)).
  assert ((max_attempts <=? (k + 1)) = false) as -> by (apply Nat.leb_gt; unfold max_attempts; lia).
  cbn [fst snd]. split; [reflexivity|].
  rewrite completion_statuses. unfold recorded_statuses. by rewrite after_idle_db.
Qed.

(** C3, where the code departs from it. When the first artifacts are found
    by the twentieth cycle, the task records the completion and then, because
    [attempt] has reached [max_attempts], records the timeout as well. *)
Theorem completion_on_last_attempt_also_times_out self env p v u w0 :
  (forall j, j < 19 -> seen self env p v j w0 = []) ->
  seen self env p v 19 w0 <> [] ->
  (poll_for_output_files self env p v u w0).1 = Return 20
  /\ recorded_statuses (poll_for_output_files self env p v u w0).2
     = recorded_statuses w0 ++ [JStr "completed"; JStr "timeout"].
Proof.
  intros Hidle Hfound.
  pose proof (poll_loop_found self env p v w0 (clock env 0) max_attempts 0 19 eq_refl) as Hloop.
  change (after_idle self env p v 0 w0) with w0 in Hloop.
  assert (Hin : 0 <= 19 < max_attempts) by (unfold max_attempts; lia).
  assert (Hbefore : forall j, 0 <= j < 19 -> seen self env p v j w0 = [])
    by (intros j Hj; apply Hidle; lia).
  rewrite (poll_after_loop _ _ _ _ _ _ _ _ (Hloop Hin Hbefore Hfound)).
  change (max_attempts <=? 19 + 1) with true. cbv iota.
  destruct (timeout_statuses self (clock env (19 + 1)) p v
              (Some (epoch (clock env (19 + 1)) - epoch (clock env 0))%Z) (19 + 1)
              (completion self env (clock env 0) p v (19 + 1) (seen self env p v 19 w0)
                 (after_idle self env p v 20 w0))) as [Hr Hs].
  split; [exact Hr|]. rewrite Hs, completion_statuses.
  unfold recorded_statuses. rewrite after_idle_db, <- app_assoc. reflexivity.
Qed.

(** A check that meets a store fault returns the empty list. *)
Lemma check_output_files_fault self p v w :
  head (outages w) = Some true -> (check_output_files self p v w).1 = Return [].
Proof.
  intros H. destruct w as [m [|[] rest] db]; simpl in H; try discriminate.
  unfold check_output_files. destruct (not_configured self); reflexivity.
Qed.

Lemma store_fails_seen self env p v j w0 :
  store_fails self env p v j w0 -> seen self env p v j w0 = [].
Proof.
  unfold store_fails, seen, look. intros H. simpl.
  by rewrite check_output_files_fault.
Qed.

(** C4, as the code has it. A cycle whose check meets a store fault is
    handled inside [check_output_files], which returns the empty list, and
    the loop goes on; such a cycle uses up an attempt exactly like a cycle
    whose check succeeds and finds nothing: twenty cycles of either kind end
    the task with the timeout after the twentieth. *)
Theorem store_errors_count_as_attempts self env p v u w0 :
  (forall j, j < 20 -> store_fails self env p v j w0 \/ seen self env p v j w0 = []) ->
  (poll_for_output_files self env p v u w0).1 = Return 20
  /\ recorded_statuses (poll_for_output_files self env p v u w0).2
     = recorded_statuses w0 ++ [JStr "timeout"].
Proof.
  intros H. apply poll_times_out. intros j Hj.
  destruct (H j Hj) as [Hf|Hs]; [by apply store_fails_seen|done].
Qed.

End MonitorFacts.

(** ** The output listing *)
Module ListingFacts.
Import S3 S3Service Monitor Spec PyStrFacts StoreFacts MonitorFacts.

Lemma output_entry_supported key f :
  output_entry key = Some f ->
  filename f <> "metadata.json"
  /\ exists ext, ext ∈ supported_extensions
       /\ PyStr.endswith (PyStr.upper ext) (PyStr.upper (filename f)) = true.
Proof.
  unfold output_entry.
  destruct (String.eqb_spec (PyStr.last_part (PyStr.split "/" key)) "metadata.json")
    as [|Hne]; [discriminate|].
  destruct (is_supported _) eqn:Hs; [|discriminate].
  intros [= <-]. simpl. split; [done|].
  unfold is_supported in Hs. apply existsb_exists in Hs as (ext & Hin & Hext).
  exists ext. split; [by apply list_elem_of_In|done].
Qed.

Lemma insert_desc_elem {K A} (lt : K -> K -> bool) k (x y : A) l :
  y ∈ (insert_desc lt k x l).*2 -> y = x \/ y ∈ l.*2.
Proof.
  induction l as [|[u z] l IH]; simpl.
  - intros H. apply list_elem_of_singleton in H. by left.
  - destruct (lt k u); simpl; intros H; apply elem_of_cons in H as [->|H].
    + right. apply list_elem_of_here.
    + destruct (IH H) as [->|Hin]; [by left|]. right. by apply list_elem_of_further.
    + by left.
    + by right.
Qed.

Lemma sort_desc_elem {K A} (lt : K -> K -> bool) (keyed : list (K * A)) y :
  y ∈ sort_desc lt keyed -> y ∈ keyed.*2.
Proof.
  unfold sort_desc. induction keyed as [|[k x] l IH]; simpl; [done|].
  intros H. apply insert_desc_elem in H as [->|H].
  - apply list_elem_of_here.
  - apply list_elem_of_further. by apply IH.
Qed.

Lemma sort_by_version_elem l w l' f :
  (sort_by_version l w).1 = Return l' -> f ∈ l' -> f ∈ l.
Proof.
  unfold sort_by_version. destruct l as [|a [|b l]]; try (by intros [= <-]).
  destruct (mapM _ _) as [keyed|] eqn:E; [|discriminate].
  intros [= <-] Hf. apply sort_desc_elem in Hf.
  apply mapM_Some_1 in E.
  apply list_elem_of_fmap in Hf as ([k x] & -> & Hin). simpl.
  destruct (proj1 (list_elem_of_lookup _ _) Hin) as [i Hi].
  destruct (Forall2_lookup_r _ _ _ _ _ E Hi) as (z & Hz & Hzx).
  destruct (file_version z); simpl in Hzx; [|discriminate].
  injection Hzx as _ <-. apply list_elem_of_lookup. eauto.
Qed.

Lemma check_output_files_elem self p v w l f :
  (check_output_files self p v w).1 = Return l -> f ∈ l ->
  exists key, output_entry key = Some f.
Proof.
  unfold check_output_files. destruct (not_configured self).
  { intros [= <-] Hf. by apply not_elem_of_nil in Hf. }
  destruct w as [m o db].
  unfold try_any, try_except, bind, list_objects_v2, client_call.
  cbn [outages objects db_updates].
  set (prefix := match version_given v with Some _ => _ | None => _ end).
  assert (Hbody : forall (contents : list (string * s3_object)) w1 l1,
     (let (o, b') :=
        match contents with
        | [] => ret []
        | _ :: _ =>
            match version_given v with
            | Some _ => ret (omap (fun kv => output_entry kv.1) contents)
            | None => sort_by_version (omap (fun kv => output_entry kv.1) contents)
            end
        end w1 in
      match o with
      | Return a => (Return a, b')
      | Raise (ClientError _ _ _) => ret [] b'
      | Raise (Exception _) => ret [] b'
      end).1 = Return l1 -> f ∈ l1 -> exists key, output_entry key = Some f).
  { intros contents w1 l1.
    set (files := omap _ contents).
    assert (Hfiles : forall x, x ∈ files -> exists key, output_entry key = Some x).
    { intros x Hx. apply list_elem_of_omap in Hx as (y & _ & Hy). eauto. }
    clearbody files. destruct contents as [|kv rest].
    { intros [= <-] Hf. by apply not_elem_of_nil in Hf. }
    destruct (version_given v).
    - intros [= <-] Hf. by apply Hfiles.
    - destruct (sort_by_version files w1) as [[l2|[c op text|msg]] w2] eqn:E; cbn [fst snd];
        try (intros [= <-] Hf; by apply not_elem_of_nil in Hf).
      intros [= <-] Hf. apply Hfiles.
      eapply sort_by_version_elem; [|exact Hf]. by rewrite E. }
  destruct o as [|[] rest].
  - apply Hbody.
  - intros [= <-] Hf. by apply not_elem_of_nil in Hf.
  - apply Hbody.
Qed.

Lemma split_nonempty c s : PyStr.split c s <> [].
Proof.
  destruct s as [|x s]; simpl; [done|].
  destruct (Ascii.eqb x c); [done|]. by destruct (PyStr.split c s).
Qed.

Lemma split_app_sep c a b :
  exists l, l <> [] /\ PyStr.split c (a +:+ String c b) = l ++ PyStr.split c b.
Proof.
  induction a as [|x a (l & Hl & IH)].
  - exists [EmptyString]. split; [done|]. rewrite append_nil_l. simpl.
    by rewrite Ascii.eqb_refl.
  - rewrite append_cons. simpl. rewrite IH. destruct (Ascii.eqb x c).
    + by exists (EmptyString :: l).
    + destruct l as [|w l]; [done|]. by exists (String x w :: l).
Qed.

Lemma last_app_nonempty {A} (l l' : list A) d : l' <> [] -> List.last (l ++ l') d = List.last l' d.
Proof.
  intros H. induction l as [|x l IH]; [done|].
  simpl. destruct (l ++ l') eqn:E; [|done].
  apply app_eq_nil in E as [_ ->]. done.
Qed.

Lemma last_part_after_sep c a b :
  PyStr.last_part (PyStr.split c (a +:+ String c b)) = PyStr.last_part (PyStr.split c b).
Proof.
  destruct (split_app_sep c a b) as (l & _ & ->).
  apply last_app_nonempty, split_nonempty.
Qed.

Lemma output_entry_metadata p v : output_entry (metadata_key p v) = None.
Proof.
  unfold output_entry.
  assert (PyStr.last_part (PyStr.split "/" (metadata_key p v)) = "metadata.json") as ->;
    [|reflexivity].
  replace (metadata_key p v)
    with (("output/" +:+ p +:+ "/v" +:+ PyStr.str v) +:+ String "/" "metadata.json")
    by (unfold metadata_key; by rewrite !append_assoc).
  rewrite last_part_after_sep. reflexivity.
Qed.

Lemma omap_all_None {A B} (f : A -> option B) l :
  (forall x, x ∈ l -> f x = None) -> omap f l = [].
Proof.
  intros H. apply elem_of_nil_inv. intros y Hy.
  apply list_elem_of_omap in Hy as (x & Hx & Hfx). rewrite (H x Hx) in Hfx. discriminate.
Qed.

(** With nothing but [metadata.json] under the version's folder, the check
    returns the empty list, whatever the store does. *)
Lemma check_output_files_only_metadata self p v w :
  0 < v -> only_metadata p v w ->
  (check_output_files self p (Some v) w).1 = Return [].
Proof.
  intros Hv Hom. destruct w as [m o db].
  unfold check_output_files. destruct (not_configured self); [reflexivity|].
  destruct v as [|v]; [lia|].
  assert (Hnil : omap (fun kv : string * s3_object => output_entry kv.1)
                   (first_page (output_prefix p (S v)) m) = []).
  { apply omap_all_None. intros [k ob] Hin. cbn [fst].
    apply elem_of_first_page in Hin as [Hk Hp].
    rewrite (Hom k ob Hk Hp). apply output_entry_metadata. }
  unfold try_any, try_except, bind, list_objects_v2, client_call.
  destruct o as [|[] rest]; cbn [outages objects db_updates version_given];
    [|reflexivity|]; rewrite Hnil;
    by destruct (first_page (output_prefix p (S v)) m).
Qed.

(** C9. Whatever [check_output_files] lists has a file name other than
    [metadata.json] that ends, case-insensitively, in one of the six
    supported extensions, and the call never raises; so when the folder of a
    version holds nothing but its [metadata.json] at every cycle, the polling
    task finds no artifact, never records the completion and times out. *)
Theorem check_output_files_supported_only self p v w :
  (exists l, (check_output_files self p v w).1 = Return l
     /\ forall f, f ∈ l ->
          filename f <> "metadata.json"
          /\ exists ext, ext ∈ supported_extensions
               /\ PyStr.endswith (PyStr.upper ext) (PyStr.upper (filename f)) = true)
  /\ (forall env n u w0, 0 < n ->
        (forall j, j < 20 ->
           only_metadata p n (sleep env j (after_idle self env p n j w0)).2) ->
        (forall j, j < 20 -> seen self env p n j w0 = [])
        /\ (poll_for_output_files self env p n u w0).1 = Return 20
        /\ recorded_statuses (poll_for_output_files self env p n u w0).2
           = recorded_statuses w0 ++ [JStr "timeout"]).
Proof.
  split.
  - destruct (check_output_files_returns self p v w) as [l Hl].
    exists l. split; [done|]. intros f Hf.
    destruct (check_output_files_elem _ _ _ _ _ _ Hl Hf) as [key Hkey].
    by apply output_entry_supported in Hkey.
  - intros env n u w0 Hn Hom.
    assert (Hseen : forall j, j < 20 -> seen self env p n j w0 = []).
    { intros j Hj. unfold seen, look. cbn [fst snd].
      by rewrite check_output_files_only_metadata by auto. }
    split; [exact Hseen|]. by apply poll_times_out.
Qed.

End ListingFacts.

(** ** ErrorAnalyzer *)
Module Analyzer.
Import S3 S3Service Spec PyStrFacts.

Lemma is_space_lower c : PyStr.is_space (PyStr.lower_char c) = PyStr.is_space c.
Proof. destruct c as [[] [] [] [] [] [] [] []]; reflexivity. Qed.

Lemma blank_lower s : blank (PyStr.lower s) = blank s.
Proof.
  unfold PyStr.lower. induction s as [|c s IH]; [done|].
  simpl. by rewrite is_space_lower, IH.
Qed.

Lemma blank_app a b : blank (a +:+ b) = blank a && blank b.
Proof.
  induction a as [|c a IH]; [done|]. rewrite append_cons. simpl.
  by rewrite IH, andb_assoc.
Qed.

Lemma blank_rev s : blank (PyStr.rev s) = blank s.
Proof.
  induction s as [|c s IH]; [done|].
  rewrite rev_cons, blank_app, IH. simpl. rewrite andb_true_r. apply andb_comm.
Qed.

Lemma blank_lstrip s : blank (PyStr.lstrip s) = blank s.
Proof.
  induction s as [|c s IH]; [done|]. simpl.
  destruct (PyStr.is_space c) eqn:E; [done|]. simpl. by rewrite E.
Qed.

Lemma blank_strip s : blank (PyStr.strip s) = blank s.
Proof. unfold PyStr.strip. by rewrite blank_rev, blank_lstrip, blank_rev, blank_lstrip. Qed.

Lemma startswith_not_blank c p s :
  PyStr.is_space c = false -> PyStr.startswith (String c p) s = true -> blank s = false.
Proof.
  intros Hc H. destruct s as [|x s]; [discriminate|]. simpl in *.
  destruct (Ascii.eqb_spec c x) as [<-|]; [|discriminate]. by rewrite Hc.
Qed.

Lemma contains_not_blank c p s :
  PyStr.is_space c = false -> PyStr.contains (String c p) s = true -> blank s = false.
Proof.
  intros Hc. induction s as [|x s IH]; intros H.
  - simpl in H. discriminate.
  - cbn [PyStr.contains] in H. apply orb_true_iff in H as [H|H].
    + by eapply startswith_not_blank.
    + simpl. rewrite (IH H). apply andb_false_r.
Qed.

(** A line that carries a marker does not strip to the empty string. *)
Lemma marked_strip_nonempty c p line :
  PyStr.is_space c = false -> PyStr.contains (String c p) (PyStr.lower line) = true ->
  String.eqb (PyStr.strip line) "" = false.
Proof.
  intros Hc H. apply contains_not_blank in H; [|done].
  rewrite blank_lower in H. apply String.eqb_neq. intros E.
  rewrite <- blank_strip, E in H. discriminate.
Qed.

(** What one line contributes, whatever was collected before it and whatever
    lines follow it. *)
Lemma classify_line_fields line following info :
  let d := classify_line line [] unknown_error in
  let r := classify_line line following info in
  error_type r = (if String.eqb (error_type d) "unknown" then error_type info else error_type d)
  /\ error_details r
     = (if String.eqb (error_details d) "" then error_details info else error_details d)
  /\ missing_modules r = missing_modules info ++ missing_modules d
  /\ syntax_errors r = syntax_errors info ++ syntax_errors d
  /\ runtime_errors r = runtime_errors info ++ runtime_errors d.
Proof.
  cbv zeta. unfold classify_line. set (ll := PyStr.lower line).
  destruct (PyStr.contains "importerror" ll || PyStr.contains "modulenotfounderror" ll)
    eqn:Himp.
  { assert (Hs : String.eqb (PyStr.strip line) "" = false).
    { apply orb_true_iff in Himp as [H|H];
        (eapply marked_strip_nonempty; [|exact H]); reflexivity. }
    destruct (PyStr.contains "cadquery" ll);
      [|destruct (PyStr.contains "cq" ll); [|destruct (PyStr.contains "importgui" ll)]];
      cbn; rewrite Hs, ?app_nil_r; done. }
  destruct (PyStr.contains "importgui" ll || PyStr.contains "gui" ll) eqn:Hgui.
  { assert (Hs : String.eqb (PyStr.strip line) "" = false).
    { apply orb_true_iff in Hgui as [H|H];
        (eapply marked_strip_nonempty; [|exact H]); reflexivity. }
    cbn. rewrite Hs, ?app_nil_r. done. }
  destruct (PyStr.contains "syntaxerror" ll); [cbn; by rewrite ?app_nil_r|].
  destruct (PyStr.contains "attributeerror" ll); [cbn; by rewrite ?app_nil_r|].
  destruct (PyStr.contains "error:" ll || PyStr.contains "exception:" ll);
    [cbn; by rewrite ?app_nil_r|].
  destruct (PyStr.contains "freecad" ll
            && (PyStr.contains "error" ll || PyStr.contains "exception" ll));
    [cbn; by rewrite ?app_nil_r|].
  destruct (PyStr.contains "traceback" ll); cbn; by rewrite ?app_nil_r.
Qed.

Lemma classify_line_core line f1 f2 i1 i2 :
  core i1 = core i2 -> core (classify_line line f1 i1) = core (classify_line line f2 i2).
Proof.
  intros [= Ht Hd Hm Hs Hr]. unfold core.
  destruct (classify_line_fields line f1 i1) as (-> & -> & -> & -> & ->).
  destruct (classify_line_fields line f2 i2) as (-> & -> & -> & -> & ->).
  by rewrite Ht, Hd, Hm, Hs, Hr.
Qed.

Lemma parse_lines_core l i1 i2 :
  core i1 = core i2 -> core (parse_lines l i1) = core (parse_lines l i2).
Proof.
  revert i1 i2. induction l as [|line l IH]; intros i1 i2 H; [done|].
  simpl. apply IH. by apply classify_line_core.
Qed.

Lemma parse_lines_app_core l1 l2 info :
  core (parse_lines (l1 ++ l2) info) = core (parse_lines l2 (parse_lines l1 info)).
Proof.
  revert info. induction l1 as [|line l1 IH]; intros info; [done|].
  simpl. rewrite IH. apply parse_lines_core, parse_lines_core, classify_line_core. done.
Qed.

Lemma parse_lines_fields l info :
  let b := parse_lines l unknown_error in
  let r := parse_lines l info in
  error_type r = (if String.eqb (error_type b) "unknown" then error_type info else error_type b)
  /\ error_details r
     = (if String.eqb (error_details b) "" then error_details info else error_details b)
  /\ missing_modules r = missing_modules info ++ missing_modules b
  /\ syntax_errors r = syntax_errors info ++ syntax_errors b
  /\ runtime_errors r = runtime_errors info ++ runtime_errors b.
Proof.
  revert info. induction l as [|line l IH]; intros info.
  - cbn. by rewrite !app_nil_r.
  - cbn [parse_lines].
    destruct (IH (classify_line line l info)) as (-> & -> & -> & -> & ->).
    destruct (IH (classify_line line l unknown_error)) as (-> & -> & -> & -> & ->).
    destruct (classify_line_fields line l info) as (-> & -> & -> & -> & ->).
    destruct (classify_line_fields line l unknown_error) as (-> & -> & -> & -> & ->).
    cbn [error_type error_details missing_modules syntax_errors runtime_errors unknown_error].
    rewrite !app_nil_l, !app_assoc.
    repeat split;
      repeat (match goal with
              | |- context [String.eqb ?a ?b] => destruct (String.eqb_spec a b)
              end; try done).
Qed.

Lemma split_app_lines c a b :
  PyStr.split c (a +:+ String c b) = PyStr.split c a ++ PyStr.split c b.
Proof.
  induction a as [|x a IH].
  - rewrite append_nil_l. simpl. by rewrite Ascii.eqb_refl.
  - rewrite append_cons. simpl. rewrite IH. destruct (Ascii.eqb x c); [done|].
    destruct (PyStr.split c a) as [|w ws] eqn:E; [|done].
    destruct a as [|y a]; simpl in E; [done|].
    destruct (Ascii.eqb y c); [done|]. by destruct (PyStr.split c a).
Qed.

(** Parsing a log followed by a second log: the list fields are those of
    the first followed by those of the second; [error_type] and
    [error_details] are those of the second log whenever one of its lines
    assigns them, and those of the first log only otherwise. *)
Lemma parse_appended_logs log1 log2 :
  let a := _parse_log_content log1 in
  let b := _parse_log_content log2 in
  let c := _parse_log_content (log1 +:+ LF +:+ log2) in
  error_type c = (if String.eqb (error_type b) "unknown" then error_type a else error_type b)
  /\ error_details c
     = (if String.eqb (error_details b) "" then error_details a else error_details b)
  /\ missing_modules c = missing_modules a ++ missing_modules b
  /\ syntax_errors c = syntax_errors a ++ syntax_errors b
  /\ runtime_errors c = runtime_errors a ++ runtime_errors b.
Proof.
  cbv zeta. unfold _parse_log_content.
  change (log1 +:+ LF +:+ log2) with (log1 +:+ String "010" log2).
  rewrite split_app_lines.
  pose proof (parse_lines_app_core (PyStr.split "010" log1) (PyStr.split "010" log2)
                unknown_error) as [= -> -> -> -> ->].
  apply parse_lines_fields.
Qed.

(** Lines that assign no type leave the type, and lines that assign no
    details leave the details. *)
Lemma parse_lines_no_type lines info :
  Forall (fun l => assigned_type l = "unknown") lines ->
  error_type (parse_lines lines info) = error_type info.
Proof.
  intros H. revert info. induction H as [|line following Hline _ IH]; intros info; [done|].
  cbn [parse_lines]. rewrite IH.
  destruct (classify_line_fields line following info) as (-> & _).
  unfold assigned_type in Hline. by rewrite Hline.
Qed.

Lemma parse_lines_no_details lines info :
  Forall (fun l => assigned_details l = "") lines ->
  error_details (parse_lines lines info) = error_details info.
Proof.
  intros H. revert info. induction H as [|line following Hline _ IH]; intros info; [done|].
  cbn [parse_lines]. rewrite IH.
  destruct (classify_line_fields line following info) as (_ & -> & _).
  unfold assigned_details in Hline. by rewrite Hline.
Qed.

Lemma parse_lines_lists lines info :
  missing_modules (parse_lines lines info)
  = missing_modules info
    ++ concat (map (fun l => missing_modules (classify_line l [] unknown_error)) lines)
  /\ syntax_errors (parse_lines lines info)
     = syntax_errors info
       ++ concat (map (fun l => syntax_errors (classify_line l [] unknown_error)) lines)
  /\ runtime_errors (parse_lines lines info)
     = runtime_errors info
       ++ concat (map (fun l => runtime_errors (classify_line l [] unknown_error)) lines).
Proof.
  revert info. induction lines as [|line following IH]; intros info.
  - simpl. by rewrite !app_nil_r.
  - cbn [parse_lines map concat].
    destruct (IH (classify_line line following info)) as (-> & -> & ->).
    destruct (classify_line_fields line following info) as (_ & _ & -> & -> & ->).
    by rewrite !app_assoc.
Qed.

(** C6, as the code has it. Each scalar field of the diagnosis is decided on
    its own by the last line that assigns it: [error_type] is the type
    assigned by the last line of the log that assigns a type, and
    [error_details] the details assigned by the last line that assigns
    details, which need not be the same line (a line may assign a type and no
    details, or neither); without such a line the field keeps its initial
    value.  The list fields hold, in the order of the lines, what every line
    adds. *)
Theorem each_scalar_follows_its_last_line log :
  let lines := PyStr.split "010" log in
  let info := _parse_log_content log in
  (forall before line after, lines = before ++ line :: after ->
     assigned_type line <> "unknown" ->
     Forall (fun l => assigned_type l = "unknown") after ->
     error_type info = assigned_type line)
  /\ (forall before line after, lines = before ++ line :: after ->
     assigned_details line <> "" ->
     Forall (fun l => assigned_details l = "") after ->
     error_details info = assigned_details line)
  /\ (Forall (fun l => assigned_type l = "unknown") lines -> error_type info = "unknown")
  /\ (Forall (fun l => assigned_details l = "") lines -> error_details info = "")
  /\ missing_modules info
     = concat (map (fun l => missing_modules (classify_line l [] unknown_error)) lines)
  /\ syntax_errors info
     = concat (map (fun l => syntax_errors (classify_line l [] unknown_error)) lines)
  /\ runtime_errors info
     = concat (map (fun l => runtime_errors (classify_line l [] unknown_error)) lines).
Proof.
  cbv zeta. unfold _parse_log_content.
  generalize (PyStr.split "010" log). intros lines.
  split; [|split; [|split; [|split]]].
  - intros before line after -> Hline Hafter.
    pose proof (parse_lines_app_core before (line :: after) unknown_error) as [= -> _ _ _ _].
    cbn [parse_lines]. rewrite (parse_lines_no_type _ _ Hafter).
    destruct (classify_line_fields line after (parse_lines before unknown_error)) as (-> & _).
    fold (assigned_type line). by destruct (String.eqb_spec (assigned_type line) "unknown").
  - intros before line after -> Hline Hafter.
    pose proof (parse_lines_app_core before (line :: after) unknown_error) as [= _ -> _ _ _].
    cbn [parse_lines]. rewrite (parse_lines_no_details _ _ Hafter).
    destruct (classify_line_fields line after (parse_lines before unknown_error))
      as (_ & -> & _).
    fold (assigned_details line). by destruct (String.eqb_spec (assigned_details line) "").
  - intros H. by rewrite (parse_lines_no_type _ _ H).
  - intros H. by rewrite (parse_lines_no_details _ _ H).
  - destruct (parse_lines_lists lines unknown_error) as (-> & -> & ->). done.
Qed.

(** C5, as the code has it. A line with an import-error marker that names
    ImportGui, and neither cadquery nor cq, adds "importgui" to
    [missing_modules] and sets [error_type] to "import_error" and
    [error_details] to the stripped line; these stand unless a later line
    assigns them again.  A line that mentions the GUI toolkit without an
    import-error marker is the one classified "gui_error". *)
Theorem import_line_naming_gui_module log pre line post :
  PyStr.split "010" log = pre ++ line :: post ->
  (import_marked line = true ->
   PyStr.contains "importgui" (PyStr.lower line) = true ->
   PyStr.contains "cadquery" (PyStr.lower line) = false ->
   PyStr.contains "cq" (PyStr.lower line) = false ->
   "importgui" ∈ missing_modules (_parse_log_content log)
   /\ (error_type (parse_lines post unknown_error) = "unknown" ->
       error_type (_parse_log_content log) = "import_error")
   /\ (error_details (parse_lines post unknown_error) = "" ->
       error_details (_parse_log_content log) = PyStr.strip line))
  /\ (import_marked line = false -> gui_marked line = true ->
      "importgui" ∈ missing_modules (_parse_log_content log)
      /\ (error_type (parse_lines post unknown_error) = "unknown" ->
          error_type (_parse_log_content log) = "gui_error")).
Proof.
  intros Hsplit. unfold _parse_log_content. rewrite Hsplit.
  pose proof (parse_lines_app_core pre (line :: post) unknown_error) as [= -> -> -> _ _].
  cbn [parse_lines].
  set (before := parse_lines pre unknown_error).
  destruct (parse_lines_fields post (classify_line line post before)) as (-> & -> & -> & _).
  split.
  - intros Hi Hg Hc Hq. unfold import_marked in Hi.
    unfold classify_line. rewrite Hi, Hc, Hq, Hg.
    cbn [error_type error_details missing_modules append_missing_module
         set_error_details set_error_type].
    split; [|split].
    + rewrite elem_of_app. left. rewrite elem_of_app. right. apply list_elem_of_here.
    + by intros ->.
    + by intros ->.
  - intros Hi Hg. unfold import_marked in Hi. unfold gui_marked in Hg.
    unfold classify_line. rewrite Hi, Hg.
    cbn [error_type error_details missing_modules append_missing_module
         set_error_details set_error_type].
    split.
    + rewrite elem_of_app. left. rewrite elem_of_app. right. apply list_elem_of_here.
    + by intros ->.
Qed.

End Analyzer.

(** ** AutoFixEngine *)
Module AutoFix.
Import S3 S3Service Spec PyStrFacts.

Lemma fallback_used ai code info msg :
  falls_back ai code info (Some msg) = true -> String.eqb msg "" = false ->
  _generate_ai_fixed_script ai code info (Some msg) = _generate_freecad_replacement code msg.
Proof.
  unfold falls_back, _generate_ai_fixed_script, or_default. intros H ->.
  destruct (ai code info (Some msg)) as [fixed|]; [|done].
  apply negb_true_iff in H. by rewrite H.
Qed.

Lemma mentions_cadquery_nonempty msg :
  PyStr.contains "cadquery" (PyStr.lower msg) || PyStr.contains "cq" (PyStr.lower msg) = true ->
  String.eqb msg "" = false.
Proof. destruct msg; [discriminate|done]. Qed.

(** C7, as the code has it. When the collaborator gives nothing usable, the
    error message mentions cadquery or cq, and the source mentions a cylinder
    and no box: if the numeric literals of the source start with 5 and 20 and
    there are at least three of them, the cylinder template is emitted with
    Radius 5.0 and Height 20.0; with fewer than three literals all dimensions
    fall back to the default and the cylinder has Radius 10 and Height 10. *)
Theorem fallback_cylinder_dimensions ai code info msg :
  falls_back ai code info (Some msg) = true ->
  PyStr.contains "cadquery" (PyStr.lower msg) || PyStr.contains "cq" (PyStr.lower msg) = true ->
  PyStr.contains ".box(" code || PyStr.contains "box" (PyStr.lower code) = false ->
  PyStr.contains ".cylinder(" code || PyStr.contains "cylinder" (PyStr.lower code) = true ->
  let numbers := findall_numbers (String.length code) false code in
  let out := _generate_ai_fixed_script ai code info (Some msg) in
  (forall third rest, numbers = "5" :: "20" :: third :: rest ->
     out = _generate_freecad_cylinder [PyFloat "5"; PyFloat "20"; PyFloat third]
     /\ has_line "cylinder.Radius = 5.0" out = true
     /\ has_line "cylinder.Height = 20.0" out = true)
  /\ (length numbers < 3 ->
      out = _generate_freecad_cylinder [PyInt 10; PyInt 10; PyInt 10]
      /\ has_line "cylinder.Radius = 10" out = true
      /\ has_line "cylinder.Height = 10" out = true).
Proof.
  intros Hai Hmsg Hbox Hcyl numbers out. subst out.
  rewrite (fallback_used _ _ _ _ Hai (mentions_cadquery_nonempty _ Hmsg)).
  unfold _generate_freecad_replacement. rewrite Hmsg, Hbox, Hcyl.
  unfold _extract_dimensions_from_code. fold numbers. split.
  - intros third rest ->. split; [reflexivity|]. split; vm_compute; reflexivity.
  - intros Hlen.
    assert (match numbers with
            | n0 :: n1 :: n2 :: _ => [PyFloat n0; PyFloat n1; PyFloat n2]
            | _ => [PyInt 10; PyInt 10; PyInt 10]
            end = [PyInt 10; PyInt 10; PyInt 10]) as ->.
    { destruct numbers as [|? [|? [|? ?]]]; simpl in Hlen; (done || lia). }
    split; [reflexivity|]. split; vm_compute; reflexivity.
Qed.

End AutoFix.

(** ** The statements at concrete worlds *)
Module Examples.
Import S3 S3Service Monitor Spec Samples.
Import PyStrFacts StoreFacts Allocation Recovery MonitorFacts ListingFacts Analyzer AutoFix.

Lemma only_metadata_b_sound p v w : only_metadata_b p v w = true -> only_metadata p v w.
Proof.
  unfold only_metadata_b. intros H k o Hk Hp.
  rewrite forallb_forall in H.
  assert (Hin : (k, o) ∈ list_prefix (output_prefix p v) (objects w))
    by (by apply elem_of_list_prefix).
  apply list_elem_of_In, H in Hin. by apply String.eqb_eq in Hin.
Qed.

(** The output folder of the failed demo job fits one page. *)
Lemma failed_world_one_page n : one_page (output_prefix "demo" 1) (failed_world n).
Proof.
  unfold one_page, page_size.
  assert (Hle : length (list_prefix (output_prefix "demo" 1) (objects (failed_world n))) <= 2).
  { unfold list_prefix. rewrite merge_sort_Permutation.
    unfold failed_world, failed_bucket. cbn [objects].
    rewrite !map_to_list_insert, map_to_list_empty by (vm_compute; reflexivity).
    vm_compute. lia. }
  lia.
Qed.

(** C1 at the failed demo job: replacement and automatic fix leave the
    cleared state, also when they are run again with a replacement that
    fails or a message that is missing; a retry removes the marker. *)
Lemma recovery_clears_witness :
  cleared "demo" 1 (replace_failed_script svc t1 "demo" 1 "print(1)" None (failed_world 1)).2
  /\ cleared "demo" 1
       (replace_failed_script svc t1 "demo" 1 "print(2)" None
          (replace_failed_script svc t1 "demo" 1 "print(1)" None (failed_world 1)).2).2
  /\ cleared "demo" 1
       (auto_fix_failed_script svc no_ai t1 "demo" 1 None None
          (auto_fix_failed_script svc no_ai t1 "demo" 1 (Some "No module named cadquery") None
             (failed_world 1)).2).2
  /\ marker_absent "demo" 1 (retry_failed_script svc t1 "demo" 1 (failed_world 1)).2.
Proof.
  destruct (recovery_clears_marker_and_outputs svc no_ai t1 "demo" 1 (failed_world 1)
              eq_refl) as (Hreplace & Hfix & Hretry).
  assert (H1 : succeeded (replace_failed_script svc t1 "demo" 1 "print(1)" None
                            (failed_world 1)).1 = true) by (vm_compute; reflexivity).
  assert (H2 : (auto_fix_failed_script svc no_ai t1 "demo" 1
                  (Some "No module named cadquery") None (failed_world 1)).1 = Return true)
    by (vm_compute; reflexivity).
  assert (H3 : succeeded (retry_failed_script svc t1 "demo" 1 (failed_world 1)).1 = true)
    by (vm_compute; reflexivity).
  destruct (Hreplace "print(1)" None (failed_world_one_page 1) H1) as (Hcl & Hagain).
  split; [exact Hcl|]. split; [exact (Hagain t1 "print(2)" None)|]. split.
  - exact (proj2 (Hfix (Some "No module named cadquery") None
                    (failed_world_one_page 1) H2) t1 None None).
  - exact (proj1 (Hretry H3)).
Defined.

(** C1 as stated fails for a retry: it succeeds and the artifact of the
    failed run is still listed. *)
Lemma retry_keeps_outputs :
  ~ (forall self now p v w,
       outages w = [] ->
       succeeded (retry_failed_script self now p v w).1 = true ->
       marker_absent p v (retry_failed_script self now p v w).2
       /\ (check_output_files self p (Some v) (retry_failed_script self now p v w).2).1
          = Return []).
Proof.
  intros H.
  destruct (H svc t1 "demo" 1 (failed_world 1) eq_refl) as [_ Hout].
  - vm_compute. reflexivity.
  - vm_compute in Hout. discriminate Hout.
Qed.

(** The clearing reads one page: of 1003 objects in the output folder of
    the version, a successful replacement deletes the first 1000 in key
    order, and [part999.stl] is among those it leaves. *)
Lemma replace_beyond_a_page :
  succeeded (replace_failed_script svc t1 "demo" 1 "print(1)" None many_parts_world).1 = true
  /\ objects (replace_failed_script svc t1 "demo" 1 "print(1)" None many_parts_world).2
       !! "output/demo/v1/part999.stl" = Some artifact
  /\ ~ cleared "demo" 1
         (replace_failed_script svc t1 "demo" 1 "print(1)" None many_parts_world).2.
Proof.
  assert (E : objects (replace_failed_script svc t1 "demo" 1 "print(1)" None
                         many_parts_world).2 !! "output/demo/v1/part999.stl"
              = Some artifact) by (vm_compute; reflexivity).
  split; [vm_compute; reflexivity|]. split; [exact E|].
  intros [_ Hout]. specialize (Hout _ _ E). vm_compute in Hout. discriminate.
Qed.

(** C2 at the failed demo job: refused at three retries, counted at one. *)
Lemma retry_respects_budget_witness :
  retry_failed_script svc t1 "demo" 1 (failed_world 3)
  = (Return (<["retry_count" := JInt 3]> (failure "Maximum retry attempts reached")),
     failed_world 3)
  /\ exists r w', retry_failed_script svc t1 "demo" 1 (failed_world 1) = (Return r, w')
       /\ r !! "retry_count" = Some (JInt 2)
       /\ objects w' !! processed_key "demo" 1 = None.
Proof.
  split.
  - apply (retry_respects_budget svc t1 "demo" 1 (failed_world 3) (error_data 3)
             "application/json" ∅ eq_refl eq_refl).
    + vm_compute. reflexivity.
    + vm_compute. reflexivity.
  - destruct (retry_respects_budget svc t1 "demo" 1 (failed_world 1) (error_data 1)
                "application/json" ∅ eq_refl eq_refl) as [_ H].
    + vm_compute. reflexivity.
    + destruct (H 1%Z) as (r & w' & Hrun & _ & Hcount & Hmarker & _).
      * vm_compute. reflexivity.
      * lia.
      * exists r, w'. auto.
Defined.

Lemma below (n : nat) (P : nat -> Prop) :
  Forall P (seq 0 n) -> forall j, j < n -> P j.
Proof.
  intros H j Hj. rewrite Forall_forall in H. apply H.
  apply list_elem_of_In, in_seq. lia.
Qed.

(** C3 at the late worker: the artifact appears during the twentieth sleep,
    and both outcomes are recorded. *)
Lemma completion_on_last_attempt_witness :
  ((poll_for_output_files svc late_worker "demo" 1 "user-1" submitted_world).1 = Return 20
   /\ recorded_statuses
        (poll_for_output_files svc late_worker "demo" 1 "user-1" submitted_world).2
      = [JStr "completed"; JStr "timeout"])
  /\ (objects (poll_for_output_files svc late_worker "demo" 1 "user-1" submitted_world).2
        !! "processed/demo/demo_v1.py.done") ≫= (fun o => Metadata o !! "worker_id")
     = Some "timeout"
  /\ is_Some (objects (poll_for_output_files svc late_worker "demo" 1 "user-1"
                         submitted_world).2 !! "output/demo/v1/model.stl").
Proof.
  split; [|split].
  - apply (completion_on_last_attempt_also_times_out svc late_worker "demo" 1 "user-1"
             submitted_world).
    + apply (below 19 (fun j => seen svc late_worker "demo" 1 j submitted_world = [])).
      repeat constructor.
    + vm_compute. discriminate.
  - vm_compute. reflexivity.
  - vm_compute. eexists. reflexivity.
Defined.

(** C4 at the faulty world: every one of the twenty checks fails. *)
Lemma store_errors_count_witness :
  (poll_for_output_files svc still "demo" 1 "user-1" faulty_world).1 = Return 20
  /\ recorded_statuses (poll_for_output_files svc still "demo" 1 "user-1" faulty_world).2
     = [JStr "timeout"].
Proof.
  apply (store_errors_count_as_attempts svc still "demo" 1 "user-1" faulty_world).
  apply (below 20 (fun j => store_fails svc still "demo" 1 j faulty_world
                            \/ seen svc still "demo" 1 j faulty_world = [])).
  repeat constructor; left; vm_compute; reflexivity.
Defined.

(** C4 as stated fails: an iteration whose check meets a store error does
    not leave [attempt] as it was; at the faulty world all twenty cycles meet
    a store error, none is a successful check that finds nothing, and still
    the twenty attempts are used up and the timeout is recorded. *)
Lemma store_errors_use_up_budget :
  ~ (forall self env start_time p v attempt w,
       attempt < max_attempts ->
       head (outages (sleep env attempt w).2) = Some true ->
       (poll_loop self env start_time p v 1 attempt w).1 = Return attempt)
  /\ Forall (fun j => store_fails svc still "demo" 1 j faulty_world) (seq 0 20)
  /\ (poll_for_output_files svc still "demo" 1 "user-1" faulty_world).1 = Return 20
  /\ recorded_statuses (poll_for_output_files svc still "demo" 1 "user-1" faulty_world).2
     = [JStr "timeout"].
Proof.
  split; [|split; [|split]].
  - intros H. specialize (H svc still t0 "demo" 1 0 faulty_world).
    assert (H0 : 0 < max_attempts) by (unfold max_attempts; lia).
    specialize (H H0 eq_refl). vm_compute in H. discriminate H.
  - repeat constructor; vm_compute; reflexivity.
  - vm_compute. reflexivity.
  - vm_compute. reflexivity.
Qed.

(** C5 at two logs: the import-error line naming ImportGui, and a line that
    mentions the GUI toolkit only. *)
Lemma import_line_naming_gui_module_witness :
  ("importgui" ∈ missing_modules (_parse_log_content gui_import_log)
   /\ error_type (_parse_log_content gui_import_log) = "import_error")
  /\ error_type (_parse_log_content gui_log) = "gui_error".
Proof.
  split.
  - destruct (import_line_naming_gui_module gui_import_log
                ["Traceback (most recent call last):"]
                "ModuleNotFoundError: No module named 'ImportGui'"
                ["worker finished"] eq_refl) as [H _].
    destruct (H eq_refl eq_refl eq_refl eq_refl) as (Hin & Htype & _).
    split; [exact Hin|exact (Htype eq_refl)].
  - destruct (import_line_naming_gui_module gui_log
                ["starting"] "Cannot load Gui module in console mode" [] eq_refl) as [_ H].
    destruct (H eq_refl eq_refl) as (_ & Htype).
    exact (Htype eq_refl).
Defined.

(** C5 as stated fails: a module-not-found line naming ImportGui is
    classified as an import error. *)
Lemma gui_import_is_import_error :
  ~ (forall log line,
       line ∈ PyStr.split "010" log ->
       import_marked line = true ->
       PyStr.contains "importgui" (PyStr.lower line) = true ->
       error_type (_parse_log_content log) = "gui_error"
       /\ "importgui" ∈ missing_modules (_parse_log_content log)).
Proof.
  intros H.
  destruct (H "ModuleNotFoundError: No module named 'ImportGui'"
              "ModuleNotFoundError: No module named 'ImportGui'") as [Htype _].
  - vm_compute. apply list_elem_of_here.
  - vm_compute. reflexivity.
  - vm_compute. reflexivity.
  - vm_compute in Htype. discriminate Htype.
Qed.

(** C6 as stated fails: the second matching line replaces the type that the
    first one set. *)
Lemma first_match_is_overridden :
  ~ (forall log1 log2,
       error_type (_parse_log_content log1) <> "unknown" ->
       error_type (_parse_log_content (log1 +:+ LF +:+ log2))
       = error_type (_parse_log_content log1)).
Proof.
  intros H. specialize (H two_errors_log_head two_errors_log_tail).
  vm_compute in H. discriminate H. discriminate.
Qed.

(** C6 at the log of two lines, an import error and then a syntax error:
    the type is the one of the second line, the details are those of the
    first, the only line that assigns details. *)
Lemma each_scalar_witness :
  error_type (_parse_log_content (two_errors_log_head +:+ LF +:+ two_errors_log_tail))
  = "syntax_error"
  /\ error_details (_parse_log_content (two_errors_log_head +:+ LF +:+ two_errors_log_tail))
     = "ImportError: No module named cadquery".
Proof.
  destruct (each_scalar_follows_its_last_line
              (two_errors_log_head +:+ LF +:+ two_errors_log_tail))
    as (Htype & Hdetails & _).
  assert (Hsplit : PyStr.split "010" (two_errors_log_head +:+ LF +:+ two_errors_log_tail)
                   = [two_errors_log_head; two_errors_log_tail]) by (vm_compute; reflexivity).
  assert (Hafter : Forall (fun l => assigned_details l = "") [two_errors_log_tail])
    by (constructor; [vm_compute; reflexivity|constructor]).
  assert (Hlast : Forall (fun l => assigned_type l = "unknown") []) by constructor.
  assert (Htail : assigned_type two_errors_log_tail <> "unknown") by (vm_compute; discriminate).
  assert (Hhead : assigned_details two_errors_log_head <> "") by (vm_compute; discriminate).
  assert (Ety : assigned_type two_errors_log_tail = "syntax_error") by (vm_compute; reflexivity).
  assert (Edt : assigned_details two_errors_log_head = "ImportError: No module named cadquery")
    by (vm_compute; reflexivity).
  split.
  - rewrite <- Ety.
    exact (Htype [two_errors_log_head] two_errors_log_tail [] Hsplit Htail Hlast).
  - rewrite <- Edt.
    exact (Hdetails [] two_errors_log_head [two_errors_log_tail] Hsplit Hhead Hafter).
Defined.

(** C7 at a source with the literals 5, 20 and a third one. *)
Lemma fallback_cylinder_dimensions_witness :
  has_line "cylinder.Radius = 5.0"
    (_generate_ai_fixed_script no_ai cq_source_moved unknown_error
       (Some "No module named cadquery")) = true
  /\ has_line "cylinder.Height = 20.0"
       (_generate_ai_fixed_script no_ai cq_source_moved unknown_error
          (Some "No module named cadquery")) = true.
Proof.
  destruct (fallback_cylinder_dimensions no_ai cq_source_moved unknown_error
              "No module named cadquery" eq_refl eq_refl eq_refl eq_refl) as [H _].
  destruct (H "0" ["0"; "1"]) as (_ & Hr & Hh).
  - vm_compute. reflexivity.
  - split; assumption.
Defined.

(** C7 as stated fails: with the two literals 5 and 20 alone the emitted
    cylinder has the default dimensions. *)
Lemma two_literals_give_defaults :
  ~ (forall ai code info msg,
       falls_back ai code info (Some msg) = true ->
       PyStr.contains ".cylinder(5, 20)" code = true ->
       let out := _generate_ai_fixed_script ai code info (Some msg) in
       (has_line "cylinder.Radius = 5" out || has_line "cylinder.Radius = 5.0" out) = true
       /\ (has_line "cylinder.Height = 20" out || has_line "cylinder.Height = 20.0" out) = true).
Proof.
  intros H.
  destruct (H no_ai cq_source unknown_error "No module named cadquery" eq_refl eq_refl)
    as [Hr _].
  vm_compute in Hr. discriminate Hr.
Qed.

(** Within a page, at an empty store: three submissions get the versions
    1, 2, 3. *)
Lemma three_submissions :
  exists rs w',
    submit_all svc "demo" [(t0, "print(1)", None); (t0, "print(2)", None); (t1, "print(3)", None)]
      empty_world = (Return rs, w')
    /\ map up_version rs = [Some 1; Some 2; Some 3].
Proof.
  assert (Hpage : one_page (input_prefix "demo") empty_world)
    by (unfold one_page, page_size; vm_compute; lia).
  apply (proj2 (versions_within_a_page svc "demo" empty_world eq_refl eq_refl Hpage)
           [(t0, "print(1)", None); (t0, "print(2)", None); (t1, "print(3)", None)]).
  - vm_compute. reflexivity.
  - unfold page_size. simpl. lia.
Qed.

(** C9 at the world with only [metadata.json]: the task times out. *)
Lemma metadata_alone_witness :
  (poll_for_output_files svc still "demo" 1 "user-1" metadata_only_world).1 = Return 20
  /\ recorded_statuses
       (poll_for_output_files svc still "demo" 1 "user-1" metadata_only_world).2
     = [JStr "timeout"].
Proof.
  apply (proj2 (check_output_files_supported_only svc "demo" None empty_world)
           still 1 "user-1" metadata_only_world Nat.lt_0_1).
  apply (below 20 (fun j => only_metadata "demo" 1
                              (sleep still j (after_idle svc still "demo" 1 j
                                                metadata_only_world)).2)).
  repeat constructor; apply only_metadata_b_sound; vm_compute; reflexivity.
Defined.

(** C10 at the flaky world: the listing fails, version 1 is allocated, and
    the stored version-1 script is overwritten. *)
Lemma next_version_swallows_witness :
  get_next_version svc "demo" flaky_world
  = (Return 1, mk_world (objects flaky_world) [false] [])
  /\ objects flaky_world !! "input/demo/demo_v1.py" = Some script
  /\ objects (upload_script svc t1 "print(2)" "demo" None flaky_world).2
       !! "input/demo/demo_v1.py"
     = Some (mk_object (Text "print(2)") "text/x-python"
               (upload_metadata "demo" 1 (isoformat t1) None)).
Proof.
  destruct (next_version_swallows_store_error svc "demo" flaky_world [false]
              eq_refl eq_refl) as [Hnext Hupload].
  split; [exact Hnext|]. split; [vm_compute; reflexivity|].
  destruct (Hupload t1 "print(2)" None [] eq_refl) as (r & -> & _).
  apply lookup_insert_eq.
Defined.

End Examples.

(** ** Submissions under faults, and reading a submission back *)
Module Submission.
Import S3 S3Service Spec PyStrFacts StoreFacts.

(** Whatever the store does, the allocator answers, and what it saw is the
    bucket it leaves. *)
Lemma get_next_version_any self p w :
  exists n w', get_next_version self p w = (Return n, w')
    /\ 1 <= n /\ objects w' = objects w /\ db_updates w' = db_updates w
    /\ (outages w' = tail (outages w) \/ w' = w).
Proof.
  destruct w as [m o db]. unfold get_next_version.
  destruct (not_configured self).
  { eexists _, _. split; [reflexivity|]. simpl. (repeat split; try lia; auto). }
  unfold try_any, try_except, bind, list_objects_v2, client_call, ret.
  cbn -[listed_versions max_list first_page].
  destruct o as [|[] o]; cbn -[listed_versions max_list first_page].
  - destruct (first_page (input_prefix p) m) as [|kv l]; cbn -[listed_versions max_list first_page].
    + eexists _, _. split; [reflexivity|]. simpl. (repeat split; try lia; auto).
    + destruct (listed_versions p (kv :: l)); cbn -[listed_versions max_list first_page];
        (eexists _, _; split; [reflexivity|]; simpl; repeat split; try lia; auto).
  - eexists _, _. split; [reflexivity|]. simpl. (repeat split; try lia; auto).
  - destruct (first_page (input_prefix p) m) as [|kv l]; cbn -[listed_versions max_list first_page].
    + eexists _, _. split; [reflexivity|]. simpl. (repeat split; try lia; auto).
    + destruct (listed_versions p (kv :: l)); cbn -[listed_versions max_list first_page];
        (eexists _, _; split; [reflexivity|]; simpl; repeat split; try lia; auto).
Qed.

(** X1. Whatever the store does (any schedule of faults, configured or not),
    [get_next_version] never raises, never answers 0 and writes nothing: the
    bucket and the recorded project updates are the ones it found. *)
Theorem next_version_never_fails self p w :
  exists n, (get_next_version self p w).1 = Return n
    /\ 1 <= n
    /\ objects (get_next_version self p w).2 = objects w
    /\ db_updates (get_next_version self p w).2 = db_updates w.
Proof.
  destruct (get_next_version_any self p w) as (n & w' & E & Hn & Hm & Hdb & _).
  rewrite E. exists n. auto.
Qed.

(** X2. A submission is all or nothing, whatever the store does: either it
    reports success with a version [n >= 1] and the bucket gained exactly the
    object [input/p/p_vn.py] holding the submitted text, or it reports failure
    with an error text and no version, and the bucket is unchanged.  It never
    raises and never records a project update. *)
Theorem upload_is_all_or_nothing self now code p user w :
  exists r w', upload_script self now code p user w = (Return r, w')
    /\ db_updates w' = db_updates w
    /\ ((up_success r = true /\ up_error r = None
         /\ exists n, 1 <= n /\ up_version r = Some n
              /\ up_filename r = Some (script_key p n)
              /\ objects w'
                 = <[script_key p n := mk_object (Text code) "text/x-python"
                                         (upload_metadata p n (isoformat now) user)]>
                     (objects w))
        \/ (up_success r = false /\ up_error r <> None /\ up_version r = None
            /\ objects w' = objects w)).
Proof.
  unfold upload_script. destruct (not_configured self).
  { eexists _, _. split; [reflexivity|]. split; [done|]. right. by simpl. }
  destruct (get_next_version_any self p w) as (n & w1 & E & Hn & Hm & Hdb & _).
  unfold try_any, try_except, bind at 1. rewrite E.
  destruct w1 as [m1 o1 db1]. simpl in Hm, Hdb. subst m1 db1.
  unfold bind, put_object, client_call, ret. simpl.
  destruct o1 as [|[] o1]; simpl.
  - eexists _, _. split; [reflexivity|]. split; [done|]. left. simpl.
    repeat split. exists n. auto.
  - eexists _, _. split; [reflexivity|]. split; [done|]. right. by simpl.
  - eexists _, _. split; [reflexivity|]. split; [done|]. left. simpl.
    repeat split. exists n. auto.
Qed.

(** X3. On a store that answers, a submission can be read back: the version
    that [upload_script] reports is at least 1, [get_script_content] for it
    returns the submitted text, and every other key of the bucket is as
    before. *)
Theorem upload_then_read_back self now code p user w :
  not_configured self = false -> outages w = [] ->
  exists r n w', upload_script self now code p user w = (Return r, w')
    /\ up_success r = true /\ up_version r = Some n /\ 1 <= n
    /\ get_script_content self p n w' = (Return (Some code), w')
    /\ (forall k, k <> script_key p n -> objects w' !! k = objects w !! k).
Proof.
  intros Hc Ho. destruct w as [m o db]. simpl in Ho. subst o.
  destruct (upload_script_healthy self now code p user m db Hc)
    as (r & n & Hn & Hu & Hs & Hv).
  destruct (get_next_version_any self p (mk_world m [] db)) as (n' & w1 & E & Hpos & _).
  rewrite Hn in E. injection E as <- <-.
  exists r, n. eexists. split; [exact Hu|]. repeat split; try done.
  - unfold get_script_content. rewrite Hc.
    unfold try_any, try_except, bind, get_object, client_call, ret. simpl.
    rewrite lookup_insert_eq. reflexivity.
  - intros k Hk. simpl. by rewrite lookup_insert_ne.
Qed.

End Submission.

(** ** The recovery operations composed *)
Module RecoveryMore.
Import S3 S3Service S3Listing Further Spec PyStrFacts StoreFacts Recovery.

Local Open Scope Z_scope.

(** One retry against a stored record, on a store that answers. *)
Lemma retry_step_healthy self now p v m db d ct md c :
  s3_client self = true ->
  m !! error_key p v = Some (mk_object (Json d) ct md) ->
  d !! "retry_count" = Some (JInt c) ->
  exists r,
    retry_failed_script self now p v (mk_world m [] db)
    = (Return r,
       if 3 <=? c then mk_world m [] db
       else mk_world (<[error_key p v :=
                         mk_object (Json (<["retry_attempted_at" := JStr (isoformat now)]>
                                           (<["retry_count" := JInt (c + 1)]> d)))
                                   "application/json" ∅]>
                       (delete (processed_key p v) m)) [] db)
    /\ answer_ok r = negb (3 <=? c).
Proof.
  intros Hc Hrec Hn. unfold retry_failed_script. rewrite Hc. run_py.
  rewrite Hrec. simpl. rewrite Hn. simpl.
  destruct (3 <=? c); simpl; eexists; split; reflexivity.
Qed.

(** X4. The retry budget, over any number of retries in a row.  On a store
    that answers, starting from a stored error record whose [retry_count] is
    [c <= 3]: the retry number [i] (counted from 0) succeeds exactly when
    [c + i < 3], and after [n] retries the stored [retry_count] is
    [min 3 (c + n)]: it never passes 3, and once it is 3 every further retry
    is refused. *)
Theorem retries_stop_at_three self times p v w d ct md c :
  s3_client self = true -> outages w = [] ->
  objects w !! error_key p v = Some (mk_object (Json d) ct md) ->
  d !! "retry_count" = Some (JInt c) -> c <= 3 ->
  exists answers w',
    retry_all self times p v w = (Return answers, w')
    /\ length answers = length times
    /\ (forall i r, answers !! i = Some r ->
          answer_ok r = bool_decide (c + Z.of_nat i < 3))
    /\ stored_retry_count p v w'
       = Some (JInt (Z.min 3 (c + Z.of_nat (length times)))).
Proof.
  intros Hc Ho. destruct w as [m o db]. simpl in Ho. subst o. simpl.
  revert m d ct md c. induction times as [|now times IH]; intros m d ct md c Hrec Hn Hle.
  - eexists _, _. split; [reflexivity|]. split; [done|]. split.
    + intros i r Hi. done.
    + unfold stored_retry_count. simpl. rewrite Hrec. simpl. rewrite Hn.
      do 2 f_equal. lia.
  - destruct (retry_step_healthy self now p v m db d ct md c Hc Hrec Hn) as (r & Hstep & Hok).
    cbn [retry_all]. unfold bind at 1. rewrite Hstep.
    destruct (3 <=? c) eqn:E.
    + apply Z.leb_le in E. assert (c = 3) as -> by lia.
      destruct (IH m d ct md 3 Hrec Hn Hle) as (answers & w' & Hrun & Hlen & Hans & Hcount).
      unfold bind at 1. rewrite Hrun. eexists _, _. split; [reflexivity|].
      split; [simpl; by rewrite Hlen|]. split.
      * intros [|i] r' Hi; simpl in Hi.
        -- injection Hi as <-. rewrite Hok. reflexivity.
        -- rewrite (Hans i r' Hi). apply bool_decide_ext. lia.
      * rewrite Hcount. do 2 f_equal. simpl length. lia.
    + apply Z.leb_gt in E.
      set (d' := <["retry_attempted_at" := JStr (isoformat now)]>
                   (<["retry_count" := JInt (c + 1)]> d)) in *.
      set (m' := <[error_key p v := mk_object (Json d') "application/json" ∅]>
                   (delete (processed_key p v) m)) in *.
      assert (Hrec' : m' !! error_key p v = Some (mk_object (Json d') "application/json" ∅))
        by apply lookup_insert_eq.
      assert (Hn' : d' !! "retry_count" = Some (JInt (c + 1))).
      { unfold d'. rewrite lookup_insert_ne by done. apply lookup_insert_eq. }
      destruct (IH m' d' _ _ (c + 1) Hrec' Hn' ltac:(lia))
        as (answers & w' & Hrun & Hlen & Hans & Hcount).
      unfold bind at 1. rewrite Hrun. eexists _, _. split; [reflexivity|].
      split; [simpl; by rewrite Hlen|]. split.
      * intros [|i] r' Hi; simpl in Hi.
        -- injection Hi as <-. rewrite Hok. simpl. symmetry. apply bool_decide_eq_true. lia.
        -- rewrite (Hans i r' Hi). apply bool_decide_ext. lia.
      * rewrite Hcount. do 2 f_equal. simpl length. lia.
Qed.


(** X5. [mark_script_failed] is all or nothing, whatever the store does: it
    never raises and records no project update; when it answers [True] the
    bucket differs from the one before in the error record of the version
    only, and that record holds the given retry count; when it answers
    [False] the bucket is unchanged. *)
Theorem mark_failed_touches_one_key self now p v msg c w :
  exists b w', mark_script_failed self now p v msg c w = (Return b, w')
    /\ db_updates w' = db_updates w
    /\ (if b then
          stored_retry_count p v w' = Some (JInt c)
          /\ forall k, k <> error_key p v -> objects w' !! k = objects w !! k
        else objects w' = objects w).
Proof.
  destruct w as [m o db]. unfold mark_script_failed.
  destruct (s3_client self); [|by eexists _, _].
  run_py. destruct o as [|[] o]; simpl.
  - eexists _, _. split; [reflexivity|]. split; [done|]. simpl. split.
    + unfold stored_retry_count. simpl. rewrite lookup_insert_eq. simpl.
      by repeat (rewrite lookup_insert_ne by done; try rewrite lookup_insert_eq).
    + intros k Hk. by rewrite lookup_insert_ne.
  - by eexists _, _.
  - eexists _, _. split; [reflexivity|]. split; [done|]. simpl. split.
    + unfold stored_retry_count. simpl. rewrite lookup_insert_eq. simpl.
      by repeat (rewrite lookup_insert_ne by done; try rewrite lookup_insert_eq).
    + intros k Hk. by rewrite lookup_insert_ne.
Qed.

(** X6. Marking decides the next retry, whatever was stored before.  On a
    store that answers: after [mark_script_failed] with retry count [c], a
    retry succeeds exactly when [c < 3], and then reports [c + 1]; so marking
    a version again with a count below 3 opens a budget that was used up. *)
Theorem marking_sets_the_budget self now now' p v msg c w :
  s3_client self = true -> outages w = [] ->
  exists w1 r w2,
    mark_script_failed self now p v msg c w = (Return true, w1)
    /\ retry_failed_script self now' p v w1 = (Return r, w2)
    /\ answer_ok r = bool_decide (c < 3)
    /\ (c < 3 -> r !! "retry_count" = Some (JInt (c + 1))
                 /\ stored_retry_count p v w2 = Some (JInt (c + 1)))
    /\ (3 <= c -> w2 = w1).
Proof.
  intros Hc Ho. destruct w as [m o db]. simpl in Ho. subst o.
  unfold mark_script_failed. rewrite Hc. run_py.
  match goal with
  | |- context [Json ?d0] => set (d := d0)
  end.
  assert (Hn : d !! "retry_count" = Some (JInt c)).
  { unfold d. by repeat (rewrite lookup_insert_ne by done; try rewrite lookup_insert_eq). }
  set (m1 := <[error_key p v := mk_object (Json d) "application/json" ∅]> m).
  assert (Hrec : m1 !! error_key p v = Some (mk_object (Json d) "application/json" ∅))
    by apply lookup_insert_eq.
  destruct (retry_step_healthy self now' p v m1 db d _ _ c Hc Hrec Hn) as (r & Hstep & Hok).
  eexists _, r, _. split; [reflexivity|]. split; [exact Hstep|].
  destruct (3 <=? c) eqn:E.
  - apply Z.leb_le in E. split; [|split]; [|lia|done].
    rewrite Hok. symmetry. apply bool_decide_eq_false. lia.
  - apply Z.leb_gt in E. split; [|split]; [| |lia].
    + rewrite Hok. symmetry. apply bool_decide_eq_true. lia.
    + intros _. split.
      * revert Hstep. unfold retry_failed_script. rewrite Hc. run_py.
        rewrite Hrec. simpl. rewrite Hn. simpl.
        destruct (3 <=? c) eqn:E'; [apply Z.leb_le in E'; lia|]. simpl.
        intros [= <-]. done.
      * unfold stored_retry_count. simpl. rewrite lookup_insert_eq. simpl.
        rewrite lookup_insert_ne by done. apply lookup_insert_eq.
Qed.



(** X8. Whatever the text generator answers (nothing, an empty text, a text
    without the import, or a usable script), and whatever the source and the
    error message are, the script that [_generate_ai_fixed_script] returns
    contains [import FreeCAD]. *)
Theorem fixed_script_imports_freecad ai code info msg :
  PyStr.contains "import FreeCAD" (_generate_ai_fixed_script ai code info msg) = true.
Proof.
  destruct (generated_script_cases ai code info msg) as [(fixed & _ & Hin & ->)| ->].
  - exact Hin.
  - apply contains_startswith, replacement_starts_with_import.
Qed.

(** X9. [auto_fix_failed_script] with an error message, on a store that
    answers, is all or nothing.  It answers [False] exactly when the version
    has no stored script, and then the world is unchanged.  When it answers
    [True], the script object of the version holds a text containing
    [import FreeCAD], stored as [text/plain] with the error message in its
    metadata; an audit record is stored under [logs/]; the error record of
    the version is left as it was; and every key outside the version and other
    than the audit record is as before. *)
Theorem auto_fix_all_or_nothing self ai now p v msg log w :
  s3_client self = true -> outages w = [] ->
  exists b w',
    auto_fix_failed_script self ai now p v (Some msg) log w = (Return b, w')
    /\ (b = false <-> objects w !! script_key p v = None)
    /\ (b = false -> w' = w)
    /\ (b = true ->
          (exists fixed md,
             objects w' !! script_key p v = Some (mk_object (Text fixed) "text/plain" md)
             /\ PyStr.contains "import FreeCAD" fixed = true
             /\ md !! "original_error" = Some msg)
          /\ is_Some (objects w' !! fix_log_key now p v)
          /\ objects w' !! error_key p v = objects w !! error_key p v
          /\ (forall k, ~ of_version p v k -> k <> fix_log_key now p v ->
                objects w' !! k = objects w !! k)).
Proof.
  intros Hc Ho. destruct w as [m o db]. simpl in Ho. subst o.
  destruct (auto_fix_healthy self ai now p v msg log m db Hc)
    as (b & m' & Hrun & Hiff & Hno & Hyes).
  exists b, (mk_world m' [] db). split; [exact Hrun|]. split; [exact Hiff|].
  split; [|exact Hyes]. intros Hb. by rewrite (Hno Hb).
Qed.

End RecoveryMore.

(** ** LogAnalyzer: quiet logs and the stack trace *)
Module AnalyzerMore.
Import S3 S3Service Further Spec PyStrFacts Analyzer.

Lemma contains_cons q c s : PyStr.contains q s = true -> PyStr.contains q (String c s) = true.
Proof. intros H. change (PyStr.startswith q (String c s) || PyStr.contains q s = true).
  rewrite H. apply orb_true_r. Qed.

Lemma contains_unfold q s :
  PyStr.contains q s
  = PyStr.startswith q s || match s with
                            | EmptyString => false
                            | String _ s' => PyStr.contains q s'
                            end.
Proof. by destruct s. Qed.

Lemma startswith_prefix_app p s r :
  PyStr.startswith p s = true -> PyStr.startswith p (s +:+ r) = true.
Proof.
  intros H. apply startswith_true in H as [t ->].
  rewrite append_assoc. apply startswith_app.
Qed.

Lemma contains_app_r q p r : PyStr.contains q p = true -> PyStr.contains q (p +:+ r) = true.
Proof.
  induction p as [|c p IH]; intros H.
  - rewrite contains_unfold in H. rewrite orb_false_r in H.
    rewrite contains_unfold. by rewrite (startswith_prefix_app _ _ r H).
  - rewrite contains_unfold in H. apply orb_true_iff in H as [H|H].
    + rewrite contains_unfold. by rewrite (startswith_prefix_app _ _ r H).
    + rewrite append_cons. apply contains_cons. by apply IH.
Qed.

Lemma contains_trans q p s :
  PyStr.contains q p = true -> PyStr.contains p s = true -> PyStr.contains q s = true.
Proof.
  intros Hq. induction s as [|c s IH]; intros H.
  - rewrite contains_unfold, orb_false_r in H. apply startswith_true in H as [t ->].
    by apply contains_app_r.
  - rewrite contains_unfold in H. apply orb_true_iff in H as [H|H].
    + apply startswith_true in H as [t ->]. by apply contains_app_r.
    + apply contains_cons. by apply IH.
Qed.

Lemma lacks_longer q p s :
  PyStr.contains q p = true -> PyStr.contains q s = false -> PyStr.contains p s = false.
Proof.
  intros Hq Hs. destruct (PyStr.contains p s) eqn:E; [|done].
  by rewrite (contains_trans _ _ _ Hq E) in Hs.
Qed.

Lemma classify_unremarkable line following info :
  unremarkable line = true -> classify_line line following info = info.
Proof.
  unfold unremarkable. intros H.
  apply andb_true_iff in H as [H Htb]. apply andb_true_iff in H as [H Hgui].
  apply andb_true_iff in H as [Herr Hexc].
  apply negb_true_iff in Herr, Hexc, Hgui, Htb.
  unfold classify_line. set (ll := PyStr.lower line) in *.
  rewrite (lacks_longer "error" "importerror" ll eq_refl Herr).
  rewrite (lacks_longer "error" "modulenotfounderror" ll eq_refl Herr).
  rewrite (lacks_longer "gui" "importgui" ll eq_refl Hgui).
  rewrite (lacks_longer "error" "syntaxerror" ll eq_refl Herr).
  rewrite (lacks_longer "error" "attributeerror" ll eq_refl Herr).
  rewrite (lacks_longer "error" "error:" ll eq_refl Herr).
  rewrite (lacks_longer "exception" "exception:" ll eq_refl Hexc).
  rewrite Herr, Hexc, Hgui, Htb. simpl. by rewrite andb_false_r.
Qed.

(** X10. A log none of whose lines contains, in any letter case, one of the
    words error, exception, gui or traceback is diagnosed as unknown: the
    error type is [unknown], the details and the stack trace are empty, and
    no module or message is listed.  The empty log is such a log. *)
Theorem quiet_log_is_unknown log :
  Forall (fun line => unremarkable line = true) (PyStr.split "010" log) ->
  _parse_log_content log = unknown_error.
Proof.
  unfold _parse_log_content. generalize (PyStr.split "010" log). intros lines H.
  induction H as [|line following Hline Hrest IH]; [reflexivity|].
  cbn [parse_lines]. by rewrite classify_unremarkable.
Qed.







End AnalyzerMore.

(** ** Listings: order, bounds and agreement with the other operations *)
Module ListingMore.
Import S3 S3Service S3Listing Further Spec PyStrFacts StoreFacts Recovery ListingFacts.

Section Sorting.
Context {K A : Type} (lt : K -> K -> bool).
Hypothesis asym : forall a b, lt a b = true -> lt b a = false.

Lemma insert_desc_descending k (x : A) l :
  descending lt l.*1 -> descending lt (insert_desc lt k x l).*1.
Proof.
  induction l as [|[u y] rest IH]; intros H; [done|].
  cbn [insert_desc]. destruct (lt k u) eqn:E.
  - destruct rest as [|[u' y'] rest'].
    + simpl. split; [by apply asym|done].
    + destruct H as [H1 H2]. specialize (IH H2). revert IH. cbn [insert_desc].
      destruct (lt k u') eqn:E'; intros IH.
      * split; [exact H1|exact IH].
      * split; [by apply asym|exact IH].
  - split; [exact E|exact H].
Qed.

Lemma insert_desc_elem_pair k (x : A) l kx :
  kx ∈ insert_desc lt k x l -> kx = (k, x) \/ kx ∈ l.
Proof.
  induction l as [|[u y] rest IH]; cbn [insert_desc].
  - intros H. apply list_elem_of_singleton in H. auto.
  - destruct (lt k u).
    + intros H. apply elem_of_cons in H as [->|H].
      * right. apply list_elem_of_here.
      * destruct (IH H) as [->|Hin]; [by left|]. right. by apply list_elem_of_further.
    + intros H. apply elem_of_cons in H as [->|H]; auto.
Qed.

Lemma insert_desc_length k (x : A) l : length (insert_desc lt k x l) = S (length l).
Proof.
  induction l as [|[u y] rest IH]; [done|]. cbn [insert_desc].
  destruct (lt k u); simpl; by rewrite ?IH.
Qed.

Lemma sort_desc_length (keyed : list (K * A)) : length (sort_desc lt keyed) = length keyed.
Proof.
  unfold sort_desc. rewrite length_fmap.
  induction keyed as [|[k x] rest IH]; [done|]. simpl. by rewrite insert_desc_length, IH.
Qed.

Lemma sort_desc_descending (f : A -> K) (keyed : list (K * A)) :
  (forall kx, kx ∈ keyed -> kx.1 = f kx.2) ->
  descending lt (map f (sort_desc lt keyed)).
Proof.
  intros Hkey. unfold sort_desc.
  set (sorted := foldr (fun kx acc => insert_desc lt kx.1 kx.2 acc) [] keyed).
  assert (Hs : descending lt sorted.*1 /\ forall kx, kx ∈ sorted -> kx ∈ keyed).
  { subst sorted. clear Hkey. induction keyed as [|[k x] rest [IH1 IH2]]; [split; [done|]|].
    - intros kx H. by apply not_elem_of_nil in H.
    - simpl. split; [by apply insert_desc_descending|].
      intros kx H. apply insert_desc_elem_pair in H as [->|H].
      + apply list_elem_of_here.
      + apply list_elem_of_further. by apply IH2. }
  destruct Hs as [Hd Hin].
  assert (E : map f sorted.*2 = sorted.*1).
  { clear Hd. induction sorted as [|[k x] rest IH]; [done|]. simpl. f_equal.
    - symmetry. apply (Hkey (k, x)), Hin, list_elem_of_here.
    - apply IH. intros kx H. by apply Hin, list_elem_of_further. }
  by rewrite E.
Qed.

Lemma descending_take n (l : list K) : descending lt l -> descending lt (take n l).
Proof.
  revert l. induction n as [|n IH]; intros l H; [done|].
  destruct l as [|a [|b rest]]; [done|by destruct n|].
  destruct H as [H1 H2]. specialize (IH _ H2).
  destruct n as [|n]; [done|]. simpl in *. split; [done|exact IH].
Qed.

End Sorting.

Lemma string_ltb_asym a b : String.ltb a b = true -> String.ltb b a = false.
Proof.
  unfold String.ltb. rewrite (String.compare_antisym b a).
  by destruct (String.compare a b).
Qed.

Lemma nat_ltb_asym a b : Nat.ltb a b = true -> Nat.ltb b a = false.
Proof. intros H. apply Nat.ltb_lt in H. apply Nat.ltb_ge. lia. Qed.

Lemma descending_nat_lookup (l : list nat) i j a b :
  descending Nat.ltb l -> l !! i = Some a -> l !! j = Some b -> i < j -> b <= a.
Proof.
  revert i j a. induction l as [|x rest IH]; intros i j a Hd Hi Hj Hlt; [done|].
  destruct j as [|j]; [lia|]. simpl in Hj.
  assert (Hrest : descending Nat.ltb rest) by (destruct rest; [done|apply Hd]).
  destruct i as [|i].
  - simpl in Hi. injection Hi as <-. clear Hlt.
    revert x b rest Hd Hj Hrest IH. induction j as [|j IHj]; intros x b rest Hd Hj Hrest IH.
    + destruct rest as [|y rest]; [done|]. simpl in Hj. injection Hj as <-.
      destruct Hd as [Hd _]. apply Nat.ltb_ge in Hd. lia.
    + destruct rest as [|y rest]; [done|]. simpl in Hj.
      destruct Hd as [Hxy Hd]. apply Nat.ltb_ge in Hxy.
      assert (b <= y); [|lia].
      apply (IH 0 (S j) y); [done|done|done|lia].
  - simpl in Hi. apply (IH i j a); [done..|lia].
Qed.

(** X12. [get_project_logs], whatever the store does, never raises and
    leaves the bucket as it was.  The list it returns has at most [limit]
    entries, with no timestamp smaller than the one after it; every entry is
    an object stored under [logs/p/] whose file name matches the log pattern
    with the entry's timestamp. *)
Theorem project_logs_are_recent_first self p limit w :
  exists l w', get_project_logs self p limit w = (Return l, w')
    /\ objects w' = objects w
    /\ length l <= limit
    /\ descending String.ltb (map timestamp l)
    /\ forall e, e ∈ l ->
         is_Some (objects w !! log_key e)
         /\ PyStr.startswith ("logs/" +:+ p +:+ "/") (log_key e) = true
         /\ log_filename e = PyStr.last_part (PyStr.split "/" (log_key e))
         /\ log_pattern_search p (log_filename e) = Some (timestamp e).
Proof.
  destruct w as [m o db]. unfold get_project_logs.
  destruct (not_configured self).
  { eexists _, _. split; [reflexivity|]. simpl. repeat split; try done; try lia.
    all: intros; by apply not_elem_of_nil in H. }
  unfold try_any, try_except, bind, list_objects_v2, client_call, ret.
  cbn [objects outages db_updates].
  assert (Hempty : forall w0 : world,
             objects w0 = m ->
             exists (l : list log_file_info) w', (Return ([] : list log_file_info), w0) = (Return l, w')
               /\ objects w' = m /\ length l <= limit
               /\ descending String.ltb (map timestamp l)
               /\ forall e, e ∈ l ->
                    is_Some (m !! log_key e)
                    /\ PyStr.startswith ("logs/" +:+ p +:+ "/") (log_key e) = true
                    /\ log_filename e = PyStr.last_part (PyStr.split "/" (log_key e))
                    /\ log_pattern_search p (log_filename e) = Some (timestamp e)).
  { intros w0 Hw0. eexists _, _. split; [reflexivity|]. simpl. repeat split; try done; try lia.
    all: intros; by apply not_elem_of_nil in H. }
  assert (Hlisted : forall w0 : world,
             objects w0 = m ->
             exists l w',
               (Return (take limit (sort_desc String.ltb
                  (omap (fun kv => log_entry p kv.1)
                        (first_page ("logs/" +:+ p +:+ "/") m)))), w0) = (Return l, w')
               /\ objects w' = m /\ length l <= limit
               /\ descending String.ltb (map timestamp l)
               /\ forall e, e ∈ l ->
                    is_Some (m !! log_key e)
                    /\ PyStr.startswith ("logs/" +:+ p +:+ "/") (log_key e) = true
                    /\ log_filename e = PyStr.last_part (PyStr.split "/" (log_key e))
                    /\ log_pattern_search p (log_filename e) = Some (timestamp e)).
  { intros w0 Hw0. eexists _, _. split; [reflexivity|]. split; [done|].
    split; [rewrite length_take; lia|]. split.
    - rewrite <- List.firstn_map. apply descending_take.
      apply (sort_desc_descending String.ltb string_ltb_asym).
      intros [k e] Hin. apply list_elem_of_omap in Hin as ([key ob] & _ & He).
      unfold log_entry in He. simpl in He.
      destruct (log_pattern_search p _); by inversion He.
    - intros e He. apply (subseteq_take limit) in He.
      apply sort_desc_elem in He. apply list_elem_of_fmap in He as ([k e'] & -> & Hin).
      apply list_elem_of_omap in Hin as ([key ob] & Hkey & He).
      apply elem_of_first_page in Hkey as [Hm Hp].
      unfold log_entry in He. simpl in He.
      destruct (log_pattern_search p _) eqn:Hs; inversion He; subst. simpl.
      repeat split; by eauto. }
  destruct o as [|[] o]; cbn [objects outages db_updates].
  - destruct (first_page ("logs/" +:+ p +:+ "/") m) as [|kv rest] eqn:E.
    + by apply Hempty.
    + by apply Hlisted.
  - by apply Hempty.
  - destruct (first_page ("logs/" +:+ p +:+ "/") m) as [|kv rest] eqn:E.
    + by apply Hempty.
    + by apply Hlisted.
Qed.


Lemma sort_by_version_newest_first l w0 l' w' :
  sort_by_version l w0 = (Return l', w') ->
  w' = w0
  /\ forall i j fi fj, l' !! i = Some fi -> l' !! j = Some fj -> i < j ->
       exists vi vj, file_version fi = Some vi /\ file_version fj = Some vj /\ vj <= vi.
Proof.
  unfold sort_by_version.
  destruct l as [|a [|b rest]].
  - intros [= <- <-]. split; [done|]. intros i j fi fj Hi. done.
  - intros [= <- <-]. split; [done|]. intros [|i] [|j] fi fj Hi Hj Hlt; (done || lia).
  - set (l := a :: b :: rest).
    destruct (mapM (fun x => v ← file_version x; Some (v, x)) l) as [keyed|] eqn:E;
      [|discriminate].
    intros [= <- <-]. split; [done|].
    apply mapM_Some in E.
    assert (Hkey : forall kx, kx ∈ keyed -> file_version kx.2 = Some kx.1).
    { intros kx Hin. apply list_elem_of_lookup in Hin as [n Hn].
      destruct (Forall2_lookup_r _ _ _ _ _ E Hn) as (x & _ & Hx).
      destruct (file_version x) as [vx|] eqn:Hv; [|discriminate].
      simpl in Hx. injection Hx as <-. done. }
    set (f := fun x => default 0 (file_version x)).
    assert (Hd : descending Nat.ltb (map f (sort_desc Nat.ltb keyed))).
    { apply (sort_desc_descending Nat.ltb nat_ltb_asym).
      intros kx Hin. unfold f. by rewrite (Hkey kx Hin). }
    assert (Hv : forall x, x ∈ sort_desc Nat.ltb keyed -> file_version x = Some (f x)).
    { intros x Hx. apply sort_desc_elem in Hx.
      apply list_elem_of_fmap in Hx as (kx & -> & Hin). unfold f. by rewrite (Hkey kx Hin). }
    intros i j fi fj Hi Hj Hlt. exists (f fi), (f fj).
    split; [apply Hv; by eapply list_elem_of_lookup_2|].
    split; [apply Hv; by eapply list_elem_of_lookup_2|].
    apply (descending_nat_lookup _ i j _ _ Hd); [| |done].
    + change (map f ?l) with (f <$> l). by rewrite list_lookup_fmap, Hi.
    + change (map f ?l) with (f <$> l). by rewrite list_lookup_fmap, Hj.
Qed.

(** X13. [check_output_files] asked for no version (or for version 0, which
    counts as none), whatever the store does: it never raises and leaves the
    bucket as it was; and of any two entries of the list it returns, both
    carry a version and the earlier entry's version is not the smaller one:
    the newest version comes first. *)
Theorem all_versions_are_listed_newest_first self p v w :
  version_given v = None ->
  exists l w', check_output_files self p v w = (Return l, w')
    /\ objects w' = objects w
    /\ forall i j fi fj, l !! i = Some fi -> l !! j = Some fj -> i < j ->
         exists vi vj, file_version fi = Some vi /\ file_version fj = Some vj /\ vj <= vi.
Proof.
  intros Hv. destruct w as [m o db]. unfold check_output_files. rewrite Hv.
  assert (Hnone : forall w0 : world, objects w0 = m ->
            exists (l : list output_file) w', (Return ([] : list output_file), w0) = (Return l, w')
              /\ objects w' = m
              /\ forall i j fi fj, l !! i = Some fi -> l !! j = Some fj -> i < j ->
                   exists vi vj, file_version fi = Some vi /\ file_version fj = Some vj
                                 /\ vj <= vi).
  { intros w0 Hw0. eexists _, _. split; [reflexivity|]. split; [done|].
    intros i j fi fj Hi. done. }
  destruct (not_configured self); [by apply Hnone|].
  assert (Hsort : forall files (w0 : world), objects w0 = m ->
            exists l w',
              (let '(r, w1) := sort_by_version files w0 in
               match r with
               | Return a => (Return a, w1)
               | Raise (ClientError _ _ _) => (Return [], w1)
               | Raise (Exception _) => (Return [], w1)
               end) = (Return l, w')
              /\ objects w' = m
              /\ forall i j fi fj, l !! i = Some fi -> l !! j = Some fj -> i < j ->
                   exists vi vj, file_version fi = Some vi /\ file_version fj = Some vj
                                 /\ vj <= vi).
  { intros files w0 Hw0. destruct (sort_by_version files w0) as [r w1] eqn:E.
    assert (w1 = w0) as ->.
    { revert E. unfold sort_by_version. destruct files as [|a [|b rest]]; try by intros [= <- <-].
      destruct (mapM _ _); by intros [= <- <-]. }
    destruct r as [l'|[c op text|e]]; [|by apply Hnone..].
    apply sort_by_version_newest_first in E as [_ E]. by eexists _, _. }
  unfold try_any, try_except, bind, list_objects_v2, client_call, ret.
  cbn [objects outages db_updates].
  destruct o as [|[] o]; cbn [objects outages db_updates].
  - destruct (first_page ("output/" +:+ p +:+ "/") m) as [|kv rest] eqn:E.
    + by apply Hnone.
    + by apply Hsort.
  - by apply Hnone.
  - destruct (first_page ("output/" +:+ p +:+ "/") m) as [|kv rest] eqn:E.
    + by apply Hnone.
    + by apply Hsort.
Qed.


Lemma insert_desc_perm {K A} (lt : K -> K -> bool) k (x : A) l :
  insert_desc lt k x l ≡ₚ (k, x) :: l.
Proof.
  induction l as [|[u y] rest IH]; [done|]. cbn [insert_desc].
  destruct (lt k u); [|done]. rewrite IH. apply Permutation_swap.
Qed.

Lemma sort_desc_perm {K A} (lt : K -> K -> bool) (keyed : list (K * A)) :
  sort_desc lt keyed ≡ₚ keyed.*2.
Proof.
  unfold sort_desc. induction keyed as [|[k x] rest IH]; [done|].
  simpl. rewrite insert_desc_perm. simpl. by rewrite IH.
Qed.

(** The scripts that the loop of [list_project_scripts] collects from a
    listing that a store that answers has just given. *)
Lemma collect_scripts_healthy p (m : gmap string s3_object) db contents :
  (forall kv, kv ∈ contents -> m !! kv.1 = Some kv.2) ->
  collect_scripts p contents (mk_world m [] db)
  = (Return (omap (fun kv => v ← version_pattern_search p kv.1;
                             Some (mk_script_info v kv.1 (Metadata kv.2))) contents),
     mk_world m [] db).
Proof.
  induction contents as [|[k o] rest IH]; intros Hin; [reflexivity|].
  assert (Hk : m !! k = Some o) by (apply (Hin (k, o)), list_elem_of_here).
  assert (Hrest : forall kv, kv ∈ rest -> m !! kv.1 = Some kv.2)
    by (intros kv H; by apply Hin, list_elem_of_further).
  specialize (IH Hrest). cbn [collect_scripts omap list_omap fst snd].
  destruct (version_pattern_search p k) as [n|]; cbn [mbind option_bind]; [|exact IH].
  unfold bind, try_any, try_except, head_object, client_call, ret in *.
  cbn [objects outages db_updates]. rewrite Hk. cbn [objects outages db_updates].
  rewrite IH. reflexivity.
Qed.

Lemma collected_versions p (contents : list (string * s3_object)) :
  map script_version
      (omap (fun kv => v ← version_pattern_search p kv.1;
                       Some (mk_script_info v kv.1 (Metadata kv.2))) contents)
  = listed_versions p contents.
Proof.
  unfold listed_versions. induction contents as [|[k ob] rest IH]; [done|].
  simpl. destruct (version_pattern_search p k); simpl; [f_equal|]; exact IH.
Qed.

Lemma list_project_scripts_healthy self p m db :
  not_configured self = false ->
  list_project_scripts self p (mk_world m [] db)
  = (Return (sort_desc Nat.ltb
               (map (fun s => (script_version s, s))
                    (omap (fun kv => v ← version_pattern_search p kv.1;
                                     Some (mk_script_info v kv.1 (Metadata kv.2)))
                          (first_page (input_prefix p) m)))),
     mk_world m [] db).
Proof.
  intros Hc. unfold list_project_scripts. rewrite Hc.
  assert (Hcollect : forall kv, kv ∈ first_page (input_prefix p) m -> m !! kv.1 = Some kv.2).
  { intros [k ob] Hin. by apply elem_of_first_page in Hin as [Hk _]. }
  apply (collect_scripts_healthy p m db) in Hcollect.
  unfold try_any, try_except, bind at 1, list_objects_v2, client_call.
  cbn [objects outages db_updates].
  destruct (first_page (input_prefix p) m) as [|kv rest]; [reflexivity|].
  unfold bind. rewrite Hcollect. reflexivity.
Qed.

Lemma scripts_and_next_version self p (m : gmap string s3_object) db :
  not_configured self = false ->
  length (list_prefix (input_prefix p) m) <= page_size ->
  let w := mk_world m [] db in
  exists l n,
    list_project_scripts self p w = (Return l, w)
    /\ get_next_version self p w = (Return n, w)
    /\ (forall k, k ∈ map script_version l <-> has_version p w k)
    /\ (forall s, s ∈ l ->
          version_pattern_search p (script_path s) = Some (script_version s)
          /\ PyStr.startswith (input_prefix p) (script_path s) = true
          /\ exists o, m !! script_path s = Some o /\ Metadata o = script_metadata s)
    /\ (forall i j a b, l !! i = Some a -> l !! j = Some b -> i < j ->
          script_version b <= script_version a)
    /\ match l with
       | [] => n = 1
       | s :: _ => n = script_version s + 1
       end.
Proof.
  intros Hc Hpage w. subst w.
  rewrite (get_next_version_healthy self p m db Hc).
  rewrite (list_project_scripts_healthy self p m db Hc).
  rewrite (first_page_full _ _ Hpage).
  set (contents := list_prefix (input_prefix p) m).
  set (scripts := omap (fun kv => v ← version_pattern_search p kv.1;
                                  Some (mk_script_info v kv.1 (Metadata kv.2))) contents).
  set (l := sort_desc Nat.ltb (map (fun s => (script_version s, s)) scripts)).
  assert (Hversions : map script_version scripts = listed_versions p contents).
  { apply collected_versions. }
  assert (Hperm : l ≡ₚ scripts).
  { unfold l. rewrite sort_desc_perm.
    change (map ?f ?x) with (f <$> x). rewrite <- list_fmap_compose.
    by rewrite list_fmap_id. }
  exists l. eexists. split; [reflexivity|]. split; [reflexivity|].
  assert (Hdesc : descending Nat.ltb (map script_version l)).
  { apply (sort_desc_descending Nat.ltb nat_ltb_asym).
    intros kx Hin. apply list_elem_of_fmap in Hin as (s & -> & _). done. }
  assert (Hmem : forall k, k ∈ map script_version l <-> has_version p (mk_world m [] db) k).
  { intros k. rewrite <- (elem_of_listed_versions p m db k). fold contents.
    rewrite <- Hversions. change (map ?f ?x) with (f <$> x). by rewrite Hperm. }
  split; [exact Hmem|]. split; [|split].
  - intros s Hs. rewrite Hperm in Hs. apply list_elem_of_omap in Hs as ([k ob] & Hin & Hs).
    apply elem_of_list_prefix in Hin as [Hk Hp]. simpl in Hs.
    destruct (version_pattern_search p k) as [n|] eqn:E; [|discriminate].
    simpl in Hs. injection Hs as <-. simpl. split; [done|]. split; [done|]. by exists ob.
  - intros i j a b Hi Hj Hlt.
    apply (descending_nat_lookup _ i j _ _ Hdesc); [| |done];
      change (map ?f ?x) with (f <$> x); rewrite list_lookup_fmap; by (rewrite Hi || rewrite Hj).
  - fold contents. rewrite <- Hversions.
    assert (Hvs : map script_version scripts ≡ₚ map script_version l)
      by (change (map ?f ?x) with (f <$> x); by rewrite Hperm).
    destruct l as [|s rest] eqn:El.
    + apply Permutation_nil_r in Hvs. by rewrite Hvs.
    + destruct (map script_version scripts) as [|v0 vs] eqn:Ev.
      { by apply Permutation_nil_cons in Hvs. }
      assert (Hin : max_list (v0 :: vs) ∈ map script_version (s :: rest)).
      { rewrite <- Hvs. by apply max_list_elem_of. }
      assert (Hle : script_version s <= max_list (v0 :: vs)).
      { apply max_list_elem_of_le. rewrite Hvs. apply list_elem_of_here. }
      change (max_list (v0 :: vs) + 1 = script_version s + 1).
      generalize dependent (max_list (v0 :: vs)). intros mx Hin Hle.
      apply list_elem_of_lookup in Hin as [i Hi]. destruct i as [|i].
      * simpl in Hi. injection Hi as <-. done.
      * assert (mx <= script_version s); [|lia].
        apply (descending_nat_lookup _ 0 (S i) _ _ Hdesc); [done|done|lia].
Qed.

(** X14. On a store that answers and whose listing of [input/p/] fits one
    page of 1000 keys, [list_project_scripts] and [get_next_version] agree.
    The listing holds exactly the versions stored under [input/p/], each with
    the key and the metadata of its object, the largest version first; the
    version that [get_next_version] gives is 1 when the listing is empty and
    one above the version of the first entry otherwise.  Neither call changes
    the world. *)
Theorem newest_script_is_one_below_next_version self p w :
  not_configured self = false -> outages w = [] ->
  one_page (input_prefix p) w ->
  exists l n,
    list_project_scripts self p w = (Return l, w)
    /\ get_next_version self p w = (Return n, w)
    /\ (forall k, k ∈ map script_version l <-> has_version p w k)
    /\ (forall s, s ∈ l ->
          version_pattern_search p (script_path s) = Some (script_version s)
          /\ PyStr.startswith (input_prefix p) (script_path s) = true
          /\ exists o, objects w !! script_path s = Some o
                       /\ Metadata o = script_metadata s)
    /\ (forall i j a b, l !! i = Some a -> l !! j = Some b -> i < j ->
          script_version b <= script_version a)
    /\ match l with
       | [] => n = 1
       | s :: _ => n = script_version s + 1
       end.
Proof.
  intros Hc Ho Hpage. destruct w as [m o db]. simpl in Ho. subst o.
  exact (scripts_and_next_version self p m db Hc Hpage).
Qed.

End ListingMore.

(** ** Failure records and version metadata read back *)
Module ReadBack.
Import S3 S3Service S3Listing Further Spec PyStrFacts StoreFacts Recovery RecoveryMore.

Local Open Scope Z_scope.

Lemma endswith_app s a : PyStr.endswith s (a +:+ s) = true.
Proof. unfold PyStr.endswith. rewrite rev_app. apply startswith_app. Qed.

Lemma error_key_is_error_file p v : PyStr.endswith "_error.json" (error_key p v) = true.
Proof.
  unfold error_key.
  rewrite <- !append_assoc. apply endswith_app.
Qed.

Lemma error_key_in_scope p v scope :
  scope = None \/ scope = Some p ->
  PyStr.startswith (errors_prefix scope) (error_key p v) = true.
Proof.
  intros [->| ->]; [reflexivity|]. unfold errors_prefix.
  destruct (String.eqb p ""); [reflexivity|].
  unfold error_key.
  rewrite <- (append_assoc p "/"). rewrite <- (append_assoc "errors/" (p +:+ "/")).
  apply startswith_app.
Qed.

Lemma collect_failed_healthy (m : gmap string s3_object) db contents :
  (forall kv, kv ∈ contents -> m !! kv.1 = Some kv.2) ->
  collect_failed contents (mk_world m [] db)
  = (Return (omap listed_failure contents), mk_world m [] db).
Proof.
  induction contents as [|[k o] rest IH]; intros Hin; [reflexivity|].
  assert (Hk : m !! k = Some o) by (apply (Hin (k, o)), list_elem_of_here).
  assert (Hrest : forall kv, kv ∈ rest -> m !! kv.1 = Some kv.2)
    by (intros kv H; by apply Hin, list_elem_of_further).
  specialize (IH Hrest). cbn [collect_failed omap list_omap fst snd].
  unfold listed_failure at 1. cbn [fst snd].
  destruct (PyStr.endswith "_error.json" k); [|exact IH].
  unfold read_failed, bind, try_any, try_except, get_object, json_loads, client_call,
    ret, raise in *.
  cbn [objects outages db_updates]. rewrite Hk. cbn [objects outages db_updates].
  destruct o as [[s|d] ct md]; cbn [Body].
  - rewrite IH. reflexivity.
  - destruct (as_int (default (JInt 0) (d !! "retry_count"))) as [c|]; rewrite IH; reflexivity.
Qed.

Lemma get_failed_scripts_healthy self scope m db :
  s3_client self = true ->
  get_failed_scripts self scope (mk_world m [] db)
  = (Return (omap listed_failure (first_page (errors_prefix scope) m)), mk_world m [] db).
Proof.
  intros Hc. unfold get_failed_scripts. rewrite Hc.
  assert (Hcollect : forall kv, kv ∈ first_page (errors_prefix scope) m ->
                                m !! kv.1 = Some kv.2).
  { intros [k ob] Hin. by apply elem_of_first_page in Hin as [Hk _]. }
  apply (collect_failed_healthy m db) in Hcollect.
  unfold try_any, try_except, bind, list_objects_v2, client_call. cbn [negb].
  cbn [objects outages db_updates]. rewrite Hcollect. reflexivity.
Qed.

Lemma failed_listing_lemma self now p v (m : gmap string s3_object) db d ct md c scope :
  s3_client self = true ->
  m !! error_key p v = Some (mk_object (Json d) ct md) ->
  as_int (default (JInt 0) (d !! "retry_count")) = Some c ->
  scope = None \/ scope = Some p ->
  (length (list_prefix (errors_prefix scope) m) <= page_size)%nat ->
  let w := mk_world m [] db in
  exists l r w',
    get_failed_scripts self scope w = (Return l, w)
    /\ (exists e, e ∈ l
          /\ e !! "error_file" = Some (JStr (error_key p v))
          /\ e !! "retry_count" = Some (default (JInt 0) (d !! "retry_count"))
          /\ e !! "can_retry" = Some (JBool (c <? 3)))
    /\ (forall e, e ∈ l ->
          exists k o, m !! k = Some o
                      /\ PyStr.endswith "_error.json" k = true
                      /\ e !! "error_file" = Some (JStr k))
    /\ retry_failed_script self now p v w = (Return r, w')
    /\ answer_ok r = (c <? 3).
Proof.
  intros Hc Hrec Hcount Hscope Hpage w. subst w.
  rewrite (get_failed_scripts_healthy self scope m db Hc).
  rewrite (first_page_full _ _ Hpage).
  assert (Hretry : exists r w', retry_failed_script self now p v (mk_world m [] db) = (Return r, w')
                                /\ answer_ok r = (c <? 3)).
  { unfold retry_failed_script. rewrite Hc. run_py. rewrite Hrec. simpl. rewrite Hcount. simpl.
    destruct (3 <=? c) eqn:E; simpl.
    - eexists _, _. split; [reflexivity|]. apply Z.leb_le in E.
      symmetry. apply Z.ltb_ge. lia.
    - eexists _, _. split; [reflexivity|]. apply Z.leb_gt in E.
      symmetry. apply Z.ltb_lt. lia. }
  destruct Hretry as (r & w' & Hretry & Hok).
  eexists _, r, w'. split; [reflexivity|]. split; [|split; [|split]]; [| |done..].
  - exists (failed_entry (error_key p v) d (c <? 3)). split; [|by unfold failed_entry].
    apply list_elem_of_omap. exists (error_key p v, mk_object (Json d) ct md). split.
    + apply elem_of_list_prefix. split; [done|]. by apply error_key_in_scope.
    + unfold listed_failure. simpl. rewrite error_key_is_error_file. by rewrite Hcount.
  - intros e He. apply list_elem_of_omap in He as ([k ob] & Hin & He).
    apply elem_of_list_prefix in Hin as [Hk _]. exists k, ob. split; [done|].
    unfold listed_failure in He. simpl in He.
    destruct (PyStr.endswith "_error.json" k); [|discriminate]. split; [done|].
    destruct (Body ob) as [s|d']; [discriminate|].
    destruct (as_int (default (JInt 0) (d' !! "retry_count"))); [|discriminate].
    assert (e = failed_entry k d' (z <? 3)) as -> by congruence.
    unfold failed_entry. apply lookup_insert_eq.
Qed.

(** X15. The list of failures agrees with what a retry then does.  On a
    store that answers and whose listing of the error records asked for (of
    the project, or of all projects) fits one page of 1000 keys, for a stored
    error record of a version whose [retry_count] is the number [c] (0 when
    the record has none): the list that [get_failed_scripts] returns holds
    the entry of that record, with [can_retry] true exactly when [c < 3]; and
    [retry_failed_script] for the version succeeds exactly when [c < 3].
    Listing changes nothing, and every entry of the list comes from a stored
    object whose key ends in [_error.json]. *)
Theorem failed_listing_agrees_with_retry self now p v w d ct md c scope :
  s3_client self = true -> outages w = [] ->
  objects w !! error_key p v = Some (mk_object (Json d) ct md) ->
  as_int (default (JInt 0) (d !! "retry_count")) = Some c ->
  scope = None \/ scope = Some p ->
  one_page (errors_prefix scope) w ->
  exists l r w',
    get_failed_scripts self scope w = (Return l, w)
    /\ (exists e, e ∈ l
          /\ e !! "error_file" = Some (JStr (error_key p v))
          /\ e !! "retry_count" = Some (default (JInt 0) (d !! "retry_count"))
          /\ e !! "can_retry" = Some (JBool (c <? 3)))
    /\ (forall e, e ∈ l ->
          exists k o, objects w !! k = Some o
                      /\ PyStr.endswith "_error.json" k = true
                      /\ e !! "error_file" = Some (JStr k))
    /\ retry_failed_script self now p v w = (Return r, w')
    /\ answer_ok r = (c <? 3).
Proof.
  intros Hc Ho Hrec Hcount Hscope Hpage. destruct w as [m o db]. simpl in Ho, Hrec. subst o.
  exact (failed_listing_lemma self now p v m db d ct md c scope Hc Hrec Hcount Hscope Hpage).
Qed.

Lemma metadata_neq_processed p v : metadata_key p v <> processed_key p v.
Proof. unfold metadata_key, processed_key. discriminate. Qed.

Lemma script_neq_metadata p v : script_key p v <> metadata_key p v.
Proof. unfold metadata_key, script_key. discriminate. Qed.

Lemma get_version_metadata_healthy self p v (m : gmap string s3_object) db :
  not_configured self = false ->
  get_version_metadata self p v (mk_world m [] db)
  = (Return (match m !! metadata_key p v with
             | Some o => match Body o with
                         | Json d => Some d
                         | Text _ => None
                         end
             | None => None
             end), mk_world m [] db).
Proof.
  intros Hc. unfold get_version_metadata. rewrite Hc. run_py.
  destruct (m !! metadata_key p v) as [[[s|d] ct md]|]; reflexivity.
Qed.

Lemma mark_processed_healthy self now p v files pt worker log (m : gmap string s3_object) db :
  not_configured self = false ->
  exists m',
    mark_script_processed self now p v files pt worker log (mk_world m [] db)
    = (Return true, mk_world m' [] db)
    /\ is_Some (m' !! processed_key p v)
    /\ (forall k, k <> processed_key p v -> k <> metadata_key p v -> m' !! k = m !! k)
    /\ (files = [] -> m' !! metadata_key p v = m !! metadata_key p v)
    /\ (files <> [] ->
        exists md, m' !! metadata_key p v = Some (mk_object (Json md) "application/json" ∅)
          /\ md !! "output_files" = Some (JList files)
          /\ md !! "input_version" = Some (JInt (Z.of_nat v))
          /\ md !! "worker_id" = Some (JStr (or_default worker "unknown"))
          /\ md !! "script_hash" = Some (recorded_hash p v m)).
Proof.
  intros Hc. pose proof (metadata_neq_processed p v) as Hmp.
  unfold mark_script_processed, recorded_hash. rewrite Hc.
  destruct files as [|f files].
  - run_py. eexists. split; [reflexivity|].
    split; [rewrite lookup_insert_eq; by eexists|].
    split; [intros k Hk _; by rewrite lookup_insert_ne|].
    split; [intros _; by rewrite lookup_insert_ne|done].
  - unfold create_version_metadata, get_script_content. rewrite Hc. run_py.
    destruct (m !! script_key p v) as [ob|] eqn:E; simpl.
    + eexists. split; [reflexivity|].
      split; [rewrite lookup_insert_eq; by eexists|].
      split; [intros k Hk Hk'; by rewrite !lookup_insert_ne|].
      split; [done|]. intros _.
      rewrite lookup_insert_ne by done. rewrite lookup_insert_eq.
      eexists. split; [reflexivity|].
      repeat split;
        by repeat (rewrite lookup_insert_ne by done; try rewrite lookup_insert_eq).
    + eexists. split; [reflexivity|].
      split; [rewrite lookup_insert_eq; by eexists|].
      split; [intros k Hk Hk'; by rewrite !lookup_insert_ne|].
      split; [done|]. intros _.
      rewrite lookup_insert_ne by done. rewrite lookup_insert_eq.
      eexists. split; [reflexivity|].
      repeat split;
        by repeat (rewrite lookup_insert_ne by done; try rewrite lookup_insert_eq).
Qed.

(** X16. Marking a version processed and reading its metadata back, on a
    configured store that answers.  [mark_script_processed] answers [True]
    and stores the marker.  With a non-empty list of output files, it also
    stores [metadata.json], and [get_version_metadata] then returns a
    dictionary whose [output_files] is that list, whose [input_version] is
    the version, whose [worker_id] is the given worker (or [unknown]) and
    whose [script_hash] is the hash of the stored script, [None] when there
    is no script or it is empty.  With an empty list, the metadata object is
    left as it was.  No other key than the marker and [metadata.json]
    changes. *)
Theorem processed_metadata_reads_back self now p v files pt worker log w :
  not_configured self = false -> outages w = [] ->
  exists w',
    mark_script_processed self now p v files pt worker log w = (Return true, w')
    /\ is_Some (objects w' !! processed_key p v)
    /\ (forall k, k <> processed_key p v -> k <> metadata_key p v ->
          objects w' !! k = objects w !! k)
    /\ (files = [] -> objects w' !! metadata_key p v = objects w !! metadata_key p v)
    /\ (files <> [] ->
        exists md,
          get_version_metadata self p v w' = (Return (Some md), w')
          /\ md !! "output_files" = Some (JList files)
          /\ md !! "input_version" = Some (JInt (Z.of_nat v))
          /\ md !! "worker_id" = Some (JStr (or_default worker "unknown"))
          /\ md !! "script_hash" = Some (recorded_hash p v (objects w))).
Proof.
  intros Hc Ho. destruct w as [m o db]. simpl in Ho. subst o.
  destruct (mark_processed_healthy self now p v files pt worker log m db Hc)
    as (m' & Hrun & Hmarker & Hframe & Hnone & Hsome).
  eexists. split; [exact Hrun|]. simpl. split; [done|]. split; [done|]. split; [done|].
  intros Hfiles. destruct (Hsome Hfiles) as (md & Hmd & Hfields).
  exists md. split; [|exact Hfields].
  rewrite (get_version_metadata_healthy self p v m' db Hc), Hmd. reflexivity.
Qed.

End ReadBack.

(** ** ProcessingMonitor: every run of the task *)
Module MonitorMore.
Import S3 S3Service Monitor Spec MonitorFacts.

(** Artifacts first found by the twentieth cycle. *)
Lemma poll_completes_last self env p v u w0 :
  (forall j, j < 19 -> seen self env p v j w0 = []) ->
  seen self env p v 19 w0 <> [] ->
  (poll_for_output_files self env p v u w0).1 = Return 20
  /\ recorded_statuses (poll_for_output_files self env p v u w0).2
     = recorded_statuses w0 ++ [JStr "completed"; JStr "timeout"].
Proof.
  intros Hidle Hfound.
  pose proof (poll_loop_found self env p v w0 (clock env 0) max_attempts 0 19 eq_refl) as Hloop.
  change (after_idle self env p v 0 w0) with w0 in Hloop.
  assert (Hin : 0 <= 19 < max_attempts) by (unfold max_attempts; lia).
  assert (Hbefore : forall j, 0 <= j < 19 -> seen self env p v j w0 = [])
    by (intros j Hj; apply Hidle; lia).
  rewrite (poll_after_loop _ _ _ _ _ _ _ _ (Hloop Hin Hbefore Hfound)).
  change (max_attempts <=? 19 + 1) with true. cbv iota.
  destruct (timeout_statuses self (clock env (19 + 1)) p v
              (Some (epoch (clock env (19 + 1)) - epoch (clock env 0))%Z) (19 + 1)
              (completion self env (clock env 0) p v (19 + 1) (seen self env p v 19 w0)
                 (after_idle self env p v 20 w0))) as [Hr Hs].
  split; [exact Hr|]. rewrite Hs, completion_statuses.
  unfold recorded_statuses. rewrite after_idle_db, <- app_assoc. reflexivity.
Qed.

(** The first cycle among the first [n] that finds something, if any. *)
Lemma first_found self env p v w0 n :
  (forall j, j < n -> seen self env p v j w0 = [])
  \/ exists k, k < n /\ seen self env p v k w0 <> []
               /\ forall j, j < k -> seen self env p v j w0 = [].
Proof.
  induction n as [|n [IH|IH]].
  - left. intros j Hj. lia.
  - destruct (seen self env p v n w0) as [|f l] eqn:E.
    + left. intros j Hj. destruct (decide (j = n)) as [->|]; [done|]. apply IH. lia.
    + right. exists n. split; [lia|]. split; [by rewrite E|]. intros j Hj. by apply IH.
  - right. destruct IH as (k & Hk & Hfound & Hidle). exists k. split; [lia|]. done.
Qed.

(** X17. Every run of [poll_for_output_files], whatever the worker and the
    store do while it runs: the task never raises and ends with [attempt]
    between 1 and 20.  Below 20 it recorded exactly one status, [completed],
    in the cycle that first found artifacts.  At 20 it recorded [timeout],
    preceded by [completed] exactly when the twentieth cycle was the first to
    find artifacts.  So a timeout is recorded exactly when all twenty attempts
    are used, and some status is always recorded. *)
Theorem every_poll_ends_with_a_status self env p v u w0 :
  exists a statuses,
    (poll_for_output_files self env p v u w0).1 = Return a
    /\ 1 <= a <= 20
    /\ recorded_statuses (poll_for_output_files self env p v u w0).2
       = recorded_statuses w0 ++ statuses
    /\ (forall j, j < a - 1 -> seen self env p v j w0 = [])
    /\ ((a < 20 /\ seen self env p v (a - 1) w0 <> [] /\ statuses = [JStr "completed"])
        \/ (a = 20 /\ seen self env p v 19 w0 <> []
            /\ statuses = [JStr "completed"; JStr "timeout"])
        \/ (a = 20 /\ seen self env p v 19 w0 = [] /\ statuses = [JStr "timeout"])).
Proof.
  destruct (first_found self env p v w0 20) as [Hidle|(k & Hk & Hfound & Hidle)].
  - destruct (poll_times_out self env p v u w0 Hidle) as [Hr Hs].
    exists 20, [JStr "timeout"]. split; [exact Hr|]. split; [lia|]. split; [exact Hs|].
    split; [intros j Hj; apply Hidle; lia|].
    right. right. split; [done|]. split; [apply Hidle; lia|done].
  - destruct (decide (k = 19)) as [->|Hne].
    + destruct (poll_completes_last self env p v u w0 Hidle Hfound) as [Hr Hs].
      exists 20, [JStr "completed"; JStr "timeout"].
      split; [exact Hr|]. split; [lia|]. split; [exact Hs|].
      split; [intros j Hj; apply Hidle; lia|]. right. left. done.
    + assert (Hk' : k < 19) by lia.
      destruct (poll_completes_early self env p v u w0 k Hk' Hidle Hfound) as [Hr Hs].
      exists (k + 1), [JStr "completed"].
      split; [exact Hr|]. split; [lia|]. split; [exact Hs|].
      replace (k + 1 - 1) with k by lia. split; [exact Hidle|].
      left. split; [lia|]. done.
Qed.

End MonitorMore.

(** ** The operations one after the other *)
Module EndToEnd.
Import S3 S3Service S3Listing Monitor Further Spec PyStrFacts StoreFacts Recovery
  RecoveryMore ListingMore ReadBack MonitorFacts Allocation.

(** The world a run leaves that completes before the twentieth cycle. *)
Lemma poll_early_world self env p v u w0 k :
  k < 19 ->
  (forall j, j < k -> seen self env p v j w0 = []) ->
  seen self env p v k w0 <> [] ->
  (poll_for_output_files self env p v u w0).2
  = completion self env (clock env 0) p v (k + 1) (seen self env p v k w0)
      (after_idle self env p v (S k) w0).
Proof.
  intros Hk Hidle Hfound.
  pose proof (poll_loop_found self env p v w0 (clock env 0) max_attempts 0 k eq_refl) as Hloop.
  change (after_idle self env p v 0 w0) with w0 in Hloop.
  assert (Hin : 0 <= k < max_attempts) by (unfold max_attempts; lia).
  assert (Hbefore : forall j, 0 <= j < k -> seen self env p v j w0 = [])
    by (intros j Hj; apply Hidle; lia).
  rewrite (poll_after_loop _ _ _ _ _ _ _ _ (Hloop Hin Hbefore Hfound)).
  assert ((max_attempts <=? (k + 1)) = false) as -> by (apply Nat.leb_gt; unfold max_attempts; lia).
  reflexivity.
Qed.

(** X18. A run of [poll_for_output_files] that first finds artifacts in a
    cycle before the twentieth, on a configured store that answers when that
    cycle has made its check: in the world the run leaves, the processed
    marker of the version is stored, and [get_version_metadata] returns a
    dictionary whose [output_files] are the file names found by that check,
    in order, with worker [aws-freecad-worker] and the version as
    [input_version]; every key other than the marker and [metadata.json] is
    as it was right after that check. *)
Theorem completed_poll_leaves_metadata self env p v u w0 k :
  not_configured self = false -> k < 19 ->
  (forall j, j < k -> seen self env p v j w0 = []) ->
  seen self env p v k w0 <> [] ->
  outages (after_idle self env p v (S k) w0) = [] ->
  let w := (poll_for_output_files self env p v u w0).2 in
  is_Some (objects w !! processed_key p v)
  /\ (exists md,
        get_version_metadata self p v w = (Return (Some md), w)
        /\ md !! "output_files" = Some (JList (map filename (seen self env p v k w0)))
        /\ md !! "worker_id" = Some (JStr "aws-freecad-worker")
        /\ md !! "input_version" = Some (JInt (Z.of_nat v)))
  /\ (forall key, key <> processed_key p v -> key <> metadata_key p v ->
        objects w !! key = objects (after_idle self env p v (S k) w0) !! key).
Proof.
  intros Hc Hk Hidle Hfound Ho w. subst w.
  rewrite (poll_early_world self env p v u w0 k Hk Hidle Hfound).
  destruct (after_idle self env p v (S k) w0) as [m o db]. simpl in Ho. subst o.
  assert (Hfiles : map filename (seen self env p v k w0) <> []).
  { destruct (seen self env p v k w0); [done|discriminate]. }
  generalize dependent (seen self env p v k w0). intros files _ Hfiles.
  unfold completion, record_completion.
  destruct (mark_processed_healthy self (clock env (k + 1)) p v (map filename files)
              (Some (epoch (clock env (k + 1)) - epoch (clock env 0))%Z)
              (Some "aws-freecad-worker")
              (Some (p +:+ "_info_" +:+ compact (clock env (k + 1)) +:+ ".log")) m db Hc)
    as (m' & Hrun & Hmarker & Hframe & _ & Hsome).
  unfold bind. rewrite Hrun. unfold try_any, try_except, update_project. cbn [fst snd objects].
  split; [done|]. split; [|done].
  destruct (Hsome Hfiles) as (md & Hmd & Hout & Hv & Hw & _).
  exists md. rewrite (get_version_metadata_healthy self p v m' _ Hc), Hmd.
  split; [reflexivity|]. split; [done|]. split; [exact Hw|done].
Qed.





(** A key listed among the error records starts with the letter [e], so it
    is no script, marker, output or log key. *)
Lemma errors_key_first_letter scope k :
  PyStr.startswith (errors_prefix scope) k = true -> exists rest, k = String "e" rest.
Proof.
  assert (H : forall tail, PyStr.startswith ("errors/" +:+ tail) k = true ->
                           exists rest, k = String "e" rest).
  { intros tail. destruct k as [|a rest]; [discriminate|].
    change ("errors/" +:+ tail) with (String "e" ("rrors/" +:+ tail)).
    cbn [PyStr.startswith]. destruct (Ascii.eqb_spec "e" a) as [<-|]; [by eexists|discriminate]. }
  unfold errors_prefix. destruct scope as [p|].
  - destruct (String.eqb p ""); [apply (H "")|].
    rewrite <- (append_assoc "errors/" p "/"). apply H.
  - apply (H "").
Qed.

Lemma errors_key_other_version scope now p v k :
  PyStr.startswith (errors_prefix scope) k = true -> k <> error_key p v ->
  ~ of_version p v k /\ k <> fix_log_key now p v.
Proof.
  intros Hp Hne. apply errors_key_first_letter in Hp as [rest ->]. split.
  - intros [H|[H|[H|H]]].
    + revert H. unfold script_key. discriminate.
    + revert H. unfold processed_key. discriminate.
    + done.
    + revert H. unfold output_prefix.
      change ("output/" +:+ ?x) with (String "o" ("utput/" +:+ x)). discriminate.
  - unfold fix_log_key. discriminate.
Qed.

(** X20. An automatic fix leaves the failure on record.  On a store that
    answers and whose listing of the error records asked for (of the project,
    or of all projects) fits one page of 1000 keys, for a version with a
    stored error record whose [retry_count] is the number [c]: after
    [auto_fix_failed_script] answered [True], the list of
    [get_failed_scripts] still holds the entry of that record with the same
    [retry_count] and with [can_retry] true exactly when [c < 3], and a retry
    of the version still succeeds exactly when [c < 3]. *)
Theorem fixed_version_stays_a_failure self ai now now' p v msg log scope w d ct md c :
  s3_client self = true -> outages w = [] ->
  objects w !! error_key p v = Some (mk_object (Json d) ct md) ->
  as_int (default (JInt 0) (d !! "retry_count")) = Some c ->
  scope = None \/ scope = Some p ->
  one_page (errors_prefix scope) w ->
  (auto_fix_failed_script self ai now p v (Some msg) log w).1 = Return true ->
  let w' := (auto_fix_failed_script self ai now p v (Some msg) log w).2 in
  exists l r w'',
    get_failed_scripts self scope w' = (Return l, w')
    /\ (exists e, e ∈ l
          /\ e !! "error_file" = Some (JStr (error_key p v))
          /\ e !! "retry_count" = Some (default (JInt 0) (d !! "retry_count"))
          /\ e !! "can_retry" = Some (JBool (c <? 3)%Z))
    /\ retry_failed_script self now' p v w' = (Return r, w'')
    /\ answer_ok r = (c <? 3)%Z.
Proof.
  intros Hc Ho Hrec Hcount Hscope Hpage Hok w'. subst w'.
  destruct w as [m o db]. unfold one_page in Hpage. simpl in Ho, Hrec, Hpage. subst o.
  destruct (auto_fix_healthy self ai now p v msg log m db Hc)
    as (b & m' & Hrun & _ & _ & Hyes).
  rewrite Hrun in *. cbn [fst snd] in *. injection Hok as ->.
  destruct (Hyes eq_refl) as (_ & _ & Herr & Hframe).
  assert (Hpage' : length (list_prefix (errors_prefix scope) m') <= page_size).
  { rewrite (length_list_prefix_agree (errors_prefix scope) m m'); [exact Hpage|].
    intros k Hk. destruct (decide (k = error_key p v)) as [->|Hne]; [exact Herr|].
    destruct (errors_key_other_version scope now p v k Hk Hne) as [Hv Hl].
    by apply Hframe. }
  rewrite Hrec in Herr.
  destruct (failed_listing_lemma self now' p v m' db d ct md c scope Hc Herr Hcount Hscope
              Hpage')
    as (l & r & w'' & Hl & He & _ & Hr & Hok).
  exists l, r, w''. done.
Qed.

(** X21. A fresh submission is the newest script.  On a configured store
    that answers and holds fewer than 1000 keys under [input/p/] (so that
    the listing fits one page also after the submission), [upload_script]
    reports a version [n], and after it the first entry of
    [list_project_scripts] has version [n], the key [input/p/p_vn.py] and the
    metadata the submission stored, and [get_next_version] gives [n + 1]. *)
Theorem submission_is_the_newest_script self now code p user w :
  not_configured self = false -> outages w = [] ->
  length (list_prefix (input_prefix p) (objects w)) < page_size ->
  exists r n w' s rest,
    upload_script self now code p user w = (Return r, w')
    /\ up_version r = Some n
    /\ list_project_scripts self p w' = (Return (s :: rest), w')
    /\ script_version s = n
    /\ script_path s = script_key p n
    /\ script_metadata s = upload_metadata p n (isoformat now) user
    /\ get_next_version self p w' = (Return (n + 1), w').
Proof.
  intros Hc Ho Hpage. destruct w as [m o db]. simpl in Ho, Hpage. subst o.
  destruct (upload_script_healthy self now code p user m db Hc)
    as (r & n & Hnext & Hup & _ & Hn).
  exists r, n. eexists. cut (exists s rest,
    list_project_scripts self p
      (mk_world (<[script_key p n := mk_object (Text code) "text/x-python"
                                       (upload_metadata p n (isoformat now) user)]> m) [] db)
    = (Return (s :: rest),
       mk_world (<[script_key p n := mk_object (Text code) "text/x-python"
                                       (upload_metadata p n (isoformat now) user)]> m) [] db)
    /\ script_version s = n
    /\ script_path s = script_key p n
    /\ script_metadata s = upload_metadata p n (isoformat now) user
    /\ get_next_version self p
         (mk_world (<[script_key p n := mk_object (Text code) "text/x-python"
                                          (upload_metadata p n (isoformat now) user)]> m) [] db)
       = (Return (n + 1),
          mk_world (<[script_key p n := mk_object (Text code) "text/x-python"
                                          (upload_metadata p n (isoformat now) user)]> m) [] db)).
  { intros (s & rest & H). exists s, rest. split; [exact Hup|]. split; [exact Hn|]. exact H. }
  destruct (next_version_spec self p m db Hc) as (n' & Hnext' & _ & Hbelow); [lia|].
  rewrite Hnext in Hnext'. injection Hnext' as <-.
  set (ob := mk_object (Text code) "text/x-python" (upload_metadata p n (isoformat now) user)).
  set (m' := <[script_key p n := ob]> m).
  assert (Hfresh : m !! script_key p n = None).
  { destruct (m !! script_key p n) as [old|] eqn:E; [|done].
    destruct (Hbelow n) as [Hlt _]; [|lia].
    exists (script_key p n), old. split; [done|].
    split; [apply script_key_in_namespace|apply version_search_script_key]. }
  assert (Hpage' : length (list_prefix (input_prefix p) m') <= page_size).
  { unfold m'. rewrite length_list_prefix_insert;
      [lia|done|apply script_key_in_namespace]. }
  destruct (scripts_and_next_version self p m' db Hc Hpage')
    as (l & nx & Hl & Hnx & Hmem & Hentries & _ & Hhead).
  assert (Hnew : has_version p (mk_world m' [] db) n).
  { exists (script_key p n), ob. split; [apply lookup_insert_eq|].
    split; [apply script_key_in_namespace|apply version_search_script_key]. }
  assert (Hmax : forall k, has_version p (mk_world m' [] db) k -> k <= n).
  { intros k (key & o & Hkey & Hp & Hs). simpl in Hkey.
    destruct (decide (key = script_key p n)) as [->|Hne].
    - rewrite version_search_script_key in Hs. injection Hs as <-. done.
    - unfold m' in Hkey. rewrite lookup_insert_ne in Hkey by done.
      destruct (Hbelow k) as [Hlt _]; [by exists key, o|]. lia. }
  destruct l as [|s rest].
  { apply Hmem in Hnew. by apply not_elem_of_nil in Hnew. }
  assert (Hs : script_version s = n).
  { apply Nat.le_antisymm.
    - apply Hmax, Hmem. apply list_elem_of_here.
    - apply Hmem in Hnew. apply list_elem_of_lookup in Hnew as [i Hi].
      destruct (scripts_and_next_version self p m' db Hc Hpage')
        as (l2 & nx2 & Hl2 & _ & _ & _ & Hsorted & _).
      rewrite Hl in Hl2. injection Hl2 as <-.
      change (map script_version ?x) with (script_version <$> x) in Hi.
      rewrite list_lookup_fmap in Hi.
      destruct ((s :: rest) !! i) as [b|] eqn:Hb; [|discriminate].
      simpl in Hi. injection Hi as Hi. destruct i as [|i].
      + simpl in Hb. injection Hb as ->. lia.
      + rewrite <- Hi. apply (Hsorted 0 (S i) s b); [done|done|lia]. }
  destruct (Hentries s (list_elem_of_here _ _)) as (Hsearch & Hprefix & o & Ho & Hmd).
  assert (Hpath : script_path s = script_key p n).
  { destruct (decide (script_path s = script_key p n)) as [|Hne]; [done|].
    simpl in Ho. unfold m' in Ho. rewrite lookup_insert_ne in Ho by done.
    destruct (Hbelow n) as [Hlt _]; [|lia].
    exists (script_path s), o. rewrite Hs in Hsearch. done. }
  exists s, rest. split; [exact Hl|]. split; [done|]. split; [done|]. split.
  - simpl in Ho. rewrite Hpath in Ho. unfold m' in Ho. rewrite lookup_insert_eq in Ho.
    injection Ho as <-. by rewrite <- Hmd.
  - rewrite Hnx. by rewrite Hhead, Hs.
Qed.

End EndToEnd.

(** ** The further statements at concrete worlds *)
Module MoreExamples.
Import S3 S3Service S3Listing Monitor Further Spec Samples MoreSamples.
Import Submission RecoveryMore AnalyzerMore ListingMore ReadBack MonitorMore EndToEnd.

Lemma each_below (n : nat) (P : nat -> Prop) :
  Forall P (seq 0 n) -> forall j, j < n -> P j.
Proof.
  intros H j Hj. rewrite Forall_forall in H. apply H.
  apply list_elem_of_In, in_seq. lia.
Qed.

(** X3 at the submitted demo job: a second submission is read back. *)
Lemma upload_then_read_back_witness :
  exists r n w', upload_script svc t1 "print(2)" "demo" (Some "user-1") submitted_world
                 = (Return r, w')
    /\ up_success r = true /\ up_version r = Some n /\ 1 <= n
    /\ get_script_content svc "demo" n w' = (Return (Some "print(2)"), w')
    /\ (forall k, k <> script_key "demo" n ->
          objects w' !! k = objects submitted_world !! k).
Proof.
  exact (upload_then_read_back svc t1 "print(2)" "demo" (Some "user-1") submitted_world
           eq_refl eq_refl).
Defined.

(** X4 at the failed demo job with one retry used: of three further retries
    the first two succeed and the stored count ends at 3. *)
Lemma retries_stop_at_three_witness :
  exists answers w',
    retry_all svc [t0; t1; t1] "demo" 1 (failed_world 1) = (Return answers, w')
    /\ length answers = 3
    /\ (forall i r, answers !! i = Some r ->
          answer_ok r = bool_decide (1 + Z.of_nat i < 3)%Z)
    /\ stored_retry_count "demo" 1 w' = Some (JInt (Z.min 3 (1 + Z.of_nat 3))).
Proof.
  assert (H1 : objects (failed_world 1) !! error_key "demo" 1
               = Some (mk_object (Json (error_data 1)) "application/json" ∅))
    by (vm_compute; reflexivity).
  assert (H2 : error_data 1 !! "retry_count" = Some (JInt 1)) by (vm_compute; reflexivity).
  assert (H3 : (1 <= 3)%Z) by lia.
  exact (retries_stop_at_three svc [t0; t1; t1] "demo" 1 (failed_world 1) (error_data 1)
           "application/json" ∅ 1%Z eq_refl eq_refl H1 H2 H3).
Defined.

(** X6 at the failed demo job with the budget used up: marking it again with
    count 0 lets the next retry succeed. *)
Lemma marking_sets_the_budget_witness :
  exists w1 r w2,
    mark_script_failed svc t0 "demo" 1 "boom" 0 (failed_world 3) = (Return true, w1)
    /\ retry_failed_script svc t1 "demo" 1 w1 = (Return r, w2)
    /\ answer_ok r = bool_decide (0 < 3)%Z
    /\ ((0 < 3)%Z -> r !! "retry_count" = Some (JInt (0 + 1))
                     /\ stored_retry_count "demo" 1 w2 = Some (JInt (0 + 1)))
    /\ ((3 <= 0)%Z -> w2 = w1).
Proof.
  exact (marking_sets_the_budget svc t0 t1 "demo" 1 "boom" 0%Z (failed_world 3)
           eq_refl eq_refl).
Defined.


(** X9 at the failed demo job, with a text generator that never answers. *)
Lemma auto_fix_all_or_nothing_witness :
  exists b w',
    auto_fix_failed_script svc no_ai t1 "demo" 1 (Some "No module named cadquery") None
      (failed_world 1) = (Return b, w')
    /\ (b = false <-> objects (failed_world 1) !! script_key "demo" 1 = None)
    /\ (b = false -> w' = failed_world 1)
    /\ (b = true ->
          (exists fixed md,
             objects w' !! script_key "demo" 1
             = Some (mk_object (Text fixed) "text/plain" md)
             /\ PyStr.contains "import FreeCAD" fixed = true
             /\ md !! "original_error" = Some "No module named cadquery")
          /\ is_Some (objects w' !! fix_log_key t1 "demo" 1)
          /\ objects w' !! error_key "demo" 1 = objects (failed_world 1) !! error_key "demo" 1
          /\ (forall k, ~ of_version "demo" 1 k -> k <> fix_log_key t1 "demo" 1 ->
                objects w' !! k = objects (failed_world 1) !! k)).
Proof.
  exact (auto_fix_all_or_nothing svc no_ai t1 "demo" 1 "No module named cadquery" None
           (failed_world 1) eq_refl eq_refl).
Defined.

(** X10 at a log of three uneventful lines. *)
Lemma quiet_log_is_unknown_witness : _parse_log_content quiet_log = unknown_error.
Proof.
  apply (quiet_log_is_unknown quiet_log).
  assert (E : PyStr.split "010" quiet_log
              = ["worker started"; "document recomputed"; "worker finished"])
    by (vm_compute; reflexivity).
  rewrite E. repeat constructor.
Defined.

(** X13 at the job with two versions, asked with version 0. *)
Lemma all_versions_witness :
  exists l w', check_output_files svc "demo" (Some 0) two_versions_world = (Return l, w')
    /\ objects w' = objects two_versions_world
    /\ forall i j fi fj, l !! i = Some fi -> l !! j = Some fj -> i < j ->
         exists vi vj, file_version fi = Some vi /\ file_version fj = Some vj /\ vj <= vi.
Proof.
  exact (all_versions_are_listed_newest_first svc "demo" (Some 0) two_versions_world eq_refl).
Defined.

(** X14 at the job with two versions. *)
Lemma newest_script_witness :
  exists l n,
    list_project_scripts svc "demo" two_versions_world = (Return l, two_versions_world)
    /\ get_next_version svc "demo" two_versions_world = (Return n, two_versions_world)
    /\ (forall k, k ∈ map script_version l <-> has_version "demo" two_versions_world k)
    /\ (forall s, s ∈ l ->
          version_pattern_search "demo" (script_path s) = Some (script_version s)
          /\ PyStr.startswith (input_prefix "demo") (script_path s) = true
          /\ exists o, objects two_versions_world !! script_path s = Some o
                       /\ Metadata o = script_metadata s)
    /\ (forall i j a b, l !! i = Some a -> l !! j = Some b -> i < j ->
          script_version b <= script_version a)
    /\ match l with
       | [] => n = 1
       | s :: _ => n = script_version s + 1
       end.
Proof.
  assert (Hpage : one_page (input_prefix "demo") two_versions_world)
    by (unfold one_page, page_size; vm_compute; lia).
  exact (newest_script_is_one_below_next_version svc "demo" two_versions_world
           eq_refl eq_refl Hpage).
Defined.

(** X15 at the failed demo job with one retry used. *)
Lemma failed_listing_witness :
  exists l r w',
    get_failed_scripts svc (Some "demo") (failed_world 1) = (Return l, failed_world 1)
    /\ (exists e, e ∈ l
          /\ e !! "error_file" = Some (JStr (error_key "demo" 1))
          /\ e !! "retry_count" = Some (default (JInt 0) (error_data 1 !! "retry_count"))
          /\ e !! "can_retry" = Some (JBool (1 <? 3)%Z))
    /\ (forall e, e ∈ l ->
          exists k o, objects (failed_world 1) !! k = Some o
                      /\ PyStr.endswith "_error.json" k = true
                      /\ e !! "error_file" = Some (JStr k))
    /\ retry_failed_script svc t1 "demo" 1 (failed_world 1) = (Return r, w')
    /\ answer_ok r = (1 <? 3)%Z.
Proof.
  assert (H1 : objects (failed_world 1) !! error_key "demo" 1
               = Some (mk_object (Json (error_data 1)) "application/json" ∅))
    by (vm_compute; reflexivity).
  assert (H2 : as_int (default (JInt 0) (error_data 1 !! "retry_count")) = Some 1%Z)
    by (vm_compute; reflexivity).
  assert (Hpage : one_page (errors_prefix (Some "demo")) (failed_world 1))
    by (unfold one_page, page_size; vm_compute; lia).
  exact (failed_listing_agrees_with_retry svc t1 "demo" 1 (failed_world 1) (error_data 1)
           "application/json" ∅ 1%Z (Some "demo") eq_refl eq_refl H1 H2 (or_intror eq_refl)
           Hpage).
Defined.


(** X16 at the submitted demo job: the marker and the metadata of one
    artifact. *)
Lemma processed_metadata_witness :
  exists w',
    mark_script_processed svc t1 "demo" 1 ["model.stl"] (Some 600%Z) (Some "worker-7") None
      submitted_world = (Return true, w')
    /\ is_Some (objects w' !! processed_key "demo" 1)
    /\ (forall k, k <> processed_key "demo" 1 -> k <> metadata_key "demo" 1 ->
          objects w' !! k = objects submitted_world !! k)
    /\ (["model.stl"] = [] ->
        objects w' !! metadata_key "demo" 1 = objects submitted_world !! metadata_key "demo" 1)
    /\ (["model.stl"] <> [] ->
        exists md,
          get_version_metadata svc "demo" 1 w' = (Return (Some md), w')
          /\ md !! "output_files" = Some (JList ["model.stl"])
          /\ md !! "input_version" = Some (JInt (Z.of_nat 1))
          /\ md !! "worker_id" = Some (JStr (or_default (Some "worker-7") "unknown"))
          /\ md !! "script_hash" = Some (recorded_hash "demo" 1 (objects submitted_world))).
Proof.
  exact (processed_metadata_reads_back svc t1 "demo" 1 ["model.stl"] (Some 600%Z)
           (Some "worker-7") None submitted_world eq_refl eq_refl).
Defined.

(** X18 at the early worker: the artifact appears during the third sleep and
    the run ends there. *)
Lemma completed_poll_witness :
  let w := (poll_for_output_files svc early_worker "demo" 1 "user-1" submitted_world).2 in
  is_Some (objects w !! processed_key "demo" 1)
  /\ (exists md,
        get_version_metadata svc "demo" 1 w = (Return (Some md), w)
        /\ md !! "output_files"
           = Some (JList (map filename (seen svc early_worker "demo" 1 2 submitted_world)))
        /\ md !! "worker_id" = Some (JStr "aws-freecad-worker")
        /\ md !! "input_version" = Some (JInt (Z.of_nat 1)))
  /\ (forall key, key <> processed_key "demo" 1 -> key <> metadata_key "demo" 1 ->
        objects w !! key
        = objects (after_idle svc early_worker "demo" 1 3 submitted_world) !! key).
Proof.
  assert (H1 : 2 < 19) by lia.
  assert (H2 : forall j, j < 2 -> seen svc early_worker "demo" 1 j submitted_world = []).
  { apply (each_below 2 (fun j => seen svc early_worker "demo" 1 j submitted_world = [])).
    repeat constructor. }
  assert (H3 : seen svc early_worker "demo" 1 2 submitted_world <> [])
    by (vm_compute; discriminate).
  assert (H4 : outages (after_idle svc early_worker "demo" 1 3 submitted_world) = [])
    by (vm_compute; reflexivity).
  exact (completed_poll_leaves_metadata svc early_worker "demo" 1 "user-1" submitted_world 2
           eq_refl H1 H2 H3 H4).
Defined.


(** X20 at the failed demo job with one retry used. *)
Lemma fixed_version_witness :
  let w' := (auto_fix_failed_script svc no_ai t1 "demo" 1 (Some "No module named cadquery")
               None (failed_world 1)).2 in
  exists l r w'',
    get_failed_scripts svc (Some "demo") w' = (Return l, w')
    /\ (exists e, e ∈ l
          /\ e !! "error_file" = Some (JStr (error_key "demo" 1))
          /\ e !! "retry_count" = Some (default (JInt 0) (error_data 1 !! "retry_count"))
          /\ e !! "can_retry" = Some (JBool (1 <? 3)%Z))
    /\ retry_failed_script svc t1 "demo" 1 w' = (Return r, w'')
    /\ answer_ok r = (1 <? 3)%Z.
Proof.
  assert (H1 : objects (failed_world 1) !! error_key "demo" 1
               = Some (mk_object (Json (error_data 1)) "application/json" ∅))
    by (vm_compute; reflexivity).
  assert (H2 : as_int (default (JInt 0) (error_data 1 !! "retry_count")) = Some 1%Z)
    by (vm_compute; reflexivity).
  assert (H3 : (auto_fix_failed_script svc no_ai t1 "demo" 1
                  (Some "No module named cadquery") None (failed_world 1)).1 = Return true)
    by (vm_compute; reflexivity).
  assert (Hpage : one_page (errors_prefix (Some "demo")) (failed_world 1))
    by (unfold one_page, page_size; vm_compute; lia).
  exact (fixed_version_stays_a_failure svc no_ai t1 t1 "demo" 1 "No module named cadquery"
           None (Some "demo") (failed_world 1) (error_data 1) "application/json" ∅ 1%Z
           eq_refl eq_refl H1 H2 (or_intror eq_refl) Hpage H3).
Defined.

(** X21 at the job with two versions: the third submission. *)
Lemma submission_is_newest_witness :
  exists r n w' s rest,
    upload_script svc t1 "print(3)" "demo" (Some "user-1") two_versions_world = (Return r, w')
    /\ up_version r = Some n
    /\ list_project_scripts svc "demo" w' = (Return (s :: rest), w')
    /\ script_version s = n
    /\ script_path s = script_key "demo" n
    /\ script_metadata s = upload_metadata "demo" n (isoformat t1) (Some "user-1")
    /\ get_next_version svc "demo" w' = (Return (n + 1), w').
Proof.
  assert (Hpage : length (list_prefix (input_prefix "demo") (objects two_versions_world))
                  < page_size)
    by (unfold page_size; vm_compute; lia).
  exact (submission_is_the_newest_script svc t1 "print(3)" "demo" (Some "user-1")
           two_versions_world eq_refl eq_refl Hpage).
Defined.

End MoreExamples.

